(** * admin_time: sync orchestrator, reminder engine and notification dispatcher

    A shallow embedding of the backend's two periodic jobs and of the two
    services they drive:

    - [ClassroomService]   (backend/src/services/classroom.service.ts)
    - [NotificationService] (backend/src/services/notification.service.ts)
    - [SyncJob], [ReminderJob] (backend/src/jobs/sync.job.ts, reminder.job.ts)

    Persistence (Prisma) is modelled as a record of tables, each a list of
    rows; the upstream coursework API, the push gateway and the clock are
    the fields of an environment record.  Asynchronous methods become
    computations in a state-and-exception monad over the store and a trace
    of observable events (upstream calls, push deliveries, log lines). *)

From Stdlib Require Import ZArith List String Ascii Bool Lia RelationClasses.
From Stdlib Require Import DecimalString.
Import ListNotations.

Local Open Scope string_scope.
Local Open Scope Z_scope.

(** ** JavaScript-level helpers *)

Module JS.

(** [a || b] on an optional number: [undefined], [null] and [0] are falsy. *)
Definition num_or (o : option Z) (d : Z) : Z :=
  match o with
  | Some v => if v =? 0 then d else v
  | None => d
  end.

(** [a || b] on an optional string: [undefined], [null] and [''] are falsy. *)
Definition str_or (o : option string) (d : string) : string :=
  match o with
  | Some EmptyString => d
  | Some s => s
  | None => d
  end.

Definition truthy_str (o : option string) : bool :=
  match o with
  | Some EmptyString => false
  | Some _ => true
  | None => false
  end.

(** [n.toString()] for an integer. *)
Definition toString (n : Z) : string := NilZero.string_of_int (Z.to_int n).

Fixpoint repeat_char (c : ascii) (n : nat) : string :=
  match n with
  | O => EmptyString
  | S k => String c (repeat_char c k)
  end.

(** [s.padStart(len, c)] with a one-character filler. *)
Definition padStart (s : string) (len : nat) (c : ascii) : string :=
  (repeat_char c (len - String.length s) ++ s)%string.

(** [a >= b] and [a <= b] on strings: code-unit lexicographic order. *)
Definition str_ge (a b : string) : bool := String.leb b a.
Definition str_le (a b : string) : bool := String.leb a b.

(** [s.split(sep)] for a one-character separator. *)
Fixpoint split_on (sep : ascii) (s : string) : list string :=
  match s with
  | EmptyString => [EmptyString]
  | String c rest =>
      if Ascii.eqb c sep then EmptyString :: split_on sep rest
      else match split_on sep rest with
           | [] => [String c EmptyString]
           | x :: xs => String c x :: xs
           end
  end.

Definition digit_val (c : ascii) : option Z :=
  let n := Z.of_nat (nat_of_ascii c) in
  if (48 <=? n) && (n <=? 57) then Some (n - 48) else None.

Fixpoint digits_val (acc : Z) (s : string) : option Z :=
  match s with
  | EmptyString => Some acc
  | String c rest =>
      match digit_val c with
      | Some d => digits_val (acc * 10 + d) rest
      | None => None
      end
  end.

(** [Number(s)] on runs of decimal digits: the run is its value and the
    empty string is 0, as in JavaScript.  [None] stands for [NaN].  This is
    not all of [Number]: JavaScript also trims white space and reads signs,
    fractions, exponents, radix prefixes and [Infinity], and rounds long
    runs to a double; none of that is modelled, such strings are mapped to
    [None] or to the unrounded integer.  Schedule rows can hold such
    strings (the class import stores [horaInicio] unchecked), so what is
    proved about parsed times is stated for [isHHMM] strings, on which the
    model and JavaScript agree. *)
Definition Number (s : string) : option Z := digits_val 0 s.

Definition isDigit (c : ascii) : bool :=
  match digit_val c with Some _ => true | None => false end.

(** The test [/^\d{2}:\d{2}$/] of the schedule and preference routes: two
    ASCII digits, a colon, two ASCII digits, and nothing else. *)
Definition isHHMM (s : string) : bool :=
  match s with
  | String a (String b (String c (String d (String e EmptyString)))) =>
      isDigit a && isDigit b && Ascii.eqb c ":" && isDigit d && isDigit e
  | _ => false
  end.

(** ECMAScript [MakeDay] for a proleptic Gregorian date: days since the
    epoch of the first of month [m] (0-based, any integer) of year [y]. *)
Definition days_from_civil (y m : Z) : Z :=
  let ym := y + m / 12 in
  let mn := m mod 12 + 1 in
  let y' := if mn <=? 2 then ym - 1 else ym in
  let era := y' / 400 in
  let yoe := y' - era * 400 in
  let mp := (mn + 9) mod 12 in
  let doy := (153 * mp + 2) / 5 in
  let doe := yoe * 365 + yoe / 4 - yoe / 100 + doy in
  era * 146097 + doe - 719468.

(** [new Date(year, monthIndex, day, hours, minutes).getTime()], before
    [TimeClip].  The arguments are read as a local time; [localOffset]
    gives, for a local time value, the offset (local time minus UTC, in
    milliseconds) the zone's rules put in force at that local time, daylight
    saving included.  Years 0..99 mean 1900..1999, as in the Date
    constructor; months and days out of range carry over. *)
Definition newDate (localOffset : Z -> Z) (year monthIndex day hours minutes : Z) : Z :=
  let y := if (0 <=? year) && (year <=? 99) then 1900 + year else year in
  let localTime := (days_from_civil y monthIndex + (day - 1)) * 86400000
                   + hours * 3600000 + minutes * 60000 in
  localTime - localOffset localTime.


End JS.

(** ** Results and exceptions *)

Inductive Res (A : Type) : Type :=
| Ok (a : A)
| Throw (e : string).
Arguments Ok {A} a.
Arguments Throw {A} e.

Definition is_ok {A} (r : Res A) : bool :=
  match r with Ok _ => true | Throw _ => false end.

(** ** Data model (the Prisma tables the jobs touch) *)

Definition UserId := string.
Definition RowId := nat.

Inductive Status := PENDING | IN_PROGRESS | COMPLETED | SUBMITTED | LATE.
Inductive Priority := HIGH | MEDIUM | LOW.

Record User := mkUser {
  user_id : UserId;
  user_email : string
}.

Record Connection := mkConnection {
  conn_id : RowId;
  conn_userId : UserId;
  accessToken : string;
  refreshToken : string;
  tokenExpiry : Z;
  conn_syncEnabled : bool;
  lastSyncAt : option Z
}.

Record Course := mkCourse {
  course_id : RowId;
  course_userId : UserId;
  googleCourseId : string;
  course_name : string;
  course_section : option string;
  course_description : option string;
  teacherName : string;
  course_syncEnabled : bool
}.

Record Task := mkTask {
  task_id : RowId;
  task_userId : UserId;
  task_title : string;
  task_description : option string;
  isFromClassroom : bool;
  googleTaskId : option string;
  task_courseId : option RowId;
  dueDate : option Z;
  task_priority : Priority;
  task_status : Status;
  notified24h : bool;
  notified1h : bool;
  createdAt : Z
}.

Record NotificationPreference := mkPrefs {
  pref_userId : UserId;
  newTasksEnabled : bool;
  classRemindersEnabled : bool;
  classReminderMinutes : Z;
  gymRemindersEnabled : bool;
  propedeuticoEnabled : bool;
  taskDue24hEnabled : bool;
  taskDue1hEnabled : bool;
  quietHoursEnabled : bool;
  quietHoursStart : option string;
  quietHoursEnd : option string
}.

Record PushToken := mkPushToken {
  pt_userId : UserId;
  pt_token : string;
  pt_isActive : bool
}.

(** Class and propedeutico schedules share their shape. *)
Record Schedule := mkSchedule {
  sch_userId : UserId;
  sch_name : string;
  sch_dayOfWeek : Z;
  sch_startTime : string;
  sch_isActive : bool
}.

Record GymSchedule := mkGym {
  gym_userId : UserId;
  gym_dayOfWeek : Z;
  gym_startTime : string;
  gym_isActive : bool;
  skippedDates : list string
}.

Record DB := mkDB {
  users : list User;
  connections : list Connection;
  courses : list Course;
  tasks : list Task;
  notificationPrefs : list NotificationPreference;
  pushTokens : list PushToken;
  classSchedules : list Schedule;
  gymSchedules : list GymSchedule;
  propedeuticoSchedules : list Schedule;
  nextId : RowId
}.

Definition set_connections (f : list Connection -> list Connection) (d : DB) : DB :=
  mkDB (users d) (f (connections d)) (courses d) (tasks d) (notificationPrefs d)
       (pushTokens d) (classSchedules d) (gymSchedules d)
       (propedeuticoSchedules d) (nextId d).

Definition set_tasks (f : list Task -> list Task) (d : DB) : DB :=
  mkDB (users d) (connections d) (courses d) (f (tasks d)) (notificationPrefs d)
       (pushTokens d) (classSchedules d) (gymSchedules d)
       (propedeuticoSchedules d) (nextId d).

Definition set_courses (f : list Course -> list Course) (d : DB) : DB :=
  mkDB (users d) (connections d) (f (courses d)) (tasks d) (notificationPrefs d)
       (pushTokens d) (classSchedules d) (gymSchedules d)
       (propedeuticoSchedules d) (nextId d).

Definition set_pushTokens (f : list PushToken -> list PushToken) (d : DB) : DB :=
  mkDB (users d) (connections d) (courses d) (tasks d) (notificationPrefs d)
       (f (pushTokens d)) (classSchedules d) (gymSchedules d)
       (propedeuticoSchedules d) (nextId d).

Definition bump_nextId (d : DB) : DB :=
  mkDB (users d) (connections d) (courses d) (tasks d) (notificationPrefs d)
       (pushTokens d) (classSchedules d) (gymSchedules d)
       (propedeuticoSchedules d) (S (nextId d)).

(** ** Collaborators: upstream coursework API, push gateway, clock *)

Record UDate := mkUDate { ud_year : option Z; ud_month : option Z; ud_day : option Z }.
Record UTime := mkUTime { ut_hours : option Z; ut_minutes : option Z }.

Record UCourse := mkUCourse {
  uc_id : string;
  uc_name : option string;
  uc_section : option string;
  uc_description : option string;
  uc_ownerId : option string
}.

Record UTeacher := mkUTeacher {
  ut_userId : option string;
  ut_fullName : option string
}.

Record UWork := mkUWork {
  uw_id : string;
  uw_title : option string;
  uw_description : option string;
  uw_dueDate : option UDate;
  uw_dueTime : option UTime
}.

Record Credentials := mkCredentials {
  cr_access_token : string;
  cr_refresh_token : option string;
  cr_expiry_date : option Z
}.

Record PushMessage := mkPushMessage {
  pm_title : string;
  pm_body : string;
  pm_type : string
}.

Record Ticket := mkTicket {
  tk_status : string;
  tk_detailsError : option string
}.

(** What the [Date] object reports at the instant a pass runs. *)
Record Clock := mkClock {
  nowMs : Z;             (* Date.now() / getTime() *)
  getHours : Z;          (* local hour of day *)
  getMinutes : Z;        (* local minute *)
  getDay : Z;            (* local day of week, 0 = Sunday *)
  todayStr : string;     (* toISOString().split('T')[0] *)
  localOffsetMs : Z -> Z (* local time minus UTC, in force at a local time *)
}.

(** Column defaults of the Prisma schema for rows the sync creates. *)
Record SchemaDefaults := mkDefaults {
  def_course_syncEnabled : bool;
  def_task_status : Status;
  def_task_notified24h : bool;
  def_task_notified1h : bool
}.

Record Env := mkEnv {
  clock : Clock;
  defaults : SchemaDefaults;
  refreshAccessToken : UserId -> Res Credentials;
  coursesList : UserId -> Res (option (list UCourse));
  teachersList : UserId -> string -> Res (option (list UTeacher));
  courseWorkList : UserId -> string -> Res (option (list UWork));
  expoPush : list string -> PushMessage -> Res (option (list Ticket))
}.

(** ** Observable events *)

Inductive ApiCall :=
| ApiRefresh
| ApiCoursesList
| ApiTeachersList (courseId : string)
| ApiCourseWorkList (courseId : string).

Inductive LogLine :=
| LogQuietHours (userId : UserId)
| LogNoTokens (userId : UserId)
| LogCourseError (courseName : string) (err : string)
| LogSyncUserError (email : string) (err : string)
| LogSyncFound (email : string) (count : Z)
| LogSyncProcessing (n : nat)
| LogCronError (job : string) (err : string).

Inductive Event :=
| EvApi (userId : UserId) (call : ApiCall)
| EvPush (tokens : list string) (msg : PushMessage)
| EvTaskDue (taskId : RowId) (hoursLeft : Z)
| EvLog (line : LogLine).

(** ** The monad of asynchronous service code *)

Record World := mkWorld { db : DB; trace : list Event }.

Definition M (A : Type) : Type := World -> Res A * World.

Definition ret {A} (a : A) : M A := fun w => (Ok a, w).

Definition bind {A B} (m : M A) (k : A -> M B) : M B :=
  fun w => match m w with
           | (Ok a, w') => k a w'
           | (Throw e, w') => (Throw e, w')
           end.

Definition throw {A} (e : string) : M A := fun w => (Throw e, w).

Definition tryCatch {A} (m : M A) (h : string -> M A) : M A :=
  fun w => match m w with
           | (Ok a, w') => (Ok a, w')
           | (Throw e, w') => h e w'
           end.

Definition lift {A} (r : Res A) : M A := fun w => (r, w).

Definition getDb : M DB := fun w => (Ok (db w), w).

Definition modifyDb (f : DB -> DB) : M unit :=
  fun w => (Ok tt, mkWorld (f (db w)) (trace w)).

Definition emit (e : Event) : M unit :=
  fun w => (Ok tt, mkWorld (db w) (trace w ++ [e])%list).

Notation "x <- c1 ;; c2" := (bind c1 (fun x => c2))
  (at level 61, c1 at next level, right associativity).
Notation "c1 ;; c2" := (bind c1 (fun _ => c2))
  (at level 61, right associativity).

(** [for (const x of l) { await body(x) }] *)
Fixpoint forEach {A} (l : list A) (body : A -> M unit) : M unit :=
  match l with
  | [] => ret tt
  | x :: rest => body x ;; forEach rest body
  end.

(** [for (const x of l) { out.push(...await body(x)) }] *)
Fixpoint forEachCollect {A B} (l : list A) (body : A -> M (list B)) : M (list B) :=
  match l with
  | [] => ret []
  | x :: rest =>
      ys <- body x ;;
      zs <- forEachCollect rest body ;;
      ret (ys ++ zs)%list
  end.

(** Optional chaining on a preference toggle: [prefs?.flag !== false]. *)
Definition not_disabled (prefs : option NotificationPreference)
    (flag : NotificationPreference -> bool) : bool :=
  match prefs with
  | Some p => flag p
  | None => true
  end.

(** [prefs && !prefs.flag] *)
Definition disabled (prefs : option NotificationPreference)
    (flag : NotificationPreference -> bool) : bool :=
  match prefs with
  | Some p => negb (flag p)
  | None => false
  end.

(** The "HH:MM" rendering both services compute from [new Date()]. *)
Definition currentTime (c : Clock) : string :=
  (JS.padStart (JS.toString (getHours c)) 2 "0" ++ ":" ++
   JS.padStart (JS.toString (getMinutes c)) 2 "0")%string.

Definition findPrefs (d : DB) (userId : UserId) : option NotificationPreference :=
  find (fun p => String.eqb (pref_userId p) userId) (notificationPrefs d).

(** ** NotificationService (notification.service.ts) *)

Module NotificationService.

Definition deactivate (p : PushToken) : PushToken :=
  mkPushToken (pt_userId p) (pt_token p) false.

(** [pushToken.updateMany({ where: { token }, data: { isActive: false } })];
    an [undefined] filter value (index past the end of [tokens]) is no
    filter at all. *)
Definition deactivateWhere (tok : option string) (l : list PushToken) : list PushToken :=
  map (fun p =>
         match tok with
         | Some t => if String.eqb (pt_token p) t then deactivate p else p
         | None => deactivate p
         end) l.

Fixpoint handleTickets (tokens : list string) (i : nat) (data : list Ticket) : M unit :=
  match data with
  | [] => ret tt
  | ticket :: rest =>
      (if String.eqb (tk_status ticket) "error" then
         match tk_detailsError ticket with
         | Some err =>
             if String.eqb err "DeviceNotRegistered"
             then modifyDb (set_pushTokens (deactivateWhere (nth_error tokens i)))
             else ret tt
         | None => ret tt
         end
       else ret tt) ;;
      handleTickets tokens (S i) rest
  end.

Definition sendExpoPush (env : Env) (tokens : list string) (message : PushMessage)
    : M (option (list Ticket)) :=
  emit (EvPush tokens message) ;;
  result <- lift (expoPush env tokens message) ;;
  match result with
  | Some data => handleTickets tokens 0 data
  | None => ret tt
  end ;;
  ret result.

(** The quiet-hours test of [sendToUser]:
    [currentTime >= prefs.quietHoursStart || currentTime <= prefs.quietHoursEnd]. *)
Definition inQuietHours (now start end_ : string) : bool :=
  JS.str_ge now start || JS.str_le now end_.

(** [null] is [None]; a push result is [Some]. *)
Definition sendToUser (env : Env) (userId : UserId) (message : PushMessage)
    : M (option (option (list Ticket))) :=
  d <- getDb ;;
  let prefs := findPrefs d userId in
  let quiet :=
    match prefs with
    | Some p =>
        if quietHoursEnabled p && JS.truthy_str (quietHoursStart p)
           && JS.truthy_str (quietHoursEnd p)
        then inQuietHours (currentTime (clock env))
                          (JS.str_or (quietHoursStart p) "")
                          (JS.str_or (quietHoursEnd p) "")
        else false
    | None => false
    end in
  if quiet then
    emit (EvLog (LogQuietHours userId)) ;; ret None
  else
    d <- getDb ;;
    let tokens := filter (fun t => String.eqb (pt_userId t) userId && pt_isActive t)
                         (pushTokens d) in
    match tokens with
    | [] => emit (EvLog (LogNoTokens userId)) ;; ret None
    | _ => r <- sendExpoPush env (map pt_token tokens) message ;; ret (Some r)
    end.

Definition sendNewTaskNotification (env : Env) (userId : UserId)
    (taskTitle : string) (courseName : option string)
    : M (option (option (list Ticket))) :=
  d <- getDb ;;
  let prefs := findPrefs d userId in
  if disabled prefs newTasksEnabled then ret None
  else sendToUser env userId
         (mkPushMessage "📚 Nueva tarea de Classroom"
            (if JS.truthy_str courseName
             then (taskTitle ++ " - " ++ JS.str_or courseName "")%string
             else taskTitle)
            "new_task").

Definition sendClassReminderNotification (env : Env) (userId : UserId)
    (className : string) (minutesBefore : Z)
    : M (option (option (list Ticket))) :=
  d <- getDb ;;
  let prefs := findPrefs d userId in
  if disabled prefs classRemindersEnabled then ret None
  else sendToUser env userId
         (mkPushMessage "📖 Clase próxima"
            (className ++ " comienza en " ++ JS.toString minutesBefore ++ " minutos")%string
            "class_reminder").

Definition sendGymReminderNotification (env : Env) (userId : UserId)
    : M (option (option (list Ticket))) :=
  d <- getDb ;;
  let prefs := findPrefs d userId in
  if disabled prefs gymRemindersEnabled then ret None
  else sendToUser env userId
         (mkPushMessage "💪 Hora del gym" "Tu sesión de gym comienza pronto"
            "gym_reminder").

Definition sendPropedeuticoReminderNotification (env : Env) (userId : UserId)
    (name : string) : M (option (option (list Ticket))) :=
  d <- getDb ;;
  let prefs := findPrefs d userId in
  if disabled prefs propedeuticoEnabled then ret None
  else sendToUser env userId
         (mkPushMessage "📝 Propedéutico" (name ++ " comienza pronto")%string
            "propedeutico_reminder").

Definition dquote : string := String (ascii_of_nat 34) EmptyString.

Definition sendTaskDueNotification (env : Env) (userId : UserId)
    (taskTitle : string) (hoursLeft : Z) : M (option (option (list Ticket))) :=
  d <- getDb ;;
  let prefs := findPrefs d userId in
  if (hoursLeft <=? 1) && disabled prefs taskDue1hEnabled then ret None
  else if (hoursLeft <=? 24) && (1 <? hoursLeft) && disabled prefs taskDue24hEnabled
  then ret None
  else
    let timeText :=
      if hoursLeft <=? 1 then "¡en menos de 1 hora!"
      else ("en " ++ JS.toString hoursLeft ++ " horas")%string in
    sendToUser env userId
      (mkPushMessage "⏰ Tarea por vencer"
         (dquote ++ taskTitle ++ dquote ++ " vence " ++ timeText)%string
         "task_due").

End NotificationService.

(** ** ReminderJob (jobs/reminder.job.ts) *)

Module ReminderJob.

Definition getTimeInMinutes (time : string) : option Z :=
  match map JS.Number (JS.split_on ":" time) with
  | Some hours :: Some minutes :: _ => Some (hours * 60 + minutes)
  | _ => None
  end.

Definition isWithinMinutesBefore (c : Clock) (targetTime : string) (minutesBefore : Z)
    : bool :=
  match getTimeInMinutes (currentTime c), getTimeInMinutes targetTime with
  | Some nowMinutes, Some targetMinutes =>
      let diff := targetMinutes - nowMinutes in
      (0 <? diff) && (diff <=? minutesBefore)
  | _, _ => false
  end.

Definition hourMs : Z := 1000 * 60 * 60.

(** [task.update({ where: { id }, data: { notified24h: true } })] *)
Definition setNotified24h (id : RowId) (l : list Task) : list Task :=
  map (fun t =>
         if Nat.eqb (task_id t) id
         then mkTask (task_id t) (task_userId t) (task_title t) (task_description t)
                (isFromClassroom t) (googleTaskId t) (task_courseId t) (dueDate t)
                (task_priority t) (task_status t) true (notified1h t) (createdAt t)
         else t) l.

Definition setNotified1h (id : RowId) (l : list Task) : list Task :=
  map (fun t =>
         if Nat.eqb (task_id t) id
         then mkTask (task_id t) (task_userId t) (task_title t) (task_description t)
                (isFromClassroom t) (googleTaskId t) (task_courseId t) (dueDate t)
                (task_priority t) (task_status t) (notified24h t) true (createdAt t)
         else t) l.

Definition isPending (s : Status) : bool :=
  match s with
  | PENDING | IN_PROGRESS => true
  | _ => false
  end.

(** [hoursUntilDue <= 24 && hoursUntilDue > 23], on the millisecond
    difference: the quotient by 3600000 is monotone and exact at whole
    hours, so the tests on hours and on milliseconds agree. *)
Definition in24hWindow (diffMs : Z) : bool :=
  (diffMs <=? 24 * hourMs) && (23 * hourMs <? diffMs).

Definition in1hWindow (diffMs : Z) : bool :=
  (diffMs <=? 1 * hourMs) && (0 <? diffMs).

(** The body of the loop over tasks.  [EvTaskDue] records which task a
    call of [sendTaskDueNotification] is made for. *)
Definition checkTask (env : Env) (userId : UserId)
    (prefs : option NotificationPreference) (task : Task) : M unit :=
  match dueDate task with
  | None => ret tt
  | Some due =>
      let diffMs := due - nowMs (clock env) in
      (if not_disabled prefs taskDue24hEnabled && negb (notified24h task) then
         if in24hWindow diffMs then
           emit (EvTaskDue (task_id task) 24) ;;
           NotificationService.sendTaskDueNotification env userId (task_title task) 24 ;;
           modifyDb (set_tasks (setNotified24h (task_id task)))
         else ret tt
       else ret tt) ;;
      (if not_disabled prefs taskDue1hEnabled && negb (notified1h task) then
         if in1hWindow diffMs then
           emit (EvTaskDue (task_id task) 1) ;;
           NotificationService.sendTaskDueNotification env userId (task_title task) 1 ;;
           modifyDb (set_tasks (setNotified1h (task_id task)))
         else ret tt
       else ret tt)
  end.

Definition dueCandidates (userId : UserId) (l : list Task) : list Task :=
  filter (fun t => String.eqb (task_userId t) userId
                   && isPending (task_status t)
                   && match dueDate t with Some _ => true | None => false end) l.

Definition checkTaskDueReminders (env : Env) (userId : UserId)
    (prefs : option NotificationPreference) : M unit :=
  d <- getDb ;;
  forEach (dueCandidates userId (tasks d)) (checkTask env userId prefs).

Definition todaysSchedules (userId : UserId) (today : Z) (l : list Schedule)
    : list Schedule :=
  filter (fun s => String.eqb (sch_userId s) userId
                   && (sch_dayOfWeek s =? today) && sch_isActive s) l.

Definition todaysGym (userId : UserId) (today : Z) (l : list GymSchedule)
    : list GymSchedule :=
  filter (fun s => String.eqb (gym_userId s) userId
                   && (gym_dayOfWeek s =? today) && gym_isActive s) l.

Definition includes (l : list string) (s : string) : bool :=
  existsb (String.eqb s) l.

Definition activeTokens (d : DB) (userId : UserId) : list PushToken :=
  filter (fun t => String.eqb (pt_userId t) userId && pt_isActive t) (pushTokens d).

(** The body of the loop over users; [prefs] and [tokens] are the
    relations loaded with the user by the initial [findMany]. *)
Definition processUser (env : Env) (user : User)
    (prefs : option NotificationPreference) (tokens : list PushToken) : M unit :=
  match tokens with
  | [] => ret tt
  | _ =>
      let today := getDay (clock env) in
      let reminderMinutes := JS.num_or (option_map classReminderMinutes prefs) 15 in
      (if not_disabled prefs classRemindersEnabled then
         d <- getDb ;;
         forEach (todaysSchedules (user_id user) today (classSchedules d))
           (fun cls =>
              if isWithinMinutesBefore (clock env) (sch_startTime cls) reminderMinutes
              then NotificationService.sendClassReminderNotification env
                     (user_id user) (sch_name cls) reminderMinutes ;; ret tt
              else ret tt)
       else ret tt) ;;
      (if not_disabled prefs gymRemindersEnabled then
         d <- getDb ;;
         forEach (todaysGym (user_id user) today (gymSchedules d))
           (fun gym =>
              if includes (skippedDates gym) (todayStr (clock env)) then ret tt
              else if isWithinMinutesBefore (clock env) (gym_startTime gym) 15
              then NotificationService.sendGymReminderNotification env (user_id user) ;;
                   ret tt
              else ret tt)
       else ret tt) ;;
      (if not_disabled prefs propedeuticoEnabled then
         d <- getDb ;;
         forEach (todaysSchedules (user_id user) today (propedeuticoSchedules d))
           (fun prop =>
              if isWithinMinutesBefore (clock env) (sch_startTime prop) 15
              then NotificationService.sendPropedeuticoReminderNotification env
                     (user_id user) (sch_name prop) ;; ret tt
              else ret tt)
       else ret tt) ;;
      checkTaskDueReminders env (user_id user) prefs
  end.

Definition run (env : Env) : M unit :=
  d <- getDb ;;
  forEach (users d)
    (fun user =>
       processUser env user (findPrefs d (user_id user)) (activeTokens d (user_id user))).

End ReminderJob.

(** ** ClassroomService (services/classroom.service.ts) *)

Module ClassroomService.

Definition findConnection (d : DB) (userId : UserId) : option Connection :=
  find (fun c => String.eqb (conn_userId c) userId) (connections d).

(** The [data] of the connection update after a refresh. *)
Definition applyRefresh (env : Env) (connection : Connection) (credentials : Credentials)
    (c : Connection) : Connection :=
  mkConnection (conn_id c) (conn_userId c)
    (cr_access_token credentials)
    (JS.str_or (cr_refresh_token credentials) (refreshToken connection))
    (JS.num_or (cr_expiry_date credentials) (nowMs (clock env) + 3600000))
    (conn_syncEnabled c) (lastSyncAt c).

Definition updateConnectionWhereUser (userId : UserId) (f : Connection -> Connection)
    (l : list Connection) : list Connection :=
  map (fun c => if String.eqb (conn_userId c) userId then f c else c) l.

(** The returned client is determined by the account it is authorized
    for, so the computation returns [tt] and the upstream calls below are
    indexed by [userId]. *)
Definition getAuthenticatedClient (env : Env) (userId : UserId) : M unit :=
  d <- getDb ;;
  match findConnection d userId with
  | None => throw "Google not connected"
  | Some connection =>
      if String.eqb (accessToken connection) "" then throw "OAuth not configured"
      else if tokenExpiry connection <? nowMs (clock env) then
        emit (EvApi userId ApiRefresh) ;;
        credentials <- lift (refreshAccessToken env userId) ;;
        modifyDb (set_connections
                    (updateConnectionWhereUser userId
                       (applyRefresh env connection credentials)))
      else ret tt
  end.

Definition sameCourse (userId : UserId) (gid : string) (c : Course) : bool :=
  String.eqb (course_userId c) userId && String.eqb (googleCourseId c) gid.

(** A field that is [undefined] in [data] is left as it is by an update. *)
Definition keep {A} (new old : option A) : option A :=
  match new with
  | Some v => Some v
  | None => old
  end.

Definition updateCourse (course : UCourse) (teacher : string) (c : Course) : Course :=
  mkCourse (course_id c) (course_userId c) (googleCourseId c)
    (JS.str_or (uc_name course) "Unnamed Course")
    (keep (uc_section course) (course_section c))
    (keep (uc_description course) (course_description c))
    teacher (course_syncEnabled c).

Definition createCourse (env : Env) (id : RowId) (userId : UserId) (course : UCourse)
    (teacher : string) : Course :=
  mkCourse id userId (uc_id course)
    (JS.str_or (uc_name course) "Unnamed Course")
    (uc_section course) (uc_description course) teacher
    (def_course_syncEnabled (defaults env)).

(** [prisma.course.upsert] on the unique key (userId, googleCourseId). *)
Definition upsertCourse (env : Env) (userId : UserId) (course : UCourse)
    (teacher : string) : M Course :=
  d <- getDb ;;
  match find (sameCourse userId (uc_id course)) (courses d) with
  | Some existing =>
      modifyDb (set_courses
                  (map (fun c => if sameCourse userId (uc_id course) c
                                 then updateCourse course teacher c else c))) ;;
      ret (updateCourse course teacher existing)
  | None =>
      let row := createCourse env (nextId d) userId course teacher in
      modifyDb (fun d => bump_nextId (set_courses (fun l => l ++ [row])%list d)) ;;
      ret row
  end.

Definition opt_eqb (a b : option string) : bool :=
  match a, b with
  | Some x, Some y => String.eqb x y
  | None, None => true
  | _, _ => false
  end.

(** [teachers?.find(t => t.userId === course.ownerId)?.profile?.name?.fullName || ''] *)
Definition ownerName (teachers : option (list UTeacher)) (course : UCourse) : string :=
  match teachers with
  | Some ts =>
      match find (fun t => opt_eqb (ut_userId t) (uc_ownerId course)) ts with
      | Some owner => JS.str_or (ut_fullName owner) ""
      | None => ""
      end
  | None => ""
  end.

Definition fetchTeacherName (env : Env) (userId : UserId) (course : UCourse) : M string :=
  tryCatch
    (emit (EvApi userId (ApiTeachersList (uc_id course))) ;;
     teacherResponse <- lift (teachersList env userId (uc_id course)) ;;
     ret (ownerName teacherResponse course))
    (fun _ => ret "").

Definition syncCourse (env : Env) (userId : UserId) (course : UCourse) : M (list Course) :=
  teacher <- fetchTeacherName env userId course ;;
  synced <- upsertCourse env userId course teacher ;;
  ret [synced].

Definition syncCourses (env : Env) (userId : UserId) : M (list Course) :=
  getAuthenticatedClient env userId ;;
  emit (EvApi userId ApiCoursesList) ;;
  response <- lift (coursesList env userId) ;;
  let upstream := match response with Some l => l | None => [] end in
  forEachCollect upstream (syncCourse env userId).

(** The due date of a new task, from [work.dueDate] and [work.dueTime].
    The time value is kept as computed, and [task.create] is taken to
    succeed, as every store call is.  A value that fails [JS.validTime] is
    an Invalid Date in JavaScript, which the store does not accept: such
    assignments are outside the model, and what is proved about due dates
    assumes [JS.validTime] of the listed assignments. *)
Definition parseDueDate (env : Env) (work : UWork) : option Z :=
  match uw_dueDate work with
  | Some dd =>
      let hours := match uw_dueTime work with Some t => ut_hours t | None => None end in
      let minutes := match uw_dueTime work with Some t => ut_minutes t | None => None end in
      Some (JS.newDate (localOffsetMs (clock env))
              (JS.num_or (ud_year dd) 2024)
              (JS.num_or (ud_month dd) 1 - 1)
              (JS.num_or (ud_day dd) 1)
              (JS.num_or hours 23)
              (JS.num_or minutes 59))
  | None => None
  end.

(** [dueDate && dueDate < new Date(Date.now() + 86400000) ? 'HIGH' : 'MEDIUM'] *)
Definition priorityFor (env : Env) (due : option Z) : Priority :=
  match due with
  | Some d => if d <? nowMs (clock env) + 86400000 then HIGH else MEDIUM
  | None => MEDIUM
  end.

(** The row [task.create] inserts: the columns the call does not set take
    their schema defaults, [createdAt] being the instant of creation. *)
Definition newTask (env : Env) (id : RowId) (userId : UserId) (course : Course)
    (work : UWork) : Task :=
  let due := parseDueDate env work in
  mkTask id userId (JS.str_or (uw_title work) "Untitled Task") (uw_description work)
    true (Some (uw_id work)) (Some (course_id course)) due (priorityFor env due)
    (def_task_status (defaults env)) (def_task_notified24h (defaults env))
    (def_task_notified1h (defaults env)) (nowMs (clock env)).

Definition taskExists (userId : UserId) (gid : string) (t : Task) : bool :=
  String.eqb (task_userId t) userId && opt_eqb (googleTaskId t) (Some gid).

Definition importWork (env : Env) (userId : UserId) (course : Course) (work : UWork)
    : M (list Task) :=
  d <- getDb ;;
  match find (taskExists userId (uw_id work)) (tasks d) with
  | Some _ => ret []
  | None =>
      let task := newTask env (nextId d) userId course work in
      modifyDb (fun d => bump_nextId (set_tasks (fun l => l ++ [task])%list d)) ;;
      ret [task]
  end.

(** The body of the loop over courses, with its [try]/[catch].  The only
    modelled failure of the block is the upstream list call, which comes
    before any push on [newTasks], so the handler contributes none. *)
Definition syncCourseTasks (env : Env) (userId : UserId) (course : Course)
    : M (list Task) :=
  tryCatch
    (emit (EvApi userId (ApiCourseWorkList (googleCourseId course))) ;;
     response <- lift (courseWorkList env userId (googleCourseId course)) ;;
     let coursework := match response with Some l => l | None => [] end in
     forEachCollect coursework (importWork env userId course))
    (fun error =>
       emit (EvLog (LogCourseError (course_name course) error)) ;; ret []).

Definition syncedCourses (userId : UserId) (l : list Course) : list Course :=
  filter (fun c => String.eqb (course_userId c) userId && course_syncEnabled c) l.

Definition syncTasks (env : Env) (userId : UserId) : M (list Task) :=
  getAuthenticatedClient env userId ;;
  d <- getDb ;;
  forEachCollect (syncedCourses userId (courses d)) (syncCourseTasks env userId).

Definition countClassroomTasks (d : DB) (userId : UserId) : Z :=
  Z.of_nat (List.length
              (filter (fun t => String.eqb (task_userId t) userId && isFromClassroom t)
                      (tasks d))).

Definition checkForNewTasks (env : Env) (userId : UserId) : M (bool * Z) :=
  d0 <- getDb ;;
  let before := countClassroomTasks d0 userId in
  syncTasks env userId ;;
  d1 <- getDb ;;
  let after := countClassroomTasks d1 userId in
  ret (before <? after, after - before).

End ClassroomService.

(** ** SyncJob (jobs/sync.job.ts) *)

Module SyncJob.

Definition eligible (c : Connection) : bool :=
  conn_syncEnabled c && negb (String.eqb (accessToken c) "").

Definition emailOf (d : DB) (userId : UserId) : string :=
  match find (fun u => String.eqb (user_id u) userId) (users d) with
  | Some u => user_email u
  | None => ""
  end.

Definition courseNameOf (d : DB) (t : Task) : option string :=
  match task_courseId t with
  | Some cid =>
      option_map course_name (find (fun c => Nat.eqb (course_id c) cid) (courses d))
  | None => None
  end.

Definition recentClassroomTasks (env : Env) (d : DB) (userId : UserId) : list Task :=
  filter (fun t => String.eqb (task_userId t) userId && isFromClassroom t
                   && (nowMs (clock env) - 5 * 60 * 1000 <=? createdAt t))
         (tasks d).

Definition touchLastSync (env : Env) (id : RowId) (l : list Connection)
    : list Connection :=
  map (fun c =>
         if Nat.eqb (conn_id c) id
         then mkConnection (conn_id c) (conn_userId c) (accessToken c) (refreshToken c)
                (tokenExpiry c) (conn_syncEnabled c) (Some (nowMs (clock env)))
         else c) l.

(** The [try] block of the loop over connections. *)
Definition syncConnection (env : Env) (email : string) (connection : Connection)
    : M unit :=
  ClassroomService.syncCourses env (conn_userId connection) ;;
  result <- ClassroomService.checkForNewTasks env (conn_userId connection) ;;
  (if fst result then
     emit (EvLog (LogSyncFound email (snd result))) ;;
     d <- getDb ;;
     forEach (recentClassroomTasks env d (conn_userId connection))
       (fun task =>
          NotificationService.sendNewTaskNotification env (conn_userId connection)
            (task_title task) (courseNameOf d task) ;; ret tt)
   else ret tt) ;;
  modifyDb (set_connections (touchLastSync env (conn_id connection))).

Definition processConnection (env : Env) (email : string) (connection : Connection)
    : M unit :=
  tryCatch (syncConnection env email connection)
           (fun error => emit (EvLog (LogSyncUserError email error))).

Definition run (env : Env) : M unit :=
  d <- getDb ;;
  let conns := filter eligible (connections d) in
  emit (EvLog (LogSyncProcessing (List.length conns))) ;;
  forEach conns (fun connection =>
                   processConnection env (emailOf d (conn_userId connection)) connection).

End SyncJob.

(** ** The cron handlers (jobs/index.ts) *)

Module Cron.

Definition syncHandler (env : Env) : M unit :=
  tryCatch (SyncJob.run env)
           (fun error => emit (EvLog (LogCronError "Sync job error" error))).

Definition reminderHandler (env : Env) : M unit :=
  tryCatch (ReminderJob.run env)
           (fun error => emit (EvLog (LogCronError "Reminder job error" error))).

End Cron.

(** ** Specification vocabulary *)

(** A computation moves every world to one related to it by [R]. *)
Definition preserves {A} (R : World -> World -> Prop) (m : M A) : Prop :=
  forall w, R w (snd (m w)).

(** A computation never throws. *)
Definition returns {A} (m : M A) : Prop :=
  forall w, is_ok (fst (m w)) = true.

(** The outcome of [sendToUser] when the quiet-hours branch is taken: the
    call returns [null] after logging the skip and reaches neither the
    token query nor the push gateway. *)
Definition suppressedByQuietHours (env : Env) (userId : UserId) (message : PushMessage)
    (w : World) : Prop :=
  NotificationService.sendToUser env userId message w
  = (Ok None, mkWorld (db w) (trace w ++ [EvLog (LogQuietHours userId)])%list).

(** The half-open interval test [start <= now < end] on "HH:MM" strings,
    as the specification words the quiet-hours window. *)
Definition withinHalfOpen (start end_ now : string) : bool :=
  JS.str_le start now && String.ltb now end_.

(** ** Concrete stores and collaborators used by the examples *)

Module Examples.

Definition schema : SchemaDefaults := mkDefaults true PENDING false false.

(** A Monday; only the fields an example reads matter. *)
Definition clockAt (ms hours minutes : Z) : Clock :=
  mkClock ms hours minutes 1 "2026-01-05" (fun _ => 0).

(** Collaborators that answer with empty results and accept every push. *)
Definition quietUpstream (c : Clock) : Env :=
  mkEnv c schema
    (fun _ => Throw "invalid_grant")
    (fun _ => Ok None)
    (fun _ _ => Ok None)
    (fun _ _ => Ok None)
    (fun _ _ => Ok None).

Definition emptyDB : DB := mkDB [] [] [] [] [] [] [] [] [] 0%nat.

Definition prefsAllOn (userId : UserId) : NotificationPreference :=
  mkPrefs userId true true 15 true true true true false None None.

Definition prefsQuiet (userId : UserId) (start end_ : string) : NotificationPreference :=
  mkPrefs userId true true 15 true true true true true (Some start) (Some end_).

Definition hello : PushMessage := mkPushMessage "title" "body" "test".

(** Quiet hours 22:00 to 07:00, one active device, the clock at 23:00. *)
Definition quietDB : DB :=
  mkDB [mkUser "u1" "u1@example.org"] [] [] []
       [prefsQuiet "u1" "22:00" "07:00"]
       [mkPushToken "u1" "ExponentPushToken[a]" true] [] [] [] 0%nat.

Definition quietWorld : World := mkWorld quietDB [].

Definition at2300 : Env := quietUpstream (clockAt (23 * 3600000) 23 0).

End Examples.

Module AuthExamples.
Import Examples.

(** An OAuth connection whose credential expires exactly at [expiry]. *)
Definition oauthConnection (expiry : Z) : Connection :=
  mkConnection 1%nat "u1" "ya29.token" "1//refresh" expiry true None.

Definition connectedDB (expiry : Z) : DB :=
  mkDB [mkUser "u1" "u1@example.org"] [oauthConnection expiry] [] [] [] [] [] [] [] 2%nat.

Definition freshCredentials : Credentials :=
  mkCredentials "ya29.new" None (Some 9000000).

(** The upstream refreshes every credential; the clock reads 5000000 ms. *)
Definition refreshingEnv : Env :=
  mkEnv (clockAt 5000000 1 23) schema
    (fun _ => Ok freshCredentials)
    (fun _ => Ok None)
    (fun _ _ => Ok None)
    (fun _ _ => Ok None)
    (fun _ _ => Ok None).

End AuthExamples.

(** *** Due reminders *)

(** The two due windows of [checkTaskDueReminders]. *)
Inductive Window := W24 | W1.

Definition hoursOf (k : Window) : Z :=
  match k with W24 => 24 | W1 => 1 end.

Definition flagOf (k : Window) : Task -> bool :=
  match k with W24 => notified24h | W1 => notified1h end.

Definition toggleOf (k : Window) : NotificationPreference -> bool :=
  match k with W24 => taskDue24hEnabled | W1 => taskDue1hEnabled end.

Definition inWindow (k : Window) : Z -> bool :=
  match k with W24 => ReminderJob.in24hWindow | W1 => ReminderJob.in1hWindow end.

Definition setterOf (k : Window) : RowId -> list Task -> list Task :=
  match k with W24 => ReminderJob.setNotified24h | W1 => ReminderJob.setNotified1h end.

(** The guard under which the loop body sends the reminder of window [k]
    for the row [x] it took from the snapshot. *)
Definition fires (env : Env) (prefs : option NotificationPreference) (k : Window)
    (x : Task) : bool :=
  match dueDate x with
  | Some due =>
      not_disabled prefs (toggleOf k) && negb (flagOf k x)
      && inWindow k (due - nowMs (clock env))
  | None => false
  end.

Definition flagUpdate (env : Env) (prefs : option NotificationPreference) (x : Task)
    (l : list Task) : list Task :=
  let l1 := if fires env prefs W24 x then ReminderJob.setNotified24h (task_id x) l else l in
  if fires env prefs W1 x then ReminderJob.setNotified1h (task_id x) l1 else l1.

Definition isDue (i : RowId) (k : Window) (e : Event) : bool :=
  match e with
  | EvTaskDue j h => Nat.eqb j i && (h =? hoursOf k)
  | _ => false
  end.

(** How many reminders of window [k] the engine has raised for task [i]:
    the calls of [sendTaskDueNotification] made for it. *)
Definition dueCount (i : RowId) (k : Window) (evs : list Event) : nat :=
  List.length (filter (isDue i k) evs).

Definition emitted (env : Env) (prefs : option NotificationPreference) (x : Task)
    (i : RowId) (k : Window) : nat :=
  if Nat.eqb (task_id x) i && fires env prefs k x then 1%nat else 0%nat.

Definition isPush (e : Event) : bool :=
  match e with EvPush _ _ => true | _ => false end.

(** How many batches were handed to the push gateway. *)
Definition pushCount (evs : list Event) : nat := List.length (filter isPush evs).

(** The push gateway answers every request (no transport error). *)
Definition pushOk (env : Env) : Prop :=
  forall tokens message, is_ok (expoPush env tokens message) = true.

(** Successive ticks of the task-due check for one user.  Each tick is a
    separate cron firing: it starts from the world the previous one left,
    whether or not that one threw. *)
Fixpoint runTicks (envs : list Env) (userId : UserId)
    (prefs : option NotificationPreference) (w : World) : World :=
  match envs with
  | [] => w
  | env :: rest =>
      runTicks rest userId prefs
        (snd (ReminderJob.checkTaskDueReminders env userId prefs w))
  end.

(** The notification service leaves the task table and the count of due
    reminders alone. *)
Definition sameTasksAndDue (w w' : World) : Prop :=
  tasks (db w') = tasks (db w)
  /\ forall i k, dueCount i k (trace w') = dueCount i k (trace w).

Definition withFlags (t : Task) (f24 f1 : bool) : Task :=
  mkTask (task_id t) (task_userId t) (task_title t) (task_description t)
    (isFromClassroom t) (googleTaskId t) (task_courseId t) (dueDate t)
    (task_priority t) (task_status t) f24 f1 (createdAt t).

(** The row of a task after a tick that took [t] in its snapshot. *)
Definition afterTick (env : Env) (prefs : option NotificationPreference) (t : Task) : Task :=
  withFlags t (notified24h t || fires env prefs W24 t)
              (notified1h t || fires env prefs W1 t).

(** Some tick of [envs] evaluates a task due at [due] inside window [k]. *)
Definition someTickIn (k : Window) (due : Z) (envs : list Env) : bool :=
  existsb (fun env => inWindow k (due - nowMs (clock env))) envs.

Module ReminderExamples.
Import Examples.

Definition hour : Z := 3600000.

(** A pending task of user u1, due 100 hours after the epoch. *)
Definition dueAt : Z := 100 * hour.

Definition homework : Task :=
  mkTask 1%nat "u1" "Essay" None false None None (Some dueAt) MEDIUM PENDING
         false false 0.

Definition reminderDB (p : NotificationPreference) : DB :=
  mkDB [mkUser "u1" "u1@example.org"] [] [] [homework] [p]
       [mkPushToken "u1" "ExponentPushToken[a]" true] [] [] [] 2%nat.

(** Five-minute ticks: one before the 24h window, three inside it, two
    inside the 1h window and one after the due time. *)
Definition tickTimes : list Z :=
  [dueAt - 24 * hour - 300000;
   dueAt - 24 * hour;
   dueAt - 24 * hour + 300000;
   dueAt - 24 * hour + 600000;
   dueAt - 600000;
   dueAt - 300000;
   dueAt + 300000].

Definition ticks : list Env :=
  map (fun ms => quietUpstream (clockAt ms 12 0)) tickTimes.

(** The same user with the 24h reminder switched off. *)
Definition prefs24hOff : NotificationPreference :=
  mkPrefs "u1" true true 15 true true false true false None None.

(** A tick inside the 24h window, at 23:00 local time. *)
Definition lateTick : Env :=
  quietUpstream (clockAt (dueAt - 24 * hour + 300000) 23 0).

End ReminderExamples.

(** All rows of task [i] carry the flag of window [k]. *)
Definition flagged (i : RowId) (k : Window) (l : list Task) : Prop :=
  forall row, In row l -> task_id row = i -> flagOf k row = true.

(** From a table where task [i] is flagged for [k], a computation keeps it
    flagged and raises no further reminder of window [k] for it. *)
Definition staysSilent (i : RowId) (k : Window) (w w' : World) : Prop :=
  flagged i k (tasks (db w)) ->
  flagged i k (tasks (db w'))
  /\ dueCount i k (trace w') = dueCount i k (trace w).

(** *** Task import *)

Definition worksOf (response : option (list UWork)) : list UWork :=
  match response with Some l => l | None => [] end.

(** A computation only appends task rows, each satisfying [P], only
    appends events, and leaves the course table alone. *)
Definition grows (P : Task -> Prop) (w w' : World) : Prop :=
  courses (db w') = courses (db w)
  /\ (exists created, tasks (db w') = (tasks (db w) ++ created)%list /\ Forall P created)
  /\ (exists evs, trace w' = (trace w ++ evs)%list).

(** Every assignment of [ws] has a local task of the user. *)
Definition covered (userId : UserId) (ws : list UWork) (l : list Task) : Prop :=
  forall work, In work ws ->
    exists t, In t l /\ task_userId t = userId /\ googleTaskId t = Some (uw_id work).

(** [t] was created from an assignment listed for one of the courses [cs]. *)
Definition fromUpstream (env : Env) (userId : UserId) (cs : list Course) (t : Task)
    : Prop :=
  exists c response work,
    In c cs
    /\ courseWorkList env userId (googleCourseId c) = Ok response
    /\ In work (worksOf response)
    /\ task_userId t = userId
    /\ googleTaskId t = Some (uw_id work)
    /\ task_courseId t = Some (course_id c)
    /\ dueDate t = ClassroomService.parseDueDate env work.

(** What the loop of [syncTasks] has achieved for the courses [cs]. *)
Definition coursesDone (env : Env) (userId : UserId) (cs : list Course) (w0 w : World)
    : Prop :=
  forall c, In c cs ->
    match courseWorkList env userId (googleCourseId c) with
    | Ok response => covered userId (worksOf response) (tasks (db w))
    | Throw e =>
        exists evs, trace w = (trace w0 ++ evs)%list
                    /\ In (EvLog (LogCourseError (course_name c) e)) evs
    end.

Module SyncExamples.
Import Examples.

Definition localCourse (id : RowId) (gid name : string) : Course :=
  mkCourse id "u1" gid name None None "" true.

(** One connected account with three mirrored courses and no task yet. *)
Definition syncDB : DB :=
  mkDB [mkUser "u1" "u1@example.org"]
       [mkConnection 1%nat "u1" "ya29.token" "1//refresh" 9000000 true None]
       [localCourse 10%nat "c-math" "Math";
        localCourse 11%nat "c-physics" "Physics";
        localCourse 12%nat "c-art" "Art"]
       [] [] [mkPushToken "u1" "ExponentPushToken[a]" true] [] [] [] 20%nat.

Definition syncWorld : World := mkWorld syncDB [].

(** Due 2026-03-10 at 14:30. *)
Definition timedWork : UWork :=
  mkUWork "w-1" (Some "Problem set") None
          (Some (mkUDate (Some 2026) (Some 3) (Some 10)))
          (Some (mkUTime (Some 14) (Some 30))).

(** Due 2026-03-12, no time of day. *)
Definition datedWork : UWork :=
  mkUWork "w-2" (Some "Reading") None
          (Some (mkUDate (Some 2026) (Some 3) (Some 12))) None.

(** No due date at all. *)
Definition undatedWork : UWork :=
  mkUWork "w-3" (Some "Sketchbook") None None None.

(** Math lists two assignments, the Physics fetch fails, Art lists one. *)
Definition upstreamWork (userId : UserId) (courseId : string)
    : Res (option (list UWork)) :=
  if String.eqb courseId "c-math" then Ok (Some [timedWork; datedWork])
  else if String.eqb courseId "c-physics" then Throw "503 backend error"
  else if String.eqb courseId "c-art" then Ok (Some [undatedWork])
  else Ok None.

Definition syncEnvAt (ms : Z) : Env :=
  mkEnv (clockAt ms 12 0) schema
    (fun _ => Throw "invalid_grant")
    (fun _ => Ok None)
    (fun _ _ => Ok None)
    upstreamWork
    (fun _ _ => Ok None).

Definition syncEnv : Env := syncEnvAt 5000000.

End SyncExamples.

Module DueExamples.
Import Examples.

(** Central European time in 2026: one hour ahead of UTC, two hours from
    02:00 local on 29 March until 03:00 local on 25 October. *)
Definition centralEurope (localTime : Z) : Z :=
  if (1774749600000 <=? localTime) && (localTime <? 1792897200000)
  then 7200000 else 3600000.

(** Due 2026-03-10 at 14:30, in winter time. *)
Definition winterWork : UWork :=
  mkUWork "w-1" (Some "Problem set") None
          (Some (mkUDate (Some 2026) (Some 3) (Some 10)))
          (Some (mkUTime (Some 14) (Some 30))).

(** Due 2026-04-20 at 09:15, in summer time. *)
Definition summerWork : UWork :=
  mkUWork "w-2" (Some "Lab report") None
          (Some (mkUDate (Some 2026) (Some 4) (Some 20)))
          (Some (mkUTime (Some 9) (Some 15))).

(** Due 2026-04-20 at 16:00 sharp: the upstream sends minutes 0. *)
Definition onTheHour : UWork :=
  mkUWork "w-3" (Some "Quiz") None
          (Some (mkUDate (Some 2026) (Some 4) (Some 20)))
          (Some (mkUTime (Some 16) (Some 0))).

(** Due 2026-04-20, no time of day. *)
Definition dateOnly : UWork :=
  mkUWork "w-4" (Some "Reading") None
          (Some (mkUDate (Some 2026) (Some 4) (Some 20))) None.

Definition dueDB : DB :=
  mkDB [mkUser "u1" "u1@example.org"]
       [mkConnection 1%nat "u1" "ya29.token" "1//refresh" 1900000000000 true None]
       [mkCourse 10%nat "u1" "c-math" "Math" None None "" true]
       [] [] [] [] [] [] 20%nat.

(** A sync on 2026-03-01 at 12:00 local time, still in winter time. *)
Definition dueEnv : Env :=
  mkEnv (mkClock 1772362800000 12 0 0 "2026-03-01" centralEurope) schema
    (fun _ => Throw "invalid_grant")
    (fun _ => Ok None)
    (fun _ _ => Ok None)
    (fun _ _ => Ok (Some [winterWork; summerWork; onTheHour; dateOnly]))
    (fun _ _ => Ok None).

End DueExamples.

(** The task and course tables are left as they are. *)
Definition sameTables (w w' : World) : Prop :=
  tasks (db w') = tasks (db w) /\ courses (db w') = courses (db w).

(** *** Course upsert *)

Definition courseKey (c : Course) : UserId * string :=
  (course_userId c, googleCourseId c).

(** The teacher name [syncCourses] computes for an upstream course. *)
Definition teacherOf (env : Env) (userId : UserId) (course : UCourse) : string :=
  match teachersList env userId (uc_id course) with
  | Ok teachers => ClassroomService.ownerName teachers course
  | Throw _ => ""
  end.

(** What one upsert does to one row of the table. *)
Definition touch (env : Env) (userId : UserId) (course : UCourse) (c : Course) : Course :=
  if ClassroomService.sameCourse userId (uc_id course) c
  then ClassroomService.updateCourse course (teacherOf env userId course) c
  else c.

Definition present (userId : UserId) (course : UCourse) (rows : list Course) : bool :=
  existsb (ClassroomService.sameCourse userId (uc_id course)) rows.

(** One iteration of the loop of [syncCourses], on the course table and
    the next row id alone. *)
Definition upsertStep (env : Env) (userId : UserId) (st : list Course * RowId)
    (course : UCourse) : list Course * RowId :=
  if present userId course (fst st)
  then (map (touch env userId course) (fst st), snd st)
  else ((fst st ++ [ClassroomService.createCourse env (snd st) userId course
                      (teacherOf env userId course)])%list,
        S (snd st)).

(** All updates of an upstream list, applied in order to one row. *)
Definition applyAll (env : Env) (userId : UserId) (l : list UCourse) (c : Course)
    : Course :=
  fold_left (fun r course => touch env userId course r) l c.

Definition courseState (w : World) : list Course * RowId :=
  (courses (db w), nextId (db w)).

Definition coursesOf (response : option (list UCourse)) : list UCourse :=
  match response with Some l => l | None => [] end.

Module CourseExamples.
Import Examples.

(** Upstream lists Math (already mirrored locally), a new Chemistry course,
    and Math once more under another name. *)
Definition upstreamCourses : list UCourse :=
  [mkUCourse "c-math" (Some "Mathematics I") (Some "Group A") None (Some "t-1");
   mkUCourse "c-chem" (Some "Chemistry") None (Some "Lab on Fridays") (Some "t-2");
   mkUCourse "c-math" None None (Some "Bring a calculator") (Some "t-1")].

Definition upstreamTeachers (userId : UserId) (courseId : string)
    : Res (option (list UTeacher)) :=
  if String.eqb courseId "c-math"
  then Ok (Some [mkUTeacher (Some "t-9") (Some "A. Assistant");
                 mkUTeacher (Some "t-1") (Some "E. Noether")])
  else Throw "403 forbidden".

Definition courseEnvAt (ms : Z) : Env :=
  mkEnv (clockAt ms 12 0) schema
    (fun _ => Throw "invalid_grant")
    (fun _ => Ok (Some upstreamCourses))
    upstreamTeachers
    (fun _ _ => Ok None)
    (fun _ _ => Ok None).

End CourseExamples.

(** *** Sync pass *)

(** A computation keeps the row [c] of the connection table, keeps the ids
    of the table, and makes no upstream call on behalf of [c]'s account. *)
Definition keepsConn (c : Connection) (w w' : World) : Prop :=
  (In c (connections (db w)) -> In c (connections (db w')))
  /\ map conn_id (connections (db w')) = map conn_id (connections (db w))
  /\ exists evs, trace w' = (trace w ++ evs)%list
                 /\ forall call, ~ In (EvApi (conn_userId c) call) evs.

Module JobExamples.
Import Examples.

(** Account u1 is linked with OAuth; account u2 is linked by e-mail only
    (empty credential, sync disabled), as the connect route creates it. *)
Definition emailOnly : Connection :=
  mkConnection 2%nat "u2" "" "" 0 false None.

Definition twoConnections : DB :=
  mkDB [mkUser "u1" "u1@example.org"; mkUser "u2" "u2@example.org"]
       [mkConnection 1%nat "u1" "ya29.token" "1//refresh" 9000000 true None; emailOnly]
       [SyncExamples.localCourse 10%nat "c-math" "Math"]
       [] [] [mkPushToken "u1" "ExponentPushToken[a]" true] [] [] [] 20%nat.

(** Two accounts u0 and u1, both linked with OAuth; the upstream course
    list of u0 cannot be fetched. *)
Definition twoOAuth : DB :=
  mkDB [mkUser "u0" "u0@example.org"; mkUser "u1" "u1@example.org"]
       [mkConnection 0%nat "u0" "ya29.other" "1//other" 9000000 true None;
        mkConnection 1%nat "u1" "ya29.token" "1//refresh" 9000000 true None]
       [SyncExamples.localCourse 10%nat "c-math" "Math"]
       [] [] [] [] [] [] 20%nat.

Definition flakyUpstream : Env :=
  mkEnv (clockAt 5000000 12 0) schema
    (fun _ => Throw "invalid_grant")
    (fun userId => if String.eqb userId "u0" then Throw "500 internal error"
                   else Ok None)
    (fun _ _ => Ok None)
    SyncExamples.upstreamWork
    (fun _ _ => Ok None).

(** Two users with one device each and one pending task each, both due in
    half an hour. *)
Definition dueSoon (id : RowId) (userId : UserId) (title : string) : Task :=
  mkTask id userId title None false None None (Some (5000000 + 1800000)) MEDIUM PENDING
         false false 0.

Definition twoUsers : DB :=
  mkDB [mkUser "u1" "u1@example.org"; mkUser "u2" "u2@example.org"]
       [] []
       [dueSoon 1%nat "u1" "Essay"; dueSoon 2%nat "u2" "Lab report"]
       []
       [mkPushToken "u1" "ExponentPushToken[a]" true;
        mkPushToken "u2" "ExponentPushToken[b]" true]
       [] [] [] 3%nat.

(** The push gateway cannot be reached. *)
Definition gatewayDown : Env :=
  mkEnv (clockAt 5000000 12 0) schema
    (fun _ => Throw "invalid_grant")
    (fun _ => Ok None)
    (fun _ _ => Ok None)
    (fun _ _ => Ok None)
    (fun _ _ => Throw "fetch failed").

End JobExamples.

(** A computation only appends to the trace. *)
Definition traceGrows (w w' : World) : Prop :=
  exists evs, trace w' = (trace w ++ evs)%list.

(** The sync pass has dealt with the account of [c]: it listed the
    account's upstream courses, or logged the account's failure. *)
Definition attempted (d : DB) (c : Connection) (evs : list Event) : Prop :=
  In (EvApi (conn_userId c) ApiCoursesList) evs
  \/ exists e, In (EvLog (LogSyncUserError (SyncJob.emailOf d (conn_userId c)) e)) evs.

(** ** Further vocabulary: push tokens *)

(** A ticket by which the gateway reports the device as gone. *)
Definition isUnregistered (t : Ticket) : bool :=
  String.eqb (tk_status t) "error"
  && match tk_detailsError t with
     | Some e => String.eqb e "DeviceNotRegistered"
     | None => false
     end.

(** The token [tok] was sent at a position whose ticket reports it gone. *)
Fixpoint rejectedIn (tokens : list string) (data : list Ticket) (tok : string) : bool :=
  match tokens, data with
  | t :: ts, d :: ds => (isUnregistered d && String.eqb tok t) || rejectedIn ts ds tok
  | _, _ => false
  end.

Module PushExamples.
Import Examples.

Definition twoDevices : DB :=
  mkDB [mkUser "u1" "u1@example.org"] [] [] [] []
       [mkPushToken "u1" "ExponentPushToken[a]" true;
        mkPushToken "u1" "ExponentPushToken[b]" true;
        mkPushToken "u2" "ExponentPushToken[c]" true] [] [] [] 0%nat.

(** The gateway accepts the first message of a batch and reports the
    device of the second one as not registered. *)
Definition secondGone : list Ticket :=
  [mkTicket "ok" None; mkTicket "error" (Some "DeviceNotRegistered")].

Definition staleDevice : Env :=
  mkEnv (clockAt 5000000 12 0) schema
    (fun _ => Throw "invalid_grant")
    (fun _ => Ok None)
    (fun _ _ => Ok None)
    (fun _ _ => Ok None)
    (fun _ _ => Ok (Some secondGone)).

End PushExamples.

(** The quiet-hours decision of [sendToUser] for a preference row. *)
Definition quietFor (env : Env) (prefs : option NotificationPreference) : bool :=
  match prefs with
  | Some p =>
      if quietHoursEnabled p && JS.truthy_str (quietHoursStart p)
         && JS.truthy_str (quietHoursEnd p)
      then NotificationService.inQuietHours (currentTime (clock env))
             (JS.str_or (quietHoursStart p) "") (JS.str_or (quietHoursEnd p) "")
      else false
  | None => false
  end.

(** [sendToUser] will hand nothing to the gateway for the user: quiet
    hours apply now, or the user has no active token. *)
Definition muted (env : Env) (userId : UserId) (d : DB) : Prop :=
  quietFor env (findPrefs d userId) = true
  \/ ReminderJob.activeTokens d userId = [].

(** During a muted tick the user stays muted and no batch reaches the push
    gateway. *)
Definition mutedInv (env : Env) (userId : UserId) (n : nat) (w : World) : Prop :=
  muted env userId (db w) /\ pushCount (trace w) = n.

(** The push message of a task-due notification. *)
Definition dueMessage (taskTitle : string) (hoursLeft : Z) : PushMessage :=
  let timeText :=
    if hoursLeft <=? 1 then "¡en menos de 1 hora!"
    else ("en " ++ JS.toString hoursLeft ++ " horas")%string in
  mkPushMessage "⏰ Tarea por vencer"
    (NotificationService.dquote ++ taskTitle ++ NotificationService.dquote
     ++ " vence " ++ timeText)%string
    "task_due".

(** ** Further vocabulary: the reminder engine *)

(** The getters of a [Date] are within their ranges. *)
Definition validClock (c : Clock) : Prop :=
  0 <= getHours c <= 23 /\ 0 <= getMinutes c <= 59.

(** Minutes since midnight. *)
Definition minuteOfDay (c : Clock) : Z := getHours c * 60 + getMinutes c.

(** A clock showing the given hour and minute. *)
Definition clockShowing (h m : Z) : Clock := mkClock 0 h m 0 "" (fun _ => 0).

(** The two-digit rendering of an hour or a minute. *)
Definition twoDigits (n : Z) : string := JS.padStart (JS.toString n) 2 "0".

Definition dayHours : list Z := map Z.of_nat (seq 0 24).
Definition hourMinutes : list Z := map Z.of_nat (seq 0 60).

(** All times of day parse back to their minute of the day. *)
Definition allTimesParse : bool :=
  forallb (fun h =>
    forallb (fun m =>
      match ReminderJob.getTimeInMinutes (currentTime (clockShowing h m)) with
      | Some v => v =? h * 60 + m
      | None => false
      end) hourMinutes) dayHours.

Definition sameOrder (a b : comparison) : bool :=
  match a, b with
  | Eq, Eq | Lt, Lt | Gt, Gt => true
  | _, _ => false
  end.

(** Two-digit renderings of the numbers of [l] have two characters and
    compare as the numbers do. *)
Definition twoDigitsOrdered (l : list Z) : bool :=
  forallb (fun a =>
    Nat.eqb (String.length (twoDigits a)) 2
    && forallb (fun b =>
         sameOrder (String.compare (twoDigits a) (twoDigits b)) (a ?= b)) l) l.

(** A task row that differs from [t] at most by flags that went up. *)
Definition risen (t t' : Task) : Prop :=
  t' = withFlags t (notified24h t') (notified1h t')
  /\ (notified24h t = true -> notified24h t' = true)
  /\ (notified1h t = true -> notified1h t' = true).

(** Row by row, the task table changed at most by flags that went up. *)
Definition flagsOnlyRise (w w' : World) : Prop :=
  Forall2 risen (tasks (db w)) (tasks (db w')).

(** No reminder of window [k] was raised for task [i]. *)
Definition sameDueFor (i : RowId) (k : Window) (w w' : World) : Prop :=
  dueCount i k (trace w') = dueCount i k (trace w).

Definition isGymPush (e : Event) : bool :=
  match e with
  | EvPush _ m => String.eqb (pm_type m) "gym_reminder"
  | _ => false
  end.

(** How many gym reminders were handed to the push gateway. *)
Definition gymPushCount (evs : list Event) : nat := List.length (filter isGymPush evs).

(** Every active gym entry of today's weekday has today among its
    skipped dates. *)
Definition gymSkippedToday (env : Env) (G : list GymSchedule) : Prop :=
  forall g, In g G ->
            gym_dayOfWeek g = getDay (clock env) ->
            gym_isActive g = true ->
            ReminderJob.includes (skippedDates g) (todayStr (clock env)) = true.

(** While today's gym entries are skipped, a computation keeps them so and
    hands no gym reminder to the gateway. *)
Definition noGymPush (env : Env) (w w' : World) : Prop :=
  gymSkippedToday env (gymSchedules (db w)) ->
  gymSkippedToday env (gymSchedules (db w'))
  /\ gymPushCount (trace w') = gymPushCount (trace w).

Module GymExamples.
Import Examples.

(** Monday 2026-01-05, 17:50; the gym session of Mondays starts at 18:00 and
    this Monday is marked as skipped. *)
Definition mondayEvening : Env :=
  quietUpstream (mkClock 5000000 17 50 1 "2026-01-05" (fun _ => 0)).

Definition gymDB (skipped : list string) : DB :=
  mkDB [mkUser "u1" "u1@example.org"] [] [] [] []
       [mkPushToken "u1" "ExponentPushToken[a]" true] []
       [mkGym "u1" 1 "18:00" true skipped] [] 0%nat.

End GymExamples.

(** ** Further vocabulary: the sync service *)

(** Why the service refuses to build a client for the account, if it does. *)
Definition refusal (d : DB) (userId : UserId) : option string :=
  match ClassroomService.findConnection d userId with
  | None => Some "Google not connected"
  | Some connection =>
      if String.eqb (accessToken connection) "" then Some "OAuth not configured"
      else None
  end.

(** [t] is the row [task.create] was called with for some assignment. *)
Definition importedRow (env : Env) (userId : UserId) (t : Task) : Prop :=
  exists id course work, t = ClassroomService.newTask env id userId course work.

(** What every task imported at the instant of [env] looks like. *)
Definition freshImport (env : Env) (userId : UserId) (t : Task) : Prop :=
  task_userId t = userId
  /\ isFromClassroom t = true
  /\ task_title t <> ""
  /\ googleTaskId t <> None
  /\ task_courseId t <> None
  /\ task_priority t
     = match dueDate t with
       | Some due => if due <? nowMs (clock env) + 24 * 3600000 then HIGH else MEDIUM
       | None => MEDIUM
       end
  /\ task_status t = def_task_status (defaults env)
  /\ notified24h t = def_task_notified24h (defaults env)
  /\ notified1h t = def_task_notified1h (defaults env)
  /\ createdAt t = nowMs (clock env).

(** A course row after a sync, against the row it was before. *)
Definition mirrored (userId : UserId) (c c' : Course) : Prop :=
  course_id c' = course_id c
  /\ courseKey c' = courseKey c
  /\ course_syncEnabled c' = course_syncEnabled c
  /\ (course_userId c <> userId -> c' = c).

(** What a collecting loop body returns is what it appended to the task
    table, and each such row satisfies [P]. *)
Definition appends {A} (P : Task -> Prop) (body : A -> M (list Task)) : Prop :=
  forall x w, exists L w',
    body x w = (Ok L, w')
    /\ tasks (db w') = (tasks (db w) ++ L)%list
    /\ Forall P L.

(** The columns of a course row that a sync writes on every visit. *)
Definition courseHeader (c : Course) : UserId * string * string * string :=
  (course_userId c, googleCourseId c, course_name c, teacherName c).

(** The same columns as the upstream entry determines them. *)
Definition upstreamHeader (env : Env) (userId : UserId) (course : UCourse)
    : UserId * string * string * string :=
  (userId, uc_id course, JS.str_or (uc_name course) "Unnamed Course",
   teacherOf env userId course).

(** ** Further vocabulary: the sync pass *)

(** The last-sync stamp of every connection, with its row id and owner. *)
Definition stamps (w : World) : list (RowId * UserId * option Z) :=
  map (fun c => (conn_id c, conn_userId c, lastSyncAt c)) (connections (db w)).

Definition sameStamps (w w' : World) : Prop := stamps w' = stamps w.


(** The stamps after the connections of [userId] were marked as synced at
    [now]. *)
Definition markSyncedFor (userId : UserId) (now : Z)
    (l : list (RowId * UserId * option Z)) : list (RowId * UserId * option Z) :=
  map (fun p => if String.eqb (snd (fst p)) userId then (fst p, Some now) else p) l.

(** A computation only appends task rows and, if it appends none, hands
    nothing to the push gateway. *)
Definition pushesOnlyNews (w w' : World) : Prop :=
  exists created,
    tasks (db w') = (tasks (db w) ++ created)%list
    /\ (created = [] -> pushCount (trace w') = pushCount (trace w)).

(** The task table and the number of pushes are as they were. *)
Definition sameTasksAndPushes (w w' : World) : Prop :=
  tasks (db w') = tasks (db w) /\ pushCount (trace w') = pushCount (trace w).

(** ** The HTTP routes (routes/*.ts)

    A handler runs under [asyncHandler]; what it throws reaches
    [errorHandler], which answers an [AppError] with its status code and
    message, and any other error with status 500. *)

Module Routes.

Inductive Reply (A : Type) : Type :=
| Sent (status : Z) (body : A)
| Refused (status : Z) (error : string).

Arguments Sent {A} status body.
Arguments Refused {A} status error.

(** The [error] field of a 500 answer: the message is shown in development
    only. *)
Definition internalError (development : bool) (message : string) : string :=
  if development then message else "Internal server error".

(** *** Tasks (tasks.routes.ts) *)

(** [findFirst({ where: { id, userId } })] *)
Definition ownedTask (id : RowId) (userId : UserId) (t : Task) : bool :=
  Nat.eqb (task_id t) id && String.eqb (task_userId t) userId.

Definition withStatus (s : Status) (t : Task) : Task :=
  mkTask (task_id t) (task_userId t) (task_title t) (task_description t)
    (isFromClassroom t) (googleTaskId t) (task_courseId t) (dueDate t)
    (task_priority t) s (notified24h t) (notified1h t) (createdAt t).

(** DELETE /api/tasks/:id *)
Definition deleteTask (userId : UserId) (id : RowId) (w : World) : Reply unit * World :=
  match find (ownedTask id userId) (tasks (db w)) with
  | None => (Refused 404 "Task not found", w)
  | Some existing =>
      if isFromClassroom existing
      then (Refused 400 "Cannot delete Classroom tasks. Mark as completed instead.", w)
      else (Sent 200 tt,
            mkWorld (set_tasks (filter (fun t => negb (Nat.eqb (task_id t) id))) (db w))
                    (trace w))
  end.

(** POST /api/tasks/:id/complete *)
Definition completeTask (userId : UserId) (id : RowId) (w : World) : Reply Task * World :=
  match find (ownedTask id userId) (tasks (db w)) with
  | None => (Refused 404 "Task not found", w)
  | Some existing =>
      let status := if isFromClassroom existing then SUBMITTED else COMPLETED in
      (Sent 200 (withStatus status existing),
       mkWorld (set_tasks (map (fun t => if Nat.eqb (task_id t) id
                                         then withStatus status t else t)) (db w))
               (trace w))
  end.

(** *** Gym schedules (schedule.routes.ts) *)

(** A gym row as the routes address it, by id. *)
Record GymRow := mkGymRow {
  gym_id : RowId;
  gym_schedule : GymSchedule
}.

Definition ownedGym (id : RowId) (userId : UserId) (r : GymRow) : bool :=
  Nat.eqb (gym_id r) id && String.eqb (gym_userId (gym_schedule r)) userId.

Definition withSkipped (dates : list string) (r : GymRow) : GymRow :=
  mkGymRow (gym_id r)
    (mkGym (gym_userId (gym_schedule r)) (gym_dayOfWeek (gym_schedule r))
       (gym_startTime (gym_schedule r)) (gym_isActive (gym_schedule r)) dates).

Definition updateSkipped (id : RowId) (dates : list string) (table : list GymRow)
    : list GymRow :=
  map (fun r => if Nat.eqb (gym_id r) id then withSkipped dates r else r) table.

(** POST /api/schedules/gym/:id/skip *)
Definition skipGym (userId : UserId) (id : RowId) (date : string) (table : list GymRow)
    : Reply unit * list GymRow :=
  match find (ownedGym id userId) table with
  | None => (Refused 404 "Schedule not found", table)
  | Some schedule =>
      let skipped := skippedDates (gym_schedule schedule) in
      let skipped' := if ReminderJob.includes skipped date then skipped
                      else (skipped ++ [date])%list in
      (Sent 200 tt, updateSkipped id skipped' table)
  end.

(** POST /api/schedules/gym/:id/unskip *)
Definition unskipGym (userId : UserId) (id : RowId) (date : string) (table : list GymRow)
    : Reply unit * list GymRow :=
  match find (ownedGym id userId) table with
  | None => (Refused 404 "Schedule not found", table)
  | Some schedule =>
      (Sent 200 tt,
       updateSkipped id
         (filter (fun d => negb (String.eqb d date)) (skippedDates (gym_schedule schedule)))
         table)
  end.

(** *** Push tokens (notification.routes.ts) *)

(** [pushToken.upsert] on the unique token.  [defaultActive] is the schema
    default of [isActive], which a created row takes. *)
Definition upsertToken (defaultActive : bool) (userId : UserId) (token : string)
    (table : list PushToken) : list PushToken :=
  if existsb (fun p => String.eqb (pt_token p) token) table
  then map (fun p => if String.eqb (pt_token p) token
                     then mkPushToken userId (pt_token p) true else p) table
  else (table ++ [mkPushToken userId token defaultActive])%list.

(** [z.enum(['ios', 'android'])] *)
Definition isPlatform (platform : string) : bool :=
  String.eqb platform "ios" || String.eqb platform "android".

(** POST /api/notifications/register-token.  [token] and [platform] are the
    fields of the body, [None] for a field that is absent or not a string.
    [schema.parse] throws a ZodError unless the token is a string of at
    least one character and the platform is one of the two names;
    [errorHandler] answers it with status 400 and the error "Validation
    error" (the [details] of that answer are left out).  A body that
    passes is upserted. *)
Definition registerToken (defaultActive : bool) (userId : UserId)
    (token platform : option string) (w : World) : Reply unit * World :=
  match token, platform with
  | Some tok, Some plat =>
      if negb (String.eqb tok "") && isPlatform plat
      then (Sent 200 tt,
            mkWorld (set_pushTokens (upsertToken defaultActive userId tok) (db w))
                    (trace w))
      else (Refused 400 "Validation error", w)
  | _, _ => (Refused 400 "Validation error", w)
  end.

(** DELETE /api/notifications/unregister-token *)
Definition unregisterToken (userId : UserId) (token : option string) (w : World)
    : Reply unit * World :=
  let off :=
    if JS.truthy_str token
    then NotificationService.deactivateWhere (Some (JS.str_or token ""))
    else map (fun p => if String.eqb (pt_userId p) userId
                       then NotificationService.deactivate p else p) in
  (Sent 200 tt, mkWorld (set_pushTokens off (db w)) (trace w)).

Definition testMessage : PushMessage :=
  mkPushMessage "ðŸ”” Test Notification"
    "This is a test notification from GestiÃ³n de Tiempo!" "test".

(** POST /api/notifications/test; the body carries [tokenCount]. *)
Definition testNotification (env : Env) (development : bool) (userId : UserId)
    (w : World) : Reply nat * World :=
  match ReminderJob.activeTokens (db w) userId with
  | [] => (Refused 400 "No active push tokens found", w)
  | tokens =>
      match NotificationService.sendToUser env userId testMessage w with
      | (Ok _, w') => (Sent 200 (List.length tokens), w')
      | (Throw e, w') => (Refused 500 (internalError development e), w')
      end
  end.

(** *** Manual sync (google.routes.ts) *)

Record SyncReport := mkSyncReport {
  coursesUpdated : nat;
  newTasks : nat;
  syncedAt : Z
}.

Definition stampConnection (now : Z) (c : Connection) : Connection :=
  mkConnection (conn_id c) (conn_userId c) (accessToken c) (refreshToken c)
    (tokenExpiry c) (conn_syncEnabled c) (Some now).

(** POST /api/google/sync *)
Definition manualSync (env : Env) (development : bool) (userId : UserId) (w : World)
    : Reply SyncReport * World :=
  match ClassroomService.findConnection (db w) userId with
  | None => (Refused 400 "Google not connected", w)
  | Some connection =>
      if String.eqb (accessToken connection) ""
      then (Refused 400 "OAuth not configured. Email-only mode does not support sync.", w)
      else
        match ClassroomService.syncCourses env userId w with
        | (Throw e, w1) => (Refused 500 (internalError development e), w1)
        | (Ok courses, w1) =>
            match ClassroomService.syncTasks env userId w1 with
            | (Throw e, w2) => (Refused 500 (internalError development e), w2)
            | (Ok created, w2) =>
                (Sent 200 (mkSyncReport (List.length courses) (List.length created)
                             (nowMs (clock env))),
                 mkWorld (set_connections
                            (ClassroomService.updateConnectionWhereUser userId
                               (stampConnection (nowMs (clock env)))) (db w2))
                         (trace w2))
            end
        end
  end.

End Routes.
(** ** Further vocabulary: routes *)

(** No row of task [id] is still PENDING or IN_PROGRESS. *)
Definition settled (id : RowId) (l : list Task) : Prop :=
  forall row, In row l -> task_id row = id ->
              ReminderJob.isPending (task_status row) = false.

Definition withoutToken (token : string) (l : list PushToken) : list PushToken :=
  filter (fun p => negb (String.eqb (pt_token p) token)) l.

Module RouteExamples.
Import Examples.

Definition manualTask (id : RowId) (userId : UserId) : Task :=
  mkTask id userId "Buy notebook" None false None None (Some 9000000) MEDIUM
    PENDING false false 0.

Definition classroomTask (id : RowId) (userId : UserId) : Task :=
  mkTask id userId "Problem set" None true (Some "w-1") (Some 10%nat) (Some 9000000)
    MEDIUM PENDING false false 0.

Definition taskWorld : World :=
  mkWorld (mkDB [mkUser "u1" "u1@example.org"; mkUser "u2" "u2@example.org"] [] []
             [manualTask 1%nat "u1"; classroomTask 2%nat "u1"; manualTask 3%nat "u2"]
             [] [] [] [] [] 4%nat) [].

Definition gymTable : list Routes.GymRow :=
  [Routes.mkGymRow 1%nat (mkGym "u1" 1 "18:00" true ["2026-01-12"]);
   Routes.mkGymRow 2%nat (mkGym "u2" 1 "07:00" true [])].

End RouteExamples.

(** The events a computation appends do not include [e]. *)
Definition avoids (e : Event) (w w' : World) : Prop :=
  exists evs, trace w' = (trace w ++ evs)%list /\ ~ In e evs.

(** [t] hangs under a course of the user that has sync enabled and whose
    upstream id is not [gid]. *)
Definition underEnabledCourse (userId : UserId) (gid : string) (cs : list Course)
    (t : Task) : Prop :=
  exists c, In c cs
            /\ course_userId c = userId
            /\ course_syncEnabled c = true
            /\ googleCourseId c <> gid
            /\ task_courseId t = Some (course_id c).

Module CourseOffExamples.
Import Examples SyncExamples.

(** The account of [syncDB] with sync switched off for Art. *)
Definition artOff : World :=
  mkWorld
    (mkDB [mkUser "u1" "u1@example.org"]
          [mkConnection 1%nat "u1" "ya29.token" "1//refresh" 9000000 true None]
          [localCourse 10%nat "c-math" "Math";
           mkCourse 12%nat "u1" "c-art" "Art" None None "" false]
          [] [] [] [] [] [] 20%nat) [].

End CourseOffExamples.

(** ** Further vocabulary: class reminders *)

Definition isClassPush (e : Event) : bool :=
  match e with
  | EvPush _ m => String.eqb (pm_type m) "class_reminder"
  | _ => false
  end.

(** How many class reminders were handed to the push gateway. *)
Definition classPushCount (evs : list Event) : nat :=
  List.length (filter isClassPush evs).

(** [prefs?.classReminderMinutes || 15] *)
Definition leadMinutes (prefs : option NotificationPreference) : Z :=
  JS.num_or (option_map classReminderMinutes prefs) 15.

(** No active class of today's weekday starts within its owner's lead
    time; users and preferences are those of [d0]. *)
Definition noClassSoon (env : Env) (d0 : DB) (rows : list Schedule) : Prop :=
  forall u s, In u (users d0) -> In s rows ->
              sch_userId s = user_id u ->
              sch_dayOfWeek s = getDay (clock env) ->
              sch_isActive s = true ->
              ReminderJob.isWithinMinutesBefore (clock env) (sch_startTime s)
                (leadMinutes (findPrefs d0 (user_id u))) = false.

(** While no class is about to start, a computation keeps it so and hands
    no class reminder to the gateway. *)
Definition noClassPush (env : Env) (d0 : DB) (w w' : World) : Prop :=
  noClassSoon env d0 (classSchedules (db w)) ->
  noClassSoon env d0 (classSchedules (db w'))
  /\ classPushCount (trace w') = classPushCount (trace w).

Module ClassExamples.
Import Examples.

(** Monday 17:50; the user's class of Mondays starts at 18:10 and the lead
    time is the default of 15 minutes. *)
Definition classDB : DB :=
  mkDB [mkUser "u1" "u1@example.org"] [] [] [] []
       [mkPushToken "u1" "ExponentPushToken[a]" true]
       [mkSchedule "u1" "Algebra" 1 "18:10" true] [] [] 0%nat.

End ClassExamples.

(** * Properties *)

(** ** The monad *)

Section MonadRules.

Context (R : World -> World -> Prop) {HR : PreOrder R}.

Lemma preserves_ret {A} (a : A) : preserves R (ret a).
Proof. intro w; simpl; reflexivity. Qed.

Lemma preserves_throw {A} (e : string) : preserves R (@throw A e).
Proof. intro w; simpl; reflexivity. Qed.

Lemma preserves_lift {A} (r : Res A) : preserves R (lift r).
Proof. intro w; simpl; reflexivity. Qed.

Lemma preserves_getDb : preserves R getDb.
Proof. intro w; simpl; reflexivity. Qed.

Lemma preserves_bind {A B} (m : M A) (k : A -> M B) :
  preserves R m -> (forall a, preserves R (k a)) -> preserves R (bind m k).
Proof.
  intros Hm Hk w. unfold bind.
  specialize (Hm w). destruct (m w) as [[a|e] w']; simpl in *.
  - etransitivity; [exact Hm | apply Hk].
  - exact Hm.
Qed.

Lemma preserves_tryCatch {A} (m : M A) (h : string -> M A) :
  preserves R m -> (forall e, preserves R (h e)) -> preserves R (tryCatch m h).
Proof.
  intros Hm Hh w. unfold tryCatch.
  specialize (Hm w). destruct (m w) as [[a|e] w']; simpl in *.
  - exact Hm.
  - etransitivity; [exact Hm | apply Hh].
Qed.

Lemma preserves_forEach {A} (l : list A) (body : A -> M unit) :
  (forall x, In x l -> preserves R (body x)) -> preserves R (forEach l body).
Proof.
  induction l as [|x rest IH]; intros Hb; simpl.
  - apply preserves_ret.
  - apply preserves_bind.
    + apply Hb; left; reflexivity.
    + intros _. apply IH. intros y Hy. apply Hb; right; exact Hy.
Qed.

Lemma preserves_forEachCollect {A B} (l : list A) (body : A -> M (list B)) :
  (forall x, In x l -> preserves R (body x)) -> preserves R (forEachCollect l body).
Proof.
  induction l as [|x rest IH]; intros Hb; simpl.
  - apply preserves_ret.
  - apply preserves_bind.
    + apply Hb; left; reflexivity.
    + intros ys. apply preserves_bind.
      * apply IH. intros y Hy. apply Hb; right; exact Hy.
      * intros zs. apply preserves_ret.
Qed.

End MonadRules.

Lemma returns_ret {A} (a : A) : returns (ret a).
Proof. intro w; reflexivity. Qed.

Lemma returns_getDb : returns getDb.
Proof. intro w; reflexivity. Qed.

Lemma returns_emit (e : Event) : returns (emit e).
Proof. intro w; reflexivity. Qed.

Lemma returns_modifyDb (f : DB -> DB) : returns (modifyDb f).
Proof. intro w; reflexivity. Qed.

Lemma returns_bind {A B} (m : M A) (k : A -> M B) :
  returns m -> (forall a, returns (k a)) -> returns (bind m k).
Proof.
  intros Hm Hk w. unfold bind. specialize (Hm w).
  destruct (m w) as [[a|e] w']; simpl in *; [apply Hk | discriminate].
Qed.

Lemma returns_tryCatch {A} (m : M A) (h : string -> M A) :
  (forall e, returns (h e)) -> returns (tryCatch m h).
Proof.
  intros Hh w. unfold tryCatch.
  destruct (m w) as [[a|e] w']; simpl; [reflexivity | apply Hh].
Qed.

Lemma returns_forEach {A} (l : list A) (body : A -> M unit) :
  (forall x, In x l -> returns (body x)) -> returns (forEach l body).
Proof.
  induction l as [|x rest IH]; intros Hb; simpl.
  - apply returns_ret.
  - apply returns_bind.
    + apply Hb; left; reflexivity.
    + intros _. apply IH. intros y Hy. apply Hb; right; exact Hy.
Qed.

Lemma returns_forEachCollect {A B} (l : list A) (body : A -> M (list B)) :
  (forall x, In x l -> returns (body x)) -> returns (forEachCollect l body).
Proof.
  induction l as [|x rest IH]; intros Hb; simpl.
  - apply returns_ret.
  - apply returns_bind.
    + apply Hb; left; reflexivity.
    + intros ys. apply returns_bind.
      * apply IH. intros y Hy. apply Hb; right; exact Hy.
      * intros zs. apply returns_ret.
Qed.

(** ** NotificationService: quiet hours *)

Lemma handleTickets_trace (tokens : list string) (data : list Ticket) :
  forall i w, trace (snd (NotificationService.handleTickets tokens i data w)) = trace w.
Proof.
  induction data as [|ticket rest IH]; intros i w; simpl; [reflexivity|].
  unfold bind.
  destruct (String.eqb (tk_status ticket) "error").
  - destruct (tk_detailsError ticket) as [err|].
    + destruct (String.eqb err "DeviceNotRegistered"); simpl; rewrite IH; reflexivity.
    + simpl; rewrite IH; reflexivity.
  - simpl; rewrite IH; reflexivity.
Qed.

Lemma handleTickets_returns (tokens : list string) (data : list Ticket) :
  forall i, returns (NotificationService.handleTickets tokens i data).
Proof.
  induction data as [|ticket rest IH]; intros i; simpl; [apply returns_ret|].
  apply returns_bind; [|intros _; apply IH].
  destruct (String.eqb (tk_status ticket) "error"); [|apply returns_ret].
  destruct (tk_detailsError ticket) as [err|]; [|apply returns_ret].
  destruct (String.eqb err "DeviceNotRegistered");
    [apply returns_modifyDb | apply returns_ret].
Qed.

Lemma sendExpoPush_trace (env : Env) (tokens : list string) (message : PushMessage)
    (w : World) :
  trace (snd (NotificationService.sendExpoPush env tokens message w))
  = (trace w ++ [EvPush tokens message])%list.
Proof.
  unfold NotificationService.sendExpoPush, bind, emit, lift, ret; simpl.
  destruct (expoPush env tokens message) as [[data|]|e]; simpl; try reflexivity.
  pose proof (handleTickets_trace tokens data 0
                (mkWorld (db w) (trace w ++ [EvPush tokens message])%list)) as Ht.
  pose proof (handleTickets_returns tokens data 0
                (mkWorld (db w) (trace w ++ [EvPush tokens message])%list)) as Hr.
  destruct (NotificationService.handleTickets tokens 0 data _) as [[u|e] w'];
    simpl in *; [exact Ht | discriminate].
Qed.

Lemma truthy_nonempty (s : string) : s <> "" -> JS.truthy_str (Some s) = true.
Proof. destruct s; [congruence | reflexivity]. Qed.

Lemma str_or_nonempty (s d : string) : s <> "" -> JS.str_or (Some s) d = s.
Proof. destruct s; [congruence | reflexivity]. Qed.

(** With quiet hours enabled and both bounds set, [sendToUser] takes the
    quiet-hours branch exactly when the test of the source holds. *)
Lemma sendToUser_quiet_branch (env : Env) (userId : UserId) (message : PushMessage)
    (w : World) (p : NotificationPreference) (s e : string) :
  findPrefs (db w) userId = Some p ->
  quietHoursEnabled p = true ->
  quietHoursStart p = Some s -> s <> "" ->
  quietHoursEnd p = Some e -> e <> "" ->
  suppressedByQuietHours env userId message w
  <-> NotificationService.inQuietHours (currentTime (clock env)) s e = true.
Proof.
  intros Hp Hen Hs Hsne He Hene.
  unfold suppressedByQuietHours, NotificationService.sendToUser.
  unfold bind at 1. unfold getDb at 1. cbv beta iota.
  rewrite Hp, Hen, Hs, He.
  rewrite (truthy_nonempty s Hsne), (truthy_nonempty e Hene).
  rewrite (str_or_nonempty s _ Hsne), (str_or_nonempty e _ Hene).
  cbn [andb].
  destruct (NotificationService.inQuietHours (currentTime (clock env)) s e) eqn:Hq.
  - split; [reflexivity|]. intros _. reflexivity.
  - split; [|discriminate]. intros H. exfalso.
    unfold bind at 1 in H. unfold getDb at 1 in H. cbv beta iota in H.
    destruct (filter _ (pushTokens (db w))) as [|tk tks] eqn:Hf.
    + unfold bind, emit, ret in H; simpl in H.
      injection H as H. apply app_inv_head in H. discriminate.
    + unfold bind at 1 in H.
      pose proof (sendExpoPush_trace env (map pt_token (tk :: tks)) message w) as Ht.
      destruct (NotificationService.sendExpoPush env _ message w) as [[r|err] w'];
        simpl in *.
      * unfold ret in H. discriminate.
      * discriminate.
Qed.

(** C3 (as the code has it): with quiet hours enabled and both bounds set
    to a window that crosses midnight (the end before the start, as 22:00
    to 07:00), [sendToUser] suppresses delivery exactly when the current
    "HH:MM" string is [>=] the start or [<=] the end under lexicographic
    comparison: the two tests are joined by "or", and the end is
    inclusive. *)
Theorem sendToUser_quiet_hours_iff (env : Env) (userId : UserId) (message : PushMessage)
    (w : World) (p : NotificationPreference) (s e : string) :
  findPrefs (db w) userId = Some p ->
  quietHoursEnabled p = true ->
  quietHoursStart p = Some s -> s <> "" ->
  quietHoursEnd p = Some e -> e <> "" ->
  String.ltb e s = true ->
  suppressedByQuietHours env userId message w
  <-> (JS.str_ge (currentTime (clock env)) s || JS.str_le (currentTime (clock env)) e
       = true).
Proof.
  intros Hp Hen Hs Hsne He Hene _.
  exact (sendToUser_quiet_branch env userId message w p s e Hp Hen Hs Hsne He Hene).
Qed.

Lemma sendToUser_quiet_hours_iff_witness :
  suppressedByQuietHours Examples.at2300 "u1" Examples.hello Examples.quietWorld.
Proof.
  apply (proj2 (sendToUser_quiet_hours_iff Examples.at2300 "u1" Examples.hello
                  Examples.quietWorld (Examples.prefsQuiet "u1" "22:00" "07:00")
                  "22:00" "07:00" eq_refl eq_refl eq_refl
                  ltac:(discriminate) eq_refl ltac:(discriminate) eq_refl)).
  reflexivity.
Defined.

(** At the specification's own example (22:00 to 07:00, now 23:00) delivery
    is suppressed although "23:00" is not inside the half-open same-day
    interval: suppression and interval membership are not equivalent. *)
Lemma quiet_hours_half_open_counterexample :
  ~ (suppressedByQuietHours Examples.at2300 "u1" Examples.hello Examples.quietWorld
     <-> withinHalfOpen "22:00" "07:00" (currentTime (clock Examples.at2300)) = true).
Proof.
  intros [H _].
  assert (Hs : suppressedByQuietHours Examples.at2300 "u1" Examples.hello
                 Examples.quietWorld) by reflexivity.
  specialize (H Hs). vm_compute in H. discriminate.
Qed.

(** ** ClassroomService: credential refresh *)

(** C9 (as the code has it): for an account with a stored access
    credential, the client is obtained after a refresh when the stored
    expiry is strictly before now (the refreshed credential is persisted,
    or the refresh error is thrown with the store untouched), and without
    any refresh, leaving the world as it was, when the expiry is at or
    after now. *)
Theorem getAuthenticatedClient_refresh (env : Env) (userId : UserId) (w : World)
    (c : Connection) :
  ClassroomService.findConnection (db w) userId = Some c ->
  accessToken c <> "" ->
  (tokenExpiry c < nowMs (clock env) ->
   ClassroomService.getAuthenticatedClient env userId w =
   match refreshAccessToken env userId with
   | Ok credentials =>
       (Ok tt,
        mkWorld (set_connections
                   (ClassroomService.updateConnectionWhereUser userId
                      (ClassroomService.applyRefresh env c credentials)) (db w))
                (trace w ++ [EvApi userId ApiRefresh])%list)
   | Throw e => (Throw e, mkWorld (db w) (trace w ++ [EvApi userId ApiRefresh])%list)
   end)
  /\ (nowMs (clock env) <= tokenExpiry c ->
      ClassroomService.getAuthenticatedClient env userId w = (Ok tt, w)).
Proof.
  intros Hc Htok.
  apply String.eqb_neq in Htok.
  unfold ClassroomService.getAuthenticatedClient, bind, getDb; simpl.
  rewrite Hc, Htok.
  split; intros Hcmp.
  - apply Z.ltb_lt in Hcmp. rewrite Hcmp.
    unfold emit, lift, modifyDb; simpl.
    destruct (refreshAccessToken env userId); reflexivity.
  - apply Z.ltb_ge in Hcmp. rewrite Hcmp. reflexivity.
Qed.

Lemma getAuthenticatedClient_refresh_witness :
  ClassroomService.getAuthenticatedClient AuthExamples.refreshingEnv "u1"
    (mkWorld (AuthExamples.connectedDB 4999999) [])
  = (Ok tt,
     mkWorld (mkDB [mkUser "u1" "u1@example.org"]
                   [mkConnection 1%nat "u1" "ya29.new" "1//refresh" 9000000 true None]
                   [] [] [] [] [] [] [] 2%nat)
             [EvApi "u1" ApiRefresh])
  /\ ClassroomService.getAuthenticatedClient AuthExamples.refreshingEnv "u1"
       (mkWorld (AuthExamples.connectedDB 5000001) [])
     = (Ok tt, mkWorld (AuthExamples.connectedDB 5000001) []).
Proof.
  split.
  - exact (proj1 (getAuthenticatedClient_refresh AuthExamples.refreshingEnv "u1"
                    (mkWorld (AuthExamples.connectedDB 4999999) [])
                    (AuthExamples.oauthConnection 4999999) eq_refl ltac:(discriminate))
                 eq_refl).
  - exact (proj2 (getAuthenticatedClient_refresh AuthExamples.refreshingEnv "u1"
                    (mkWorld (AuthExamples.connectedDB 5000001) [])
                    (AuthExamples.oauthConnection 5000001) eq_refl ltac:(discriminate))
                 ltac:(discriminate)).
Defined.

(** A credential whose expiry equals now is used as it is: no refresh call
    is made. *)
Lemma refresh_boundary_counterexample :
  tokenExpiry (AuthExamples.oauthConnection 5000000) = nowMs (clock AuthExamples.refreshingEnv)
  /\ ClassroomService.getAuthenticatedClient AuthExamples.refreshingEnv "u1"
       (mkWorld (AuthExamples.connectedDB 5000000) [])
     = (Ok tt, mkWorld (AuthExamples.connectedDB 5000000) [])
  /\ ~ In (EvApi "u1" ApiRefresh)
          (trace (snd (ClassroomService.getAuthenticatedClient AuthExamples.refreshingEnv "u1"
                         (mkWorld (AuthExamples.connectedDB 5000000) [])))).
Proof.
  split; [reflexivity|]. split; [reflexivity|]. simpl. intros [].
Qed.

Ltac pbind := apply preserves_bind; [typeclasses eauto | | ].
Ltac pret := apply preserves_ret; typeclasses eauto.
Ltac plift := apply preserves_lift; typeclasses eauto.
Ltac pget := apply preserves_getDb; typeclasses eauto.
Ltac pthrow := apply preserves_throw; typeclasses eauto.
Ltac ptry := apply preserves_tryCatch; [typeclasses eauto | | ].
Ltac pforEach := apply preserves_forEach; [typeclasses eauto | ].
Ltac pcollect := apply preserves_forEachCollect; [typeclasses eauto | ].

(** ** ReminderJob: task-due reminders *)

#[local] Instance sameTasksAndDue_preorder : PreOrder sameTasksAndDue.
Proof.
  split.
  - intros w; split; [reflexivity | intros; reflexivity].
  - intros a b c [H1 H2] [H3 H4]; split; [congruence|].
    intros i k. rewrite H4. apply H2.
Qed.

Lemma dueCount_app (i : RowId) (k : Window) (l1 l2 : list Event) :
  dueCount i k (l1 ++ l2) = (dueCount i k l1 + dueCount i k l2)%nat.
Proof. unfold dueCount. rewrite filter_app, length_app. reflexivity. Qed.

Lemma pushCount_app (l1 l2 : list Event) :
  pushCount (l1 ++ l2) = (pushCount l1 + pushCount l2)%nat.
Proof. unfold pushCount. rewrite filter_app, length_app. reflexivity. Qed.

Lemma emit_same (e : Event) :
  (forall i k, isDue i k e = false) -> preserves sameTasksAndDue (emit e).
Proof.
  intros He w. split; simpl; [reflexivity|].
  intros i k. rewrite dueCount_app. unfold dueCount at 2. simpl.
  rewrite He. simpl. lia.
Qed.

Lemma setPushTokens_same (f : list PushToken -> list PushToken) :
  preserves sameTasksAndDue (modifyDb (set_pushTokens f)).
Proof. intros w. split; simpl; [reflexivity | intros; reflexivity]. Qed.

Lemma handleTickets_same (tokens : list string) (data : list Ticket) :
  forall i, preserves sameTasksAndDue (NotificationService.handleTickets tokens i data).
Proof.
  induction data as [|ticket rest IH]; intros i; simpl; [pret|].
  pbind; [|intros _; apply IH].
  destruct (String.eqb (tk_status ticket) "error"); [|pret].
  destruct (tk_detailsError ticket) as [err|]; [|pret].
  destruct (String.eqb err "DeviceNotRegistered");
    [apply setPushTokens_same | pret].
Qed.

Lemma sendExpoPush_same (env : Env) (tokens : list string) (message : PushMessage) :
  preserves sameTasksAndDue (NotificationService.sendExpoPush env tokens message).
Proof.
  unfold NotificationService.sendExpoPush.
  pbind; [apply emit_same; reflexivity|]. intros _.
  pbind; [plift|]. intros result.
  pbind; [|intros _; pret].
  destruct result; [apply handleTickets_same | pret].
Qed.

Lemma sendToUser_same (env : Env) (userId : UserId) (message : PushMessage) :
  preserves sameTasksAndDue (NotificationService.sendToUser env userId message).
Proof.
  unfold NotificationService.sendToUser.
  pbind; [pget|]. intros d.
  match goal with |- preserves _ (if ?c then _ else _) => destruct c end.
  - pbind; [apply emit_same; reflexivity|].
    intros _; pret.
  - pbind; [pget|]. intros d'.
    destruct (filter _ (pushTokens d')).
    + pbind; [apply emit_same; reflexivity|].
      intros _; pret.
    + pbind; [apply sendExpoPush_same|].
      intros r; pret.
Qed.

Lemma sendTaskDueNotification_same (env : Env) (userId : UserId) (title : string)
    (hoursLeft : Z) :
  preserves sameTasksAndDue
    (NotificationService.sendTaskDueNotification env userId title hoursLeft).
Proof.
  unfold NotificationService.sendTaskDueNotification.
  pbind; [pget|]. intros d.
  repeat match goal with
         | |- preserves _ (if ?c then _ else _) => destruct c
         end;
    try pret; apply sendToUser_same.
Qed.

Lemma returns_lift {A} (r : Res A) : is_ok r = true -> returns (lift r).
Proof. intros H w. exact H. Qed.

Lemma sendExpoPush_returns (env : Env) (tokens : list string) (message : PushMessage) :
  pushOk env -> returns (NotificationService.sendExpoPush env tokens message).
Proof.
  intros Hok. unfold NotificationService.sendExpoPush.
  apply returns_bind; [apply returns_emit|]. intros _.
  apply returns_bind; [apply returns_lift, Hok|]. intros result.
  apply returns_bind; [|intros _; apply returns_ret].
  destruct result; [apply handleTickets_returns | apply returns_ret].
Qed.

Lemma sendToUser_returns (env : Env) (userId : UserId) (message : PushMessage) :
  pushOk env -> returns (NotificationService.sendToUser env userId message).
Proof.
  intros Hok. unfold NotificationService.sendToUser.
  apply returns_bind; [apply returns_getDb|]. intros d.
  match goal with |- returns (if ?c then _ else _) => destruct c end.
  - apply returns_bind; [apply returns_emit|]. intros _; apply returns_ret.
  - apply returns_bind; [apply returns_getDb|]. intros d'.
    destruct (filter _ (pushTokens d')).
    + apply returns_bind; [apply returns_emit|]. intros _; apply returns_ret.
    + apply returns_bind; [apply sendExpoPush_returns, Hok|].
      intros r; apply returns_ret.
Qed.

Lemma sendTaskDueNotification_returns (env : Env) (userId : UserId) (title : string)
    (hoursLeft : Z) :
  pushOk env ->
  returns (NotificationService.sendTaskDueNotification env userId title hoursLeft).
Proof.
  intros Hok. unfold NotificationService.sendTaskDueNotification.
  apply returns_bind; [apply returns_getDb|]. intros d.
  repeat match goal with
         | |- returns (if ?c then _ else _) => destruct c
         end;
    try apply returns_ret; apply sendToUser_returns, Hok.
Qed.

Lemma bind_run {A B} (m : M A) (k : A -> M B) (w : World) :
  bind m k w = match m w with
               | (Ok a, w') => k a w'
               | (Throw e, w') => (Throw e, w')
               end.
Proof. reflexivity. Qed.

(** *** One tick, under an invariant that makes every send return *)

Section Tick.

Variables (env : Env) (userId : UserId) (prefs : option NotificationPreference).
Variable Inv : World -> Prop.

Hypothesis send_ok : forall title h w,
  Inv w ->
  is_ok (fst (NotificationService.sendTaskDueNotification env userId title h w)) = true
  /\ Inv (snd (NotificationService.sendTaskDueNotification env userId title h w)).
Hypothesis inv_emit : forall i h w,
  Inv w -> Inv (mkWorld (db w) (trace w ++ [EvTaskDue i h])%list).
Hypothesis inv_tasks : forall f w,
  Inv w -> Inv (mkWorld (set_tasks f (db w)) (trace w)).

Lemma fire_effect (k : Window) (x : Task) (w : World) :
  Inv w ->
  let r := (emit (EvTaskDue (task_id x) (hoursOf k)) ;;
            NotificationService.sendTaskDueNotification env userId (task_title x)
              (hoursOf k) ;;
            modifyDb (set_tasks (setterOf k (task_id x)))) w in
  fst r = Ok tt
  /\ Inv (snd r)
  /\ tasks (db (snd r)) = setterOf k (task_id x) (tasks (db w))
  /\ forall i k', dueCount i k' (trace (snd r))
                  = (dueCount i k' (trace w)
                     + (if isDue i k' (EvTaskDue (task_id x) (hoursOf k)) then 1 else 0))%nat.
Proof.
  intros HI. cbv zeta. rewrite bind_run. unfold emit. cbv beta iota.
  set (w1 := mkWorld (db w) (trace w ++ [EvTaskDue (task_id x) (hoursOf k)])%list).
  assert (HI1 : Inv w1) by (apply inv_emit; exact HI).
  rewrite bind_run.
  destruct (send_ok (task_title x) (hoursOf k) w1 HI1) as [Hok HI2].
  destruct (sendTaskDueNotification_same env userId (task_title x) (hoursOf k) w1)
    as [Ht Hc].
  destruct (NotificationService.sendTaskDueNotification env userId (task_title x)
              (hoursOf k) w1) as [[r|e] w2]; simpl in *; [|discriminate].
  split; [reflexivity|]. split; [apply (inv_tasks _ w2); exact HI2|].
  split; [rewrite Ht; reflexivity|].
  intros i k'. rewrite Hc. unfold w1; simpl. rewrite dueCount_app.
  unfold dueCount at 2. simpl.
  destruct (Nat.eqb (task_id x) i && (hoursOf k =? hoursOf k')); reflexivity.
Qed.

Lemma isDue_emitted (x : Task) (k : Window) (i : RowId) (k' : Window) :
  isDue i k' (EvTaskDue (task_id x) (hoursOf k))
  = Nat.eqb (task_id x) i && match k, k' with
                             | W24, W24 | W1, W1 => true
                             | _, _ => false
                             end.
Proof. destruct k, k'; simpl; rewrite ?andb_true_r, ?andb_false_r; reflexivity. Qed.

Lemma checkTask_effect (x : Task) (w : World) :
  Inv w ->
  let r := ReminderJob.checkTask env userId prefs x w in
  fst r = Ok tt
  /\ Inv (snd r)
  /\ tasks (db (snd r)) = flagUpdate env prefs x (tasks (db w))
  /\ forall i k, dueCount i k (trace (snd r))
                 = (dueCount i k (trace w) + emitted env prefs x i k)%nat.
Proof.
  intros HI. unfold ReminderJob.checkTask, flagUpdate, emitted, fires.
  destruct (dueDate x) as [due|]; simpl.
  2:{ repeat split; try assumption. intros i k.
      rewrite andb_false_r. lia. }
  rewrite bind_run.
  assert (H24 : let c := not_disabled prefs taskDue24hEnabled && negb (notified24h x)
                          && ReminderJob.in24hWindow (due - nowMs (clock env)) in
                let r := (if not_disabled prefs taskDue24hEnabled && negb (notified24h x)
                          then if ReminderJob.in24hWindow (due - nowMs (clock env))
                               then emit (EvTaskDue (task_id x) 24) ;;
                                    NotificationService.sendTaskDueNotification env userId
                                      (task_title x) 24 ;;
                                    modifyDb (set_tasks (ReminderJob.setNotified24h (task_id x)))
                               else ret tt
                          else ret tt) w in
                fst r = Ok tt /\ Inv (snd r)
                /\ tasks (db (snd r))
                   = (if c then ReminderJob.setNotified24h (task_id x) (tasks (db w))
                      else tasks (db w))
                /\ forall i k, dueCount i k (trace (snd r))
                               = (dueCount i k (trace w)
                                  + if c && isDue i k (EvTaskDue (task_id x) 24)
                                    then 1 else 0)%nat).
  { cbv zeta.
    destruct (not_disabled prefs taskDue24hEnabled && negb (notified24h x)); simpl.
    - destruct (ReminderJob.in24hWindow (due - nowMs (clock env))); simpl.
      + exact (fire_effect W24 x w HI).
      + repeat split; try assumption. intros; lia.
    - repeat split; try assumption. intros; lia. }
  cbv zeta in H24.
  destruct H24 as (Hr & HI1 & Ht1 & Hc1).
  match type of Hr with fst (?m w) = _ => destruct (m w) as [r1 w1] end.
  simpl in Hr, HI1, Ht1, Hc1. subst r1.
  assert (H1 : let c := not_disabled prefs taskDue1hEnabled && negb (notified1h x)
                         && ReminderJob.in1hWindow (due - nowMs (clock env)) in
               let r := (if not_disabled prefs taskDue1hEnabled && negb (notified1h x)
                         then if ReminderJob.in1hWindow (due - nowMs (clock env))
                              then emit (EvTaskDue (task_id x) 1) ;;
                                   NotificationService.sendTaskDueNotification env userId
                                     (task_title x) 1 ;;
                                   modifyDb (set_tasks (ReminderJob.setNotified1h (task_id x)))
                              else ret tt
                         else ret tt) w1 in
               fst r = Ok tt /\ Inv (snd r)
               /\ tasks (db (snd r))
                  = (if c then ReminderJob.setNotified1h (task_id x) (tasks (db w1))
                     else tasks (db w1))
               /\ forall i k, dueCount i k (trace (snd r))
                              = (dueCount i k (trace w1)
                                 + if c && isDue i k (EvTaskDue (task_id x) 1)
                                   then 1 else 0)%nat).
  { cbv zeta.
    destruct (not_disabled prefs taskDue1hEnabled && negb (notified1h x)); simpl.
    - destruct (ReminderJob.in1hWindow (due - nowMs (clock env))); simpl.
      + exact (fire_effect W1 x w1 HI1).
      + repeat split; try assumption. intros; lia.
    - repeat split; try assumption. intros; lia. }
  cbv zeta in H1.
  destruct H1 as (Hr2 & HI2 & Ht2 & Hc2).
  split; [exact Hr2|]. split; [exact HI2|]. split.
  - rewrite Ht2, Ht1. reflexivity.
  - intros i k. rewrite Hc2, Hc1.
    change 24 with (hoursOf W24). change 1 with (hoursOf W1).
    rewrite !isDue_emitted.
    destruct k; simpl;
      destruct (Nat.eqb (task_id x) i); simpl;
      rewrite ?andb_true_r, ?andb_false_r; simpl; try lia;
      repeat match goal with |- context [if ?c then _ else _] => destruct c end; lia.
Qed.

Lemma tick_effect (l : list Task) :
  forall w, Inv w ->
  let r := forEach l (ReminderJob.checkTask env userId prefs) w in
  fst r = Ok tt
  /\ Inv (snd r)
  /\ tasks (db (snd r)) = fold_left (fun acc x => flagUpdate env prefs x acc) l (tasks (db w))
  /\ forall i k, dueCount i k (trace (snd r))
                 = (dueCount i k (trace w)
                    + list_sum (map (fun x => emitted env prefs x i k) l))%nat.
Proof.
  induction l as [|x rest IH]; intros w HI; simpl.
  - repeat split; try assumption. intros; lia.
  - rewrite bind_run.
    destruct (checkTask_effect x w HI) as (Hr & HI1 & Ht & Hc).
    destruct (ReminderJob.checkTask env userId prefs x w) as [r1 w1].
    simpl in Hr, HI1, Ht, Hc. subst r1.
    destruct (IH w1 HI1) as (Hr2 & HI2 & Ht2 & Hc2).
    split; [exact Hr2|]. split; [exact HI2|]. split.
    + rewrite Ht2, Ht. reflexivity.
    + intros i k. rewrite Hc2, Hc. lia.
Qed.

End Tick.

(** *** The task table under flag updates *)

Lemma withFlags_same (t : Task) : withFlags t (notified24h t) (notified1h t) = t.
Proof. destruct t; reflexivity. Qed.

Lemma setter_ids (k : Window) (j : RowId) (l : list Task) :
  map task_id (setterOf k j l) = map task_id l.
Proof.
  destruct k; simpl; unfold ReminderJob.setNotified24h, ReminderJob.setNotified1h;
    rewrite map_map; apply map_ext; intros t;
    destruct (Nat.eqb (task_id t) j); reflexivity.
Qed.

Lemma flagUpdate_ids (env : Env) (prefs : option NotificationPreference) (x : Task)
    (l : list Task) :
  map task_id (flagUpdate env prefs x l) = map task_id l.
Proof.
  unfold flagUpdate.
  destruct (fires env prefs W1 x), (fires env prefs W24 x);
    rewrite ?(setter_ids W1), ?(setter_ids W24); reflexivity.
Qed.

Lemma fold_flagUpdate_ids (env : Env) (prefs : option NotificationPreference)
    (L : list Task) :
  forall l, map task_id (fold_left (fun acc x => flagUpdate env prefs x acc) L l)
            = map task_id l.
Proof.
  induction L as [|x L IH]; intros l; simpl; [reflexivity|].
  rewrite IH. apply flagUpdate_ids.
Qed.

Lemma setter_other (k : Window) (j : RowId) (t : Task) (l : list Task) :
  In t l -> task_id t <> j -> In t (setterOf k j l).
Proof.
  intros Hin Hne. apply Nat.eqb_neq in Hne.
  destruct k; simpl; unfold ReminderJob.setNotified24h, ReminderJob.setNotified1h;
    apply in_map_iff; exists t; rewrite Hne; split; auto.
Qed.

Lemma setter24_self (t : Task) (l : list Task) :
  In t l -> In (withFlags t true (notified1h t)) (ReminderJob.setNotified24h (task_id t) l).
Proof.
  intros Hin. apply in_map_iff. exists t. rewrite Nat.eqb_refl. split; auto.
Qed.

Lemma setter1_self (t : Task) (l : list Task) :
  In t l -> In (withFlags t (notified24h t) true) (ReminderJob.setNotified1h (task_id t) l).
Proof.
  intros Hin. apply in_map_iff. exists t. rewrite Nat.eqb_refl. split; auto.
Qed.

Lemma flagUpdate_other (env : Env) (prefs : option NotificationPreference)
    (x t : Task) (l : list Task) :
  In t l -> task_id t <> task_id x -> In t (flagUpdate env prefs x l).
Proof.
  intros Hin Hne. unfold flagUpdate.
  destruct (fires env prefs W1 x), (fires env prefs W24 x);
    repeat (first [apply (setter_other W1) | apply (setter_other W24)]; auto);
    auto.
Qed.

Lemma flagUpdate_self (env : Env) (prefs : option NotificationPreference)
    (t : Task) (l : list Task) :
  In t l -> In (afterTick env prefs t) (flagUpdate env prefs t l).
Proof.
  intros Hin. unfold flagUpdate, afterTick.
  destruct (fires env prefs W24 t), (fires env prefs W1 t);
    rewrite ?orb_true_r, ?orb_false_r.
  - apply (setter1_self (withFlags t true (notified1h t))).
    apply setter24_self; exact Hin.
  - apply setter24_self; exact Hin.
  - apply setter1_self; exact Hin.
  - rewrite withFlags_same; exact Hin.
Qed.

Lemma fold_flagUpdate_other (env : Env) (prefs : option NotificationPreference)
    (t : Task) (L : list Task) :
  forall l, In t l -> (forall x, In x L -> task_id x <> task_id t) ->
            In t (fold_left (fun acc x => flagUpdate env prefs x acc) L l).
Proof.
  induction L as [|x L IH]; intros l Hin Hne; simpl; [exact Hin|].
  apply IH.
  - apply flagUpdate_other; [exact Hin|].
    intro H; apply (Hne x); [left; reflexivity | symmetry; exact H].
  - intros y Hy; apply Hne; right; exact Hy.
Qed.

Lemma NoDup_ids_other (t : Task) (L : list Task) :
  ~ In (task_id t) (map task_id L) -> forall x, In x L -> task_id x <> task_id t.
Proof.
  intros Hn x Hx Heq. apply Hn. rewrite <- Heq. apply in_map; exact Hx.
Qed.

Lemma fold_flagUpdate_self (env : Env) (prefs : option NotificationPreference)
    (t : Task) (L : list Task) :
  NoDup (map task_id L) -> In t L ->
  forall l, In t l ->
            In (afterTick env prefs t)
               (fold_left (fun acc x => flagUpdate env prefs x acc) L l).
Proof.
  induction L as [|x L IH]; intros Hnd HinL l Hin; simpl; [destruct HinL|].
  inversion Hnd as [|? ? Hnotin Hnd']; subst.
  destruct HinL as [->|HinL].
  - apply fold_flagUpdate_other; [apply flagUpdate_self; exact Hin|].
    intros y Hy. apply (NoDup_ids_other t L Hnotin y Hy).
  - apply IH; auto. apply flagUpdate_other; [exact Hin|].
    intro Heq. apply Hnotin. rewrite <- Heq. apply in_map; exact HinL.
Qed.

Lemma emitted_sum_other (env : Env) (prefs : option NotificationPreference)
    (i : RowId) (k : Window) (L : list Task) :
  (forall x, In x L -> task_id x <> i) ->
  list_sum (map (fun x => emitted env prefs x i k) L) = 0%nat.
Proof.
  induction L as [|x L IH]; intros Hne; simpl; [reflexivity|].
  rewrite IH by (intros y Hy; apply Hne; right; exact Hy).
  unfold emitted.
  assert (H : Nat.eqb (task_id x) i = false)
    by (apply Nat.eqb_neq, Hne; left; reflexivity).
  rewrite H. reflexivity.
Qed.

Lemma emitted_sum_self (env : Env) (prefs : option NotificationPreference)
    (t : Task) (k : Window) (L : list Task) :
  NoDup (map task_id L) -> In t L ->
  list_sum (map (fun x => emitted env prefs x (task_id t) k) L)
  = if fires env prefs k t then 1%nat else 0%nat.
Proof.
  induction L as [|x L IH]; intros Hnd Hin; simpl; [destruct Hin|].
  inversion Hnd as [|? ? Hnotin Hnd']; subst.
  destruct Hin as [->|Hin].
  - rewrite emitted_sum_other by (apply NoDup_ids_other; exact Hnotin).
    unfold emitted. rewrite Nat.eqb_refl. simpl.
    destruct (fires env prefs k t); reflexivity.
  - rewrite IH by auto.
    unfold emitted.
    assert (H : Nat.eqb (task_id x) (task_id t) = false).
    { apply Nat.eqb_neq. intro Heq. apply Hnotin. rewrite Heq.
      apply in_map; exact Hin. }
    rewrite H. reflexivity.
Qed.

Lemma dueCandidates_ids_NoDup (userId : UserId) (rows : list Task) :
  NoDup (map task_id rows) ->
  NoDup (map task_id (ReminderJob.dueCandidates userId rows)).
Proof.
  unfold ReminderJob.dueCandidates.
  induction rows as [|t rows IH]; intros Hnd; simpl; [constructor|].
  inversion Hnd as [|? ? Hfresh Hrest]; subst.
  match goal with |- context [if ?c then _ else _] => destruct c end;
    simpl; [|apply IH; exact Hrest].
  constructor; [|apply IH; exact Hrest].
  intro Hin. apply Hfresh. apply in_map_iff in Hin.
  destruct Hin as (x & Hid & Hx). apply filter_In in Hx.
  apply in_map_iff. exists x. tauto.
Qed.

Lemma candidate_in (userId : UserId) (t : Task) (due : Z) (l : list Task) :
  In t l -> task_userId t = userId -> ReminderJob.isPending (task_status t) = true ->
  dueDate t = Some due -> In t (ReminderJob.dueCandidates userId l).
Proof.
  intros Hin Hu Hp Hd. apply filter_In. split; [exact Hin|].
  rewrite Hu, String.eqb_refl, Hp, Hd. reflexivity.
Qed.

Section TickTarget.

Variables (env : Env) (userId : UserId) (prefs : option NotificationPreference).
Variable Inv : World -> Prop.

Hypothesis send_ok : forall title h w,
  Inv w ->
  is_ok (fst (NotificationService.sendTaskDueNotification env userId title h w)) = true
  /\ Inv (snd (NotificationService.sendTaskDueNotification env userId title h w)).
Hypothesis inv_emit : forall i h w,
  Inv w -> Inv (mkWorld (db w) (trace w ++ [EvTaskDue i h])%list).
Hypothesis inv_tasks : forall f w,
  Inv w -> Inv (mkWorld (set_tasks f (db w)) (trace w)).

Lemma tick_target (w : World) (t : Task) (due : Z) :
  Inv w ->
  NoDup (map task_id (tasks (db w))) ->
  In t (tasks (db w)) ->
  task_userId t = userId ->
  ReminderJob.isPending (task_status t) = true ->
  dueDate t = Some due ->
  let r := ReminderJob.checkTaskDueReminders env userId prefs w in
  fst r = Ok tt
  /\ Inv (snd r)
  /\ map task_id (tasks (db (snd r))) = map task_id (tasks (db w))
  /\ In (afterTick env prefs t) (tasks (db (snd r)))
  /\ forall k, dueCount (task_id t) k (trace (snd r))
               = (dueCount (task_id t) k (trace w)
                  + if fires env prefs k t then 1 else 0)%nat.
Proof.
  intros HI Hnd Hin Hu Hp Hd. cbv zeta.
  unfold ReminderJob.checkTaskDueReminders. rewrite bind_run.
  unfold getDb. cbv beta iota.
  pose proof (tick_effect env userId prefs Inv send_ok inv_emit inv_tasks
                (ReminderJob.dueCandidates userId (tasks (db w))) w HI) as H.
  cbv zeta in H. destruct H as (Hr & HI' & Ht & Hc).
  assert (HndL : NoDup (map task_id (ReminderJob.dueCandidates userId (tasks (db w)))))
    by (apply dueCandidates_ids_NoDup; exact Hnd).
  assert (HinL : In t (ReminderJob.dueCandidates userId (tasks (db w))))
    by (eapply candidate_in; eauto).
  split; [exact Hr|]. split; [exact HI'|]. split; [|split].
  - rewrite Ht. apply fold_flagUpdate_ids.
  - rewrite Ht. apply fold_flagUpdate_self; assumption.
  - intros k. rewrite Hc. rewrite emitted_sum_self by assumption. reflexivity.
Qed.

End TickTarget.

Lemma afterTick_flag (env : Env) (prefs : option NotificationPreference) (t : Task)
    (k : Window) :
  flagOf k (afterTick env prefs t) = flagOf k t || fires env prefs k t.
Proof. destruct k; reflexivity. Qed.

Lemma fires_due (env : Env) (prefs : option NotificationPreference) (k : Window)
    (t : Task) (due : Z) :
  dueDate t = Some due ->
  fires env prefs k t
  = not_disabled prefs (toggleOf k) && negb (flagOf k t)
    && inWindow k (due - nowMs (clock env)).
Proof. intros Hd. unfold fires. rewrite Hd. reflexivity. Qed.

Lemma runTicks_target (userId : UserId) (prefs : option NotificationPreference) (due : Z) :
  forall envs w t,
    (forall env, In env envs -> pushOk env) ->
    NoDup (map task_id (tasks (db w))) ->
    In t (tasks (db w)) ->
    task_userId t = userId ->
    ReminderJob.isPending (task_status t) = true ->
    dueDate t = Some due ->
    exists t',
      In t' (tasks (db (runTicks envs userId prefs w)))
      /\ task_id t' = task_id t
      /\ (forall k, flagOf k t'
                    = flagOf k t
                      || (not_disabled prefs (toggleOf k) && someTickIn k due envs))
      /\ (forall k, dueCount (task_id t) k (trace (runTicks envs userId prefs w))
                    = (dueCount (task_id t) k (trace w)
                       + if negb (flagOf k t) && not_disabled prefs (toggleOf k)
                            && someTickIn k due envs
                         then 1 else 0)%nat).
Proof.
  induction envs as [|env rest IH]; intros w t Hok Hnd Hin Hu Hp Hd; simpl.
  - exists t. split; [exact Hin|]. split; [reflexivity|]. split.
    + intros k. rewrite andb_false_r, orb_false_r. reflexivity.
    + intros k. rewrite andb_false_r. lia.
  - assert (Hsend : forall title h w0,
               True ->
               is_ok (fst (NotificationService.sendTaskDueNotification env userId
                             title h w0)) = true /\ True).
    { intros title h w0 _. split; [|exact I].
      apply sendTaskDueNotification_returns. apply Hok. left; reflexivity. }
    destruct (tick_target env userId prefs (fun _ => True) Hsend
                (fun _ _ _ _ => I) (fun _ _ _ => I) w t due I Hnd Hin Hu Hp Hd)
      as (_ & _ & Hids & Hin1 & Hc1).
    set (w1 := snd (ReminderJob.checkTaskDueReminders env userId prefs w)) in *.
    destruct (IH w1 (afterTick env prefs t)) as (t' & Hin' & Hid' & Hf' & Hc');
      auto.
    { intros e He. apply Hok. right; exact He. }
    { rewrite Hids. exact Hnd. }
    exists t'. split; [exact Hin'|]. split; [exact Hid'|]. split.
    + intros k. rewrite Hf', afterTick_flag, (fires_due env prefs k t due Hd).
      destruct (flagOf k t), (not_disabled prefs (toggleOf k)),
        (inWindow k (due - nowMs (clock env))), (someTickIn k due rest);
        reflexivity.
    + intros k. specialize (Hc' k). simpl in Hc'. rewrite Hc', Hc1.
      rewrite afterTick_flag, (fires_due env prefs k t due Hd).
      destruct (flagOf k t), (not_disabled prefs (toggleOf k)),
        (inWindow k (due - nowMs (clock env))), (someTickIn k due rest);
        simpl; lia.
Qed.

(** C1 (as the code has it): for a task of the user with a due date and
    status PENDING or IN_PROGRESS whose two flags are unset, when the user's
    24h and 1h toggles are not disabled and the push gateway answers, any
    sequence of ticks of the task-due check with at least one tick inside
    each window raises exactly one 24h and exactly one 1h reminder for the
    task, however many ticks fall inside the windows, and leaves both
    flags true.  A reminder is raised when the engine calls
    [sendTaskDueNotification] for the task; task ids are a unique key of
    the table. *)
Theorem due_reminders_exactly_once (envs : list Env) (userId : UserId)
    (prefs : option NotificationPreference) (w : World) (t : Task) (due : Z) :
  NoDup (map task_id (tasks (db w))) ->
  In t (tasks (db w)) ->
  task_userId t = userId ->
  ReminderJob.isPending (task_status t) = true ->
  dueDate t = Some due ->
  notified24h t = false ->
  notified1h t = false ->
  not_disabled prefs taskDue24hEnabled = true ->
  not_disabled prefs taskDue1hEnabled = true ->
  (forall env, In env envs -> pushOk env) ->
  someTickIn W24 due envs = true ->
  someTickIn W1 due envs = true ->
  let w' := runTicks envs userId prefs w in
  dueCount (task_id t) W24 (trace w') = (dueCount (task_id t) W24 (trace w) + 1)%nat
  /\ dueCount (task_id t) W1 (trace w') = (dueCount (task_id t) W1 (trace w) + 1)%nat
  /\ exists t', In t' (tasks (db w')) /\ task_id t' = task_id t
                /\ notified24h t' = true /\ notified1h t' = true.
Proof.
  intros Hnd Hin Hu Hp Hd Hf24 Hf1 He24 He1 Hok H24 H1. cbv zeta.
  destruct (runTicks_target userId prefs due envs w t Hok Hnd Hin Hu Hp Hd)
    as (t' & Hin' & Hid' & Hf' & Hc').
  split; [|split].
  - rewrite (Hc' W24). simpl. rewrite Hf24, He24, H24. reflexivity.
  - rewrite (Hc' W1). simpl. rewrite Hf1, He1, H1. reflexivity.
  - exists t'. split; [exact Hin'|]. split; [exact Hid'|]. split.
    + pose proof (Hf' W24) as H. simpl in H. rewrite H, He24, H24.
      apply orb_true_r.
    + pose proof (Hf' W1) as H. simpl in H. rewrite H, He1, H1.
      apply orb_true_r.
Qed.

Lemma ticks_pushOk : forall env, In env ReminderExamples.ticks -> pushOk env.
Proof.
  intros env Hin. unfold ReminderExamples.ticks in Hin. apply in_map_iff in Hin.
  destruct Hin as (ms & <- & _). intros tokens message. reflexivity.
Qed.

Lemma due_reminders_exactly_once_witness :
  let w' := runTicks ReminderExamples.ticks "u1" (Some (Examples.prefsAllOn "u1"))
              (mkWorld (ReminderExamples.reminderDB (Examples.prefsAllOn "u1")) []) in
  dueCount 1%nat W24 (trace w') = 1%nat
  /\ dueCount 1%nat W1 (trace w') = 1%nat
  /\ exists t', In t' (tasks (db w')) /\ task_id t' = 1%nat
                /\ notified24h t' = true /\ notified1h t' = true.
Proof.
  apply (due_reminders_exactly_once ReminderExamples.ticks "u1"
           (Some (Examples.prefsAllOn "u1"))
           (mkWorld (ReminderExamples.reminderDB (Examples.prefsAllOn "u1")) [])
           ReminderExamples.homework ReminderExamples.dueAt).
  - simpl. constructor; [intros [] | constructor].
  - left; reflexivity.
  - reflexivity.
  - reflexivity.
  - reflexivity.
  - reflexivity.
  - reflexivity.
  - reflexivity.
  - reflexivity.
  - exact ticks_pushOk.
  - reflexivity.
  - reflexivity.
Defined.

(** With the 24h toggle switched off in the user's preferences, ticks
    that cross both windows raise no 24h reminder at all and leave
    [notified24h] false. *)
Lemma due_reminder_opt_out_counterexample :
  let w' := runTicks ReminderExamples.ticks "u1" (Some ReminderExamples.prefs24hOff)
              (mkWorld (ReminderExamples.reminderDB ReminderExamples.prefs24hOff) []) in
  someTickIn W24 ReminderExamples.dueAt ReminderExamples.ticks = true
  /\ someTickIn W1 ReminderExamples.dueAt ReminderExamples.ticks = true
  /\ dueCount 1%nat W24 (trace w') = 0%nat
  /\ map notified24h (tasks (db w')) = [false]
  /\ map notified1h (tasks (db w')) = [true].
Proof. vm_compute. repeat split; reflexivity. Qed.

(** *** Suppressed sends *)

Lemma sendToUser_run (env : Env) (userId : UserId) (message : PushMessage) (w : World) :
  NotificationService.sendToUser env userId message w
  = if quietFor env (findPrefs (db w) userId)
    then (Ok None, mkWorld (db w) (trace w ++ [EvLog (LogQuietHours userId)])%list)
    else match ReminderJob.activeTokens (db w) userId with
         | [] => (Ok None, mkWorld (db w) (trace w ++ [EvLog (LogNoTokens userId)])%list)
         | tk :: tks =>
             match NotificationService.sendExpoPush env (map pt_token (tk :: tks))
                     message w with
             | (Ok r, w') => (Ok (Some r), w')
             | (Throw e, w') => (Throw e, w')
             end
         end.
Proof.
  unfold NotificationService.sendToUser, quietFor, ReminderJob.activeTokens.
  rewrite bind_run. unfold getDb at 1. cbv beta iota.
  match goal with |- context [if ?c then _ else _] => destruct c end;
    [reflexivity|].
  rewrite bind_run. unfold getDb at 1. cbv beta iota.
  destruct (filter _ (pushTokens (db w))) as [|tk tks]; [reflexivity|].
  rewrite bind_run.
  destruct (NotificationService.sendExpoPush env _ message w) as [[r|e] w'];
    reflexivity.
Qed.

Lemma sendToUser_muted (env : Env) (userId : UserId) (message : PushMessage)
    (w : World) :
  muted env userId (db w) ->
  exists line,
    NotificationService.sendToUser env userId message w
    = (Ok None, mkWorld (db w) (trace w ++ [EvLog line])%list).
Proof.
  intros [Hq|Hn]; rewrite sendToUser_run.
  - rewrite Hq. eexists. reflexivity.
  - destruct (quietFor env (findPrefs (db w) userId)); [eexists; reflexivity|].
    rewrite Hn. eexists. reflexivity.
Qed.

Section MutedTick.

Variables (env : Env) (userId : UserId) (n : nat).

Lemma muted_send_ok (title : string) (h : Z) (w : World) :
  mutedInv env userId n w ->
  is_ok (fst (NotificationService.sendTaskDueNotification env userId title h w)) = true
  /\ mutedInv env userId n
       (snd (NotificationService.sendTaskDueNotification env userId title h w)).
Proof.
  intros [Hm Hn].
  unfold NotificationService.sendTaskDueNotification. rewrite bind_run.
  unfold getDb. cbv beta iota.
  repeat match goal with
         | |- context [if ?c then ret None else _] => destruct c
         end;
    try (split; [reflexivity | split; assumption]).
  match goal with
  | |- context [NotificationService.sendToUser env userId ?m w] =>
      destruct (sendToUser_muted env userId m w Hm) as [line E]
  end.
  rewrite E. split; [reflexivity|]. split; [exact Hm|].
  simpl. rewrite pushCount_app. simpl. unfold pushCount at 2. simpl. lia.
Qed.

Lemma muted_inv_emit (i : RowId) (h : Z) (w : World) :
  mutedInv env userId n w ->
  mutedInv env userId n (mkWorld (db w) (trace w ++ [EvTaskDue i h])%list).
Proof.
  intros [Hm Hn]. split; [exact Hm|].
  simpl. rewrite pushCount_app. unfold pushCount at 2. simpl. lia.
Qed.

Lemma muted_inv_tasks (f : list Task -> list Task) (w : World) :
  mutedInv env userId n w -> mutedInv env userId n (mkWorld (set_tasks f (db w)) (trace w)).
Proof. intros [Hm Hn]. split; assumption. Qed.

End MutedTick.

(** *** Rows under flag updates *)

Lemma Forall2_same {A} (R : A -> A -> Prop) (l : list A) :
  (forall a, R a a) -> Forall2 R l l.
Proof. intros HR. induction l; constructor; auto. Qed.

Lemma Forall2_compose {A} (R : A -> A -> Prop) (l1 l2 l3 : list A) :
  (forall a b c, R a b -> R b c -> R a c) ->
  Forall2 R l1 l2 -> Forall2 R l2 l3 -> Forall2 R l1 l3.
Proof.
  intros HR H12. revert l3. induction H12; intros l3 H23; inversion H23; subst;
    constructor; eauto.
Qed.

Lemma risen_refl (t : Task) : risen t t.
Proof. split; [symmetry; apply withFlags_same | split; auto]. Qed.

Lemma risen_trans (a b c : Task) : risen a b -> risen b c -> risen a c.
Proof.
  intros (Hb & H1 & H2) (Hc & H3 & H4). split; [|split; auto].
  rewrite Hc. rewrite Hb at 1. reflexivity.
Qed.

Lemma setter_risen (k : Window) (id : RowId) (l : list Task) :
  Forall2 risen l (setterOf k id l).
Proof.
  induction l as [|t l IH]; destruct k; simpl in *; constructor; try exact IH;
    destruct (Nat.eqb (task_id t) id); try apply risen_refl;
    (split; [reflexivity | split; simpl; auto]).
Qed.

Lemma flagUpdate_risen (env : Env) (prefs : option NotificationPreference) (x : Task)
    (l : list Task) :
  Forall2 risen l (flagUpdate env prefs x l).
Proof.
  unfold flagUpdate.
  destruct (fires env prefs W24 x), (fires env prefs W1 x).
  - apply (Forall2_compose risen l _ _ risen_trans (setter_risen W24 (task_id x) l)).
    apply (setter_risen W1).
  - apply (setter_risen W24).
  - apply (setter_risen W1).
  - apply Forall2_same, risen_refl.
Qed.

Lemma fold_flagUpdate_risen (env : Env) (prefs : option NotificationPreference)
    (xs : list Task) :
  forall l, Forall2 risen l (fold_left (fun acc x => flagUpdate env prefs x acc) xs l).
Proof.
  induction xs as [|x xs IH]; intros l; simpl; [apply Forall2_same, risen_refl|].
  apply (Forall2_compose risen l _ _ risen_trans (flagUpdate_risen env prefs x l)).
  apply IH.
Qed.

Lemma risen_row (l l' : list Task) (t : Task) :
  Forall2 risen l l' -> In t l -> exists row, In row l' /\ risen t row.
Proof.
  intros H. induction H as [|a b l l' Hab _ IH]; intros Hin; [destruct Hin|].
  destruct Hin as [<-|Hin].
  - exists b. split; [left; reflexivity | exact Hab].
  - destruct (IH Hin) as (row & Hr & Hrise). exists row. split; [right|]; assumption.
Qed.

(** *** Flags are one-way *)

Lemma setter_flagged (i : RowId) (k k' : Window) (j : RowId) (l : list Task) :
  flagged i k l -> flagged i k (setterOf k' j l).
Proof.
  intros HP row Hin Hid.
  destruct k'; simpl in Hin;
    unfold ReminderJob.setNotified24h, ReminderJob.setNotified1h in Hin;
    apply in_map_iff in Hin; destruct Hin as (r0 & Hr0 & Hin0);
    destruct (Nat.eqb (task_id r0) j); subst row; simpl in *;
    try (apply HP; assumption);
    destruct k; simpl; try reflexivity; apply (HP r0 Hin0 Hid).
Qed.

Lemma setter_sets (k : Window) (i : RowId) (l : list Task) :
  flagged i k (setterOf k i l).
Proof.
  intros row Hin Hid.
  destruct k; simpl in Hin;
    unfold ReminderJob.setNotified24h, ReminderJob.setNotified1h in Hin;
    apply in_map_iff in Hin; destruct Hin as (r0 & Hr0 & Hin0);
    destruct (Nat.eqb (task_id r0) i) eqn:E; subst row; simpl in *;
    try reflexivity; apply Nat.eqb_neq in E; contradiction.
Qed.

Lemma flagUpdate_flagged (env : Env) (prefs : option NotificationPreference)
    (i : RowId) (k : Window) (x : Task) (l : list Task) :
  flagged i k l -> flagged i k (flagUpdate env prefs x l).
Proof.
  intros HP. unfold flagUpdate.
  destruct (fires env prefs W1 x), (fires env prefs W24 x);
    repeat (first [apply (setter_flagged i k W1) | apply (setter_flagged i k W24)]);
    exact HP.
Qed.

Lemma flagUpdate_sets (env : Env) (prefs : option NotificationPreference)
    (k : Window) (t : Task) (l : list Task) :
  fires env prefs k t = true -> flagged (task_id t) k (flagUpdate env prefs t l).
Proof.
  intros Hf. unfold flagUpdate. destruct k; rewrite Hf.
  - destruct (fires env prefs W1 t).
    + apply (setter_flagged (task_id t) W24 W1). apply (setter_sets W24).
    + apply (setter_sets W24).
  - apply (setter_sets W1).
Qed.

Lemma fold_flagUpdate_flagged (env : Env) (prefs : option NotificationPreference)
    (i : RowId) (k : Window) (L : list Task) :
  forall l, flagged i k l ->
            flagged i k (fold_left (fun acc x => flagUpdate env prefs x acc) L l).
Proof.
  induction L as [|x L IH]; intros l HP; simpl; [exact HP|].
  apply IH. apply flagUpdate_flagged. exact HP.
Qed.

Lemma fold_flagUpdate_sets (env : Env) (prefs : option NotificationPreference)
    (k : Window) (t : Task) (L : list Task) :
  In t L -> fires env prefs k t = true ->
  forall l, flagged (task_id t) k
              (fold_left (fun acc x => flagUpdate env prefs x acc) L l).
Proof.
  induction L as [|x L IH]; intros Hin Hf l; simpl; [destruct Hin|].
  destruct Hin as [->|Hin].
  - apply fold_flagUpdate_flagged. apply flagUpdate_sets. exact Hf.
  - apply IH; assumption.
Qed.

#[local] Instance staysSilent_preorder (i : RowId) (k : Window) :
  PreOrder (staysSilent i k).
Proof.
  split.
  - intros w HP. split; [exact HP | reflexivity].
  - intros a b c Hab Hbc HP. destruct (Hab HP) as [HPb Hcb].
    destruct (Hbc HPb) as [HPc Hcc]. split; [exact HPc | congruence].
Qed.

Lemma same_staysSilent {A} (i : RowId) (k : Window) (m : M A) :
  preserves sameTasksAndDue m -> preserves (staysSilent i k) m.
Proof.
  intros Hm w HP. destruct (Hm w) as [Ht Hc]. rewrite Ht. split; [exact HP | apply Hc].
Qed.

Lemma emit_staysSilent (i : RowId) (k : Window) (e : Event) :
  isDue i k e = false -> preserves (staysSilent i k) (emit e).
Proof.
  intros He w HP. split; [exact HP|]. simpl.
  rewrite dueCount_app. unfold dueCount at 2. simpl. rewrite He. simpl. lia.
Qed.

Lemma setter_staysSilent (i : RowId) (k k' : Window) (j : RowId) :
  preserves (staysSilent i k) (modifyDb (set_tasks (setterOf k' j))).
Proof.
  intros w HP. split; [|reflexivity]. simpl. apply setter_flagged. exact HP.
Qed.

Lemma checkTask_staysSilent (env : Env) (userId : UserId)
    (prefs : option NotificationPreference) (i : RowId) (k : Window) (x : Task) :
  (task_id x = i -> flagOf k x = true) ->
  preserves (staysSilent i k) (ReminderJob.checkTask env userId prefs x).
Proof.
  intros Hx. unfold ReminderJob.checkTask.
  destruct (dueDate x) as [due|]; [|pret].
  pbind; [|intros _].
  - destruct (not_disabled prefs taskDue24hEnabled && negb (notified24h x)) eqn:Hc;
      [|pret].
    destruct (ReminderJob.in24hWindow (due - nowMs (clock env))); [|pret].
    pbind; [|intros _; pbind; [|intros _]].
    + apply emit_staysSilent. change 24 with (hoursOf W24). rewrite isDue_emitted.
      destruct (Nat.eqb (task_id x) i) eqn:E; [|reflexivity].
      apply Nat.eqb_eq in E. specialize (Hx E).
      destruct k; simpl in *; [|reflexivity].
      rewrite Hx in Hc. rewrite andb_false_r in Hc. discriminate.
    + apply same_staysSilent, sendTaskDueNotification_same.
    + apply (setter_staysSilent i k W24).
  - destruct (not_disabled prefs taskDue1hEnabled && negb (notified1h x)) eqn:Hc;
      [|pret].
    destruct (ReminderJob.in1hWindow (due - nowMs (clock env))); [|pret].
    pbind; [|intros _; pbind; [|intros _]].
    + apply emit_staysSilent. change 1 with (hoursOf W1). rewrite isDue_emitted.
      destruct (Nat.eqb (task_id x) i) eqn:E; [|reflexivity].
      apply Nat.eqb_eq in E. specialize (Hx E).
      destruct k; simpl in *; [reflexivity|].
      rewrite Hx in Hc. rewrite andb_false_r in Hc. discriminate.
    + apply same_staysSilent, sendTaskDueNotification_same.
    + apply (setter_staysSilent i k W1).
Qed.

Lemma tick_staysSilent (env : Env) (userId : UserId)
    (prefs : option NotificationPreference) (i : RowId) (k : Window) (w : World) :
  staysSilent i k w (snd (ReminderJob.checkTaskDueReminders env userId prefs w)).
Proof.
  intros HP.
  unfold ReminderJob.checkTaskDueReminders. rewrite bind_run. unfold getDb.
  cbv beta iota.
  refine (preserves_forEach (staysSilent i k) _ _ _ w HP).
  intros x Hx. apply checkTask_staysSilent. intros Hid.
  apply filter_In in Hx. destruct Hx as [Hx _]. apply (HP x Hx Hid).
Qed.

Lemma runTicks_staysSilent (userId : UserId) (prefs : option NotificationPreference)
    (i : RowId) (k : Window) :
  forall envs w, staysSilent i k w (runTicks envs userId prefs w).
Proof.
  induction envs as [|env rest IH]; intros w; simpl; [reflexivity|].
  etransitivity; [apply (tick_staysSilent env userId prefs i k w) | apply IH].
Qed.

(** C10: when a tick evaluates a task inside window [k] with the toggle
    not disabled and the flag unset, and [sendToUser] drops the message,
    because quiet hours apply or because the user has no active token, the
    tick still completes and hands nothing to the push gateway; the task
    table keeps its rows, changed at most by flags that went up, and the
    task's row now carries the flag of [k]; after that no tick, under
    whatever clock and preferences, raises the reminder of [k] for the task
    again. *)
Theorem suppressed_reminder_not_retried (k : Window) (env : Env) (userId : UserId)
    (prefs : option NotificationPreference) (w : World) (t : Task) (due : Z) :
  In t (tasks (db w)) ->
  task_userId t = userId ->
  ReminderJob.isPending (task_status t) = true ->
  dueDate t = Some due ->
  flagOf k t = false ->
  not_disabled prefs (toggleOf k) = true ->
  inWindow k (due - nowMs (clock env)) = true ->
  quietFor env (findPrefs (db w) userId) = true
  \/ ReminderJob.activeTokens (db w) userId = [] ->
  let r := ReminderJob.checkTaskDueReminders env userId prefs w in
  fst r = Ok tt
  /\ pushCount (trace (snd r)) = pushCount (trace w)
  /\ Forall2 risen (tasks (db w)) (tasks (db (snd r)))
  /\ (exists row, In row (tasks (db (snd r))) /\ risen t row /\ flagOf k row = true)
  /\ flagged (task_id t) k (tasks (db (snd r)))
  /\ forall envs prefs',
       dueCount (task_id t) k (trace (runTicks envs userId prefs' (snd r)))
       = dueCount (task_id t) k (trace (snd r)).
Proof.
  intros Hin Hu Hpend Hd Hflag Htog Hwin Hm. cbv zeta.
  assert (Hfire : fires env prefs k t = true).
  { rewrite (fires_due env prefs k t due Hd), Htog, Hflag, Hwin. reflexivity. }
  unfold ReminderJob.checkTaskDueReminders. rewrite bind_run. unfold getDb.
  cbv beta iota.
  pose proof (tick_effect env userId prefs
                (mutedInv env userId (pushCount (trace w)))
                (muted_send_ok env userId (pushCount (trace w)))
                (muted_inv_emit env userId (pushCount (trace w)))
                (muted_inv_tasks env userId (pushCount (trace w)))
                (ReminderJob.dueCandidates userId (tasks (db w))) w
                (conj Hm eq_refl)) as H.
  cbv zeta in H. destruct H as (Hr & [_ Hpush] & Ht & _).
  assert (HP : flagged (task_id t) k
                 (tasks (db (snd (forEach (ReminderJob.dueCandidates userId (tasks (db w)))
                                    (ReminderJob.checkTask env userId prefs) w))))).
  { rewrite Ht. apply fold_flagUpdate_sets; [|exact Hfire].
    eapply candidate_in; eauto. }
  assert (HR : Forall2 risen (tasks (db w))
                 (tasks (db (snd (forEach (ReminderJob.dueCandidates userId (tasks (db w)))
                                    (ReminderJob.checkTask env userId prefs) w))))).
  { rewrite Ht. apply fold_flagUpdate_risen. }
  split; [exact Hr|]. split; [exact Hpush|]. split; [exact HR|]. split.
  - destruct (risen_row _ _ t HR Hin) as (row & Hrow & Hrise).
    exists row. split; [exact Hrow|]. split; [exact Hrise|].
    apply (HP row Hrow). destruct Hrise as [E _]. rewrite E. reflexivity.
  - split; [exact HP|]. intros envs prefs'.
    apply (runTicks_staysSilent userId prefs' (task_id t) k envs _ HP).
Qed.

Lemma suppressed_reminder_not_retried_witness :
  let w := mkWorld (ReminderExamples.reminderDB
                      (Examples.prefsQuiet "u1" "22:00" "07:00")) [] in
  let r := ReminderJob.checkTaskDueReminders ReminderExamples.lateTick "u1"
             (Some (Examples.prefsQuiet "u1" "22:00" "07:00")) w in
  fst r = Ok tt
  /\ pushCount (trace (snd r)) = pushCount (trace w)
  /\ Forall2 risen (tasks (db w)) (tasks (db (snd r)))
  /\ (exists row, In row (tasks (db (snd r)))
                  /\ risen ReminderExamples.homework row /\ flagOf W24 row = true)
  /\ flagged 1%nat W24 (tasks (db (snd r)))
  /\ forall envs prefs',
       dueCount 1%nat W24 (trace (runTicks envs "u1" prefs' (snd r)))
       = dueCount 1%nat W24 (trace (snd r)).
Proof.
  apply (suppressed_reminder_not_retried W24 ReminderExamples.lateTick "u1"
           (Some (Examples.prefsQuiet "u1" "22:00" "07:00"))
           (mkWorld (ReminderExamples.reminderDB
                       (Examples.prefsQuiet "u1" "22:00" "07:00")) [])
           ReminderExamples.homework ReminderExamples.dueAt).
  - left; reflexivity.
  - reflexivity.
  - reflexivity.
  - reflexivity.
  - reflexivity.
  - reflexivity.
  - reflexivity.
  - left. reflexivity.
Defined.

(** The same tick for a user whose only push token is inactive: nothing
    reaches the gateway, the flag is set all the same, and the ticks that
    follow inside the window stay silent although the token is active
    again. *)
Example suppressed_without_token_example :
  let w := mkWorld (set_pushTokens (map NotificationService.deactivate)
                      (ReminderExamples.reminderDB (Examples.prefsAllOn "u1"))) [] in
  let r := ReminderJob.checkTaskDueReminders ReminderExamples.lateTick "u1"
             (Some (Examples.prefsAllOn "u1")) w in
  let back := mkWorld (set_pushTokens
                         (fun _ => [mkPushToken "u1" "ExponentPushToken[a]" true])
                         (db (snd r))) (trace (snd r)) in
  fst r = Ok tt
  /\ pushCount (trace (snd r)) = 0%nat
  /\ map (fun row => (task_id row, notified24h row)) (tasks (db (snd r)))
     = [(1%nat, true)]
  /\ pushCount (trace (runTicks ReminderExamples.ticks "u1"
                         (Some (Examples.prefsAllOn "u1")) back)) = 1%nat
  /\ dueCount 1%nat W24 (trace (runTicks ReminderExamples.ticks "u1"
                                  (Some (Examples.prefsAllOn "u1")) back)) = 1%nat.
Proof. vm_compute. repeat split. Qed.

(** ** ClassroomService: task import *)

#[local] Instance grows_preorder (P : Task -> Prop) : PreOrder (grows P).
Proof.
  split.
  - intros w. split; [reflexivity|]. split.
    + exists []. rewrite app_nil_r. split; [reflexivity | constructor].
    + exists []. rewrite app_nil_r. reflexivity.
  - intros a b c (Hc1 & (cr1 & Ht1 & HP1) & (ev1 & He1))
                 (Hc2 & (cr2 & Ht2 & HP2) & (ev2 & He2)).
    split; [congruence|]. split.
    + exists (cr1 ++ cr2)%list. split.
      * rewrite Ht2, Ht1, app_assoc. reflexivity.
      * apply Forall_app. split; assumption.
    + exists (ev1 ++ ev2)%list. rewrite He2, He1, app_assoc. reflexivity.
Qed.

Lemma grows_weaken (P Q : Task -> Prop) (w w' : World) :
  (forall t, P t -> Q t) -> grows P w w' -> grows Q w w'.
Proof.
  intros HPQ (Hc & (cr & Ht & HP) & He). split; [exact Hc|]. split; [|exact He].
  exists cr. split; [exact Ht|]. eapply Forall_impl; eauto.
Qed.

Lemma emit_grows (P : Task -> Prop) (e : Event) : preserves (grows P) (emit e).
Proof.
  intros w. split; [reflexivity|]. split.
  - exists []. simpl. rewrite app_nil_r. split; [reflexivity | constructor].
  - exists [e]. reflexivity.
Qed.

Lemma setConnections_grows (P : Task -> Prop) (f : list Connection -> list Connection) :
  preserves (grows P) (modifyDb (set_connections f)).
Proof.
  intros w. split; [reflexivity|]. split.
  - exists []. simpl. rewrite app_nil_r. split; [reflexivity | constructor].
  - exists []. simpl. rewrite app_nil_r. reflexivity.
Qed.

Lemma preserves_bind_lift {A B} (R : World -> World -> Prop) {HR : PreOrder R}
    (r : Res A) (k : A -> M B) :
  (forall a, r = Ok a -> preserves R (k a)) -> preserves R (bind (lift r) k).
Proof.
  intros Hk w. rewrite bind_run. unfold lift.
  destruct r as [a|e]; simpl; [apply (Hk a eq_refl) | reflexivity].
Qed.

Lemma getAuthenticatedClient_grows (P : Task -> Prop) (env : Env) (userId : UserId) :
  preserves (grows P) (ClassroomService.getAuthenticatedClient env userId).
Proof.
  unfold ClassroomService.getAuthenticatedClient.
  pbind; [pget|]. intros d.
  destruct (ClassroomService.findConnection d userId) as [connection|]; [|pthrow].
  destruct (String.eqb (accessToken connection) ""); [pthrow|].
  destruct (tokenExpiry connection <? nowMs (clock env)); [|pret].
  pbind; [apply emit_grows|]. intros _.
  pbind; [plift|]. intros credentials. apply setConnections_grows.
Qed.

Lemma importWork_grows (P : Task -> Prop) (env : Env) (userId : UserId)
    (course : Course) (work : UWork) :
  (forall id, P (ClassroomService.newTask env id userId course work)) ->
  preserves (grows P) (ClassroomService.importWork env userId course work).
Proof.
  intros HP w. unfold ClassroomService.importWork. rewrite bind_run.
  unfold getDb. cbv beta iota.
  destruct (find _ (tasks (db w))); simpl; [reflexivity|].
  split; [reflexivity|]. split.
  - eexists. split; [reflexivity|]. constructor; [apply HP | constructor].
  - exists []. rewrite app_nil_r. reflexivity.
Qed.

Lemma syncCourseTasks_grows (P : Task -> Prop) (env : Env) (userId : UserId)
    (course : Course) :
  (forall response work id,
      courseWorkList env userId (googleCourseId course) = Ok response ->
      In work (worksOf response) ->
      P (ClassroomService.newTask env id userId course work)) ->
  preserves (grows P) (ClassroomService.syncCourseTasks env userId course).
Proof.
  intros HP. unfold ClassroomService.syncCourseTasks.
  ptry.
  - pbind; [apply emit_grows|]. intros _.
    apply preserves_bind_lift; [typeclasses eauto|]. intros response Hresp.
    pcollect. intros work Hwork. apply importWork_grows.
    intros id. apply (HP response work id Hresp Hwork).
  - intros error. pbind; [apply emit_grows|]. intros _. pret.
Qed.

Lemma taskExists_iff (userId : UserId) (gid : string) (t : Task) :
  ClassroomService.taskExists userId gid t = true
  <-> task_userId t = userId /\ googleTaskId t = Some gid.
Proof.
  unfold ClassroomService.taskExists, ClassroomService.opt_eqb.
  rewrite andb_true_iff, String.eqb_eq.
  destruct (googleTaskId t) as [g|].
  - rewrite String.eqb_eq. split; intros [H1 H2]; split; congruence.
  - split; intros [H1 H2]; discriminate.
Qed.

Lemma covered_grows (P : Task -> Prop) (userId : UserId) (ws : list UWork)
    (w w' : World) :
  grows P w w' -> covered userId ws (tasks (db w)) -> covered userId ws (tasks (db w')).
Proof.
  intros (_ & (cr & Ht & _) & _) Hcov work Hin.
  destruct (Hcov work Hin) as (t & Ht' & Hrest).
  exists t. split; [|exact Hrest]. rewrite Ht. apply in_or_app; left; exact Ht'.
Qed.

Lemma importWork_covers (env : Env) (userId : UserId) (course : Course) (work : UWork)
    (w : World) :
  is_ok (fst (ClassroomService.importWork env userId course work w)) = true
  /\ covered userId [work]
       (tasks (db (snd (ClassroomService.importWork env userId course work w)))).
Proof.
  unfold ClassroomService.importWork. rewrite bind_run. unfold getDb.
  cbv beta iota.
  destruct (find _ (tasks (db w))) as [t|] eqn:Hf; simpl.
  - split; [reflexivity|]. intros wk [<-|[]].
    apply find_some in Hf. destruct Hf as [Hin Hex].
    apply taskExists_iff in Hex. exists t. tauto.
  - split; [reflexivity|]. intros wk [<-|[]].
    eexists. split; [apply in_or_app; right; left; reflexivity|].
    split; reflexivity.
Qed.

Lemma importWorks_cover (env : Env) (userId : UserId) (course : Course)
    (ws : list UWork) :
  forall w,
    is_ok (fst (forEachCollect ws (ClassroomService.importWork env userId course) w)) = true
    /\ covered userId ws
         (tasks (db (snd (forEachCollect ws
                            (ClassroomService.importWork env userId course) w)))).
Proof.
  induction ws as [|work rest IH]; intros w; simpl.
  - split; [reflexivity|]. intros wk [].
  - rewrite bind_run.
    destruct (importWork_covers env userId course work w) as [Hok Hcov].
    destruct (ClassroomService.importWork env userId course work w) as [[ys|e] w1];
      simpl in *; [|discriminate].
    rewrite bind_run.
    destruct (IH w1) as [Hok2 Hcov2].
    pose proof (preserves_forEachCollect (grows (fun _ => True)) rest
                  (ClassroomService.importWork env userId course)
                  (fun wk _ => importWork_grows (fun _ => True) env userId course wk
                                 (fun _ => I)) w1) as Hgrow.
    destruct (forEachCollect rest (ClassroomService.importWork env userId course) w1)
      as [[zs|e] w2]; simpl in *; [|discriminate].
    split; [reflexivity|]. intros wk [<-|Hin].
    + apply (covered_grows _ userId [work] w1 w2 Hgrow Hcov). left; reflexivity.
    + apply Hcov2; exact Hin.
Qed.

Lemma importWorks_idle (env : Env) (userId : UserId) (course : Course)
    (ws : list UWork) (w : World) :
  covered userId ws (tasks (db w)) ->
  forEachCollect ws (ClassroomService.importWork env userId course) w = (Ok [], w).
Proof.
  induction ws as [|work rest IH]; intros Hcov; simpl; [reflexivity|].
  rewrite bind_run.
  assert (Hw : ClassroomService.importWork env userId course work w = (Ok [], w)).
  { unfold ClassroomService.importWork. rewrite bind_run. unfold getDb.
    cbv beta iota.
    destruct (find _ (tasks (db w))) eqn:Hf; [reflexivity|].
    destruct (Hcov work (or_introl eq_refl)) as (t & Hin & Hu & Hg).
    pose proof (find_none _ _ Hf t Hin) as Hn.
    assert (Ht : ClassroomService.taskExists userId (uw_id work) t = true)
      by (apply taskExists_iff; tauto).
    congruence. }
  rewrite Hw. rewrite bind_run.
  rewrite IH by (intros wk Hin; apply Hcov; right; exact Hin).
  reflexivity.
Qed.

Lemma tryCatch_run {A} (m : M A) (h : string -> M A) (w : World) :
  tryCatch m h w = match m w with
                   | (Ok a, w') => (Ok a, w')
                   | (Throw e, w') => h e w'
                   end.
Proof. reflexivity. Qed.

Lemma syncCourseTasks_run (env : Env) (userId : UserId) (c : Course) (w : World) :
  ClassroomService.syncCourseTasks env userId c w
  = let w1 := mkWorld (db w)
                (trace w ++ [EvApi userId (ApiCourseWorkList (googleCourseId c))])%list in
    match courseWorkList env userId (googleCourseId c) with
    | Ok response =>
        match forEachCollect (worksOf response)
                (ClassroomService.importWork env userId c) w1 with
        | (Ok a, w') => (Ok a, w')
        | (Throw e, w') =>
            (Ok [], mkWorld (db w')
                      (trace w' ++ [EvLog (LogCourseError (course_name c) e)])%list)
        end
    | Throw e =>
        (Ok [], mkWorld (db w)
                  ((trace w ++ [EvApi userId (ApiCourseWorkList (googleCourseId c))])
                   ++ [EvLog (LogCourseError (course_name c) e)])%list)
    end.
Proof.
  unfold ClassroomService.syncCourseTasks.
  rewrite tryCatch_run, bind_run. unfold emit at 1. cbv beta iota.
  rewrite bind_run. unfold lift.
  destruct (courseWorkList env userId (googleCourseId c)) as [response|e];
    reflexivity.
Qed.

Lemma syncCourseTasks_done (env : Env) (userId : UserId) (c : Course) (w : World) :
  let r := ClassroomService.syncCourseTasks env userId c w in
  is_ok (fst r) = true
  /\ match courseWorkList env userId (googleCourseId c) with
     | Ok response => covered userId (worksOf response) (tasks (db (snd r)))
     | Throw e =>
         exists evs, trace (snd r) = (trace w ++ evs)%list
                     /\ In (EvLog (LogCourseError (course_name c) e)) evs
     end.
Proof.
  cbv zeta. rewrite syncCourseTasks_run. cbv zeta.
  destruct (courseWorkList env userId (googleCourseId c)) as [response|e].
  - match goal with
    | |- context [forEachCollect ?ws ?f ?w0] =>
        destruct (importWorks_cover env userId c ws w0) as [Hok Hcov];
        destruct (forEachCollect ws f w0) as [[ys|e] w1]
    end; simpl in *; [|discriminate].
    split; [reflexivity | exact Hcov].
  - simpl. split; [reflexivity|].
    eexists. split; [rewrite <- app_assoc; reflexivity|].
    right; left; reflexivity.
Qed.

Lemma syncCourseTasks_idle (env : Env) (userId : UserId) (c : Course) (w : World) :
  (forall response, courseWorkList env userId (googleCourseId c) = Ok response ->
                    covered userId (worksOf response) (tasks (db w))) ->
  let r := ClassroomService.syncCourseTasks env userId c w in
  fst r = Ok [] /\ tasks (db (snd r)) = tasks (db w).
Proof.
  intros Hcov. cbv zeta. rewrite syncCourseTasks_run. cbv zeta.
  destruct (courseWorkList env userId (googleCourseId c)) as [response|e].
  - rewrite importWorks_idle.
    + split; reflexivity.
    + apply (Hcov response eq_refl).
  - split; reflexivity.
Qed.

Lemma syncCourseTasks_grows_any (env : Env) (userId : UserId) (c : Course) :
  preserves (grows (fun _ => True)) (ClassroomService.syncCourseTasks env userId c).
Proof. apply syncCourseTasks_grows. intros; exact I. Qed.

Lemma coursesLoop_done (env : Env) (userId : UserId) (cs : list Course) :
  forall w,
    let r := forEachCollect cs (ClassroomService.syncCourseTasks env userId) w in
    is_ok (fst r) = true /\ coursesDone env userId cs w (snd r).
Proof.
  induction cs as [|c rest IH]; intros w; cbv zeta; simpl.
  - split; [reflexivity|]. intros c [].
  - rewrite bind_run.
    destruct (syncCourseTasks_done env userId c w) as [Hok Hdone].
    pose proof (syncCourseTasks_grows_any env userId c w) as Hg1.
    destruct (ClassroomService.syncCourseTasks env userId c w) as [[ys|e] w1];
      simpl in *; [|discriminate].
    rewrite bind_run.
    destruct (IH w1) as [Hok2 Hdone2].
    pose proof (preserves_forEachCollect (grows (fun _ => True)) rest
                  (ClassroomService.syncCourseTasks env userId)
                  (fun c' _ => syncCourseTasks_grows_any env userId c') w1) as Hg2.
    destruct (forEachCollect rest (ClassroomService.syncCourseTasks env userId) w1)
      as [[zs|e] w2]; simpl in *; [|discriminate].
    split; [reflexivity|].
    intros c' [<-|Hin].
    + destruct (courseWorkList env userId (googleCourseId c)) as [response|e].
      * eapply covered_grows; eauto.
      * destruct Hdone as (evs & Ht & Hlog).
        destruct Hg2 as (_ & _ & (evs2 & Ht2)).
        exists (evs ++ evs2)%list. split.
        -- rewrite Ht2, Ht, app_assoc. reflexivity.
        -- apply in_or_app; left; exact Hlog.
    + specialize (Hdone2 c' Hin).
      destruct (courseWorkList env userId (googleCourseId c')) as [response|e].
      * exact Hdone2.
      * destruct Hdone2 as (evs2 & Ht2 & Hlog).
        destruct Hg1 as (_ & _ & (evs1 & Ht1)).
        exists (evs1 ++ evs2)%list. split.
        -- rewrite Ht2, Ht1, app_assoc. reflexivity.
        -- apply in_or_app; right; exact Hlog.
Qed.

Lemma coursesLoop_idle (env : Env) (userId : UserId) (cs : list Course) :
  forall w,
    (forall c response, In c cs ->
        courseWorkList env userId (googleCourseId c) = Ok response ->
        covered userId (worksOf response) (tasks (db w))) ->
    let r := forEachCollect cs (ClassroomService.syncCourseTasks env userId) w in
    fst r = Ok [] /\ tasks (db (snd r)) = tasks (db w).
Proof.
  induction cs as [|c rest IH]; intros w Hcov; cbv zeta; simpl.
  - split; reflexivity.
  - rewrite bind_run.
    destruct (syncCourseTasks_idle env userId c w) as [Hr Ht].
    { intros response Hresp. apply (Hcov c response (or_introl eq_refl) Hresp). }
    destruct (ClassroomService.syncCourseTasks env userId c w) as [r1 w1].
    simpl in Hr, Ht. subst r1. rewrite bind_run.
    destruct (IH w1) as [Hr2 Ht2].
    { intros c' response Hin Hresp. rewrite Ht.
      apply (Hcov c' response (or_intror Hin) Hresp). }
    destruct (forEachCollect rest (ClassroomService.syncCourseTasks env userId) w1)
      as [r2 w2].
    simpl in Hr2, Ht2. subst r2. simpl. split; [reflexivity | congruence].
Qed.

(** [syncTasks] after a successful authorization is the loop over the
    user's sync-enabled courses. *)
Lemma syncTasks_run (env : Env) (userId : UserId) (w : World) :
  ClassroomService.syncTasks env userId w
  = match ClassroomService.getAuthenticatedClient env userId w with
    | (Ok _, w0) =>
        forEachCollect (ClassroomService.syncedCourses userId (courses (db w0)))
          (ClassroomService.syncCourseTasks env userId) w0
    | (Throw e, w0) => (Throw e, w0)
    end.
Proof.
  unfold ClassroomService.syncTasks. rewrite bind_run.
  destruct (ClassroomService.getAuthenticatedClient env userId w) as [[u|e] w0];
    reflexivity.
Qed.

(** C7: once the client is obtained, [syncTasks] returns normally whatever
    the per-course fetches do; for each sync-enabled course of the user,
    a fetch that throws is logged with the course name, and a fetch that
    answers has every listed assignment present as a task of the user
    afterwards. *)
Theorem syncTasks_isolates_course_failures (env : Env) (userId : UserId) (w : World) :
  is_ok (fst (ClassroomService.getAuthenticatedClient env userId w)) = true ->
  let r := ClassroomService.syncTasks env userId w in
  is_ok (fst r) = true
  /\ forall c, In c (courses (db w)) ->
               course_userId c = userId ->
               course_syncEnabled c = true ->
               match courseWorkList env userId (googleCourseId c) with
               | Ok response => covered userId (worksOf response) (tasks (db (snd r)))
               | Throw e =>
                   exists evs, trace (snd r) = (trace w ++ evs)%list
                               /\ In (EvLog (LogCourseError (course_name c) e)) evs
               end.
Proof.
  intros Hauth. cbv zeta. rewrite syncTasks_run.
  pose proof (getAuthenticatedClient_grows (fun _ => True) env userId w) as Hg.
  destruct (ClassroomService.getAuthenticatedClient env userId w) as [[u|e] w0];
    simpl in Hauth, Hg; [|discriminate].
  destruct Hg as (Hc & _ & (evs0 & Ht0)).
  destruct (coursesLoop_done env userId
              (ClassroomService.syncedCourses userId (courses (db w0))) w0)
    as [Hok Hdone].
  split; [exact Hok|].
  intros c Hin Hu Hs.
  assert (Hin' : In c (ClassroomService.syncedCourses userId (courses (db w0)))).
  { apply filter_In. rewrite Hc. split; [exact Hin|].
    rewrite Hu, String.eqb_refl, Hs. reflexivity. }
  specialize (Hdone c Hin').
  destruct (courseWorkList env userId (googleCourseId c)) as [response|e];
    [exact Hdone|].
  destruct Hdone as (evs & Ht & Hlog).
  exists (evs0 ++ evs)%list. split.
  - rewrite Ht, Ht0, app_assoc. reflexivity.
  - apply in_or_app; right; exact Hlog.
Qed.

Lemma syncTasks_isolates_course_failures_witness :
  let r := ClassroomService.syncTasks SyncExamples.syncEnv "u1" SyncExamples.syncWorld in
  is_ok (fst r) = true
  /\ forall c, In c (courses (db SyncExamples.syncWorld)) ->
               course_userId c = "u1" ->
               course_syncEnabled c = true ->
               match courseWorkList SyncExamples.syncEnv "u1" (googleCourseId c) with
               | Ok response => covered "u1" (worksOf response) (tasks (db (snd r)))
               | Throw e =>
                   exists evs, trace (snd r) = (trace SyncExamples.syncWorld ++ evs)%list
                               /\ In (EvLog (LogCourseError (course_name c) e)) evs
               end.
Proof.
  exact (syncTasks_isolates_course_failures SyncExamples.syncEnv "u1"
           SyncExamples.syncWorld eq_refl).
Defined.

Lemma syncTasks_grows (env : Env) (userId : UserId) (w : World) :
  grows (fromUpstream env userId (ClassroomService.syncedCourses userId (courses (db w))))
        w (snd (ClassroomService.syncTasks env userId w)).
Proof.
  rewrite syncTasks_run.
  set (P := fromUpstream env userId
              (ClassroomService.syncedCourses userId (courses (db w)))).
  pose proof (getAuthenticatedClient_grows P env userId w) as Hg.
  destruct (ClassroomService.getAuthenticatedClient env userId w) as [[u|e] w0];
    simpl in Hg; [|exact Hg].
  etransitivity; [exact Hg|].
  destruct Hg as (Hc & _). rewrite Hc.
  apply preserves_forEachCollect; [typeclasses eauto|].
  intros c Hin. apply syncCourseTasks_grows.
  intros response work id Hresp Hwork.
  exists c, response, work. repeat split; assumption.
Qed.

#[local] Instance sameTables_preorder : PreOrder sameTables.
Proof.
  split.
  - intros w; split; reflexivity.
  - intros a b c [H1 H2] [H3 H4]; split; congruence.
Qed.

Lemma getAuthenticatedClient_sameTables (env : Env) (userId : UserId) :
  preserves sameTables (ClassroomService.getAuthenticatedClient env userId).
Proof.
  unfold ClassroomService.getAuthenticatedClient.
  pbind; [pget|]. intros d.
  destruct (ClassroomService.findConnection d userId) as [connection|]; [|pthrow].
  destruct (String.eqb (accessToken connection) ""); [pthrow|].
  destruct (tokenExpiry connection <? nowMs (clock env)); [|pret].
  pbind; [intros w; split; reflexivity|]. intros _.
  pbind; [plift|]. intros credentials. intros w; split; reflexivity.
Qed.

Lemma syncTasks_first (env : Env) (userId : UserId) (w : World) :
  is_ok (fst (ClassroomService.syncTasks env userId w)) = true ->
  let w1 := snd (ClassroomService.syncTasks env userId w) in
  courses (db w1) = courses (db w)
  /\ forall c response,
       In c (ClassroomService.syncedCourses userId (courses (db w))) ->
       courseWorkList env userId (googleCourseId c) = Ok response ->
       covered userId (worksOf response) (tasks (db w1)).
Proof.
  intros Hok. cbv zeta.
  destruct (syncTasks_grows env userId w) as (Hc & _).
  split; [exact Hc|].
  rewrite syncTasks_run in Hok |- *.
  destruct (getAuthenticatedClient_sameTables env userId w) as [_ Hc0].
  destruct (ClassroomService.getAuthenticatedClient env userId w) as [[u|e] w0];
    simpl in Hok, Hc0; [|discriminate].
  destruct (coursesLoop_done env userId
              (ClassroomService.syncedCourses userId (courses (db w0))) w0)
    as [_ Hdone].
  intros c response Hin Hresp. rewrite <- Hc0 in Hin.
  specialize (Hdone c Hin). rewrite Hresp in Hdone. exact Hdone.
Qed.

Lemma syncTasks_second (env : Env) (userId : UserId) (w : World) :
  (forall c response,
      In c (ClassroomService.syncedCourses userId (courses (db w))) ->
      courseWorkList env userId (googleCourseId c) = Ok response ->
      covered userId (worksOf response) (tasks (db w))) ->
  let r := ClassroomService.syncTasks env userId w in
  tasks (db (snd r)) = tasks (db w)
  /\ forall created, fst r = Ok created -> created = [].
Proof.
  intros Hcov. cbv zeta. rewrite syncTasks_run.
  destruct (getAuthenticatedClient_sameTables env userId w) as [Ht0 Hc0].
  destruct (ClassroomService.getAuthenticatedClient env userId w) as [[u|e] w0];
    simpl in Ht0, Hc0.
  - destruct (coursesLoop_idle env userId
                (ClassroomService.syncedCourses userId (courses (db w0))) w0)
      as [Hr Ht].
    { intros c response Hin Hresp. rewrite Ht0. rewrite Hc0 in Hin.
      apply (Hcov c response Hin Hresp). }
    split; [congruence|]. intros created Hcr. congruence.
  - simpl. split; [exact Ht0|]. intros created Hcr. discriminate.
Qed.

(** C2: after a run of [syncTasks] that returned, a second run against the
    same upstream assignment lists leaves the task table exactly as it
    was and reports no new task; and a run of [syncTasks], whatever the
    upstream answers, keeps every existing task row as it is and in place
    (new rows are only appended). *)
Theorem syncTasks_create_only (env env' : Env) (userId : UserId) (w : World) :
  is_ok (fst (ClassroomService.syncTasks env userId w)) = true ->
  (forall courseId, courseWorkList env' userId courseId
                    = courseWorkList env userId courseId) ->
  let w1 := snd (ClassroomService.syncTasks env userId w) in
  let r2 := ClassroomService.syncTasks env' userId w1 in
  tasks (db (snd r2)) = tasks (db w1)
  /\ (forall created, fst r2 = Ok created -> created = [])
  /\ (forall env'' w0,
        exists created,
          tasks (db (snd (ClassroomService.syncTasks env'' userId w0)))
          = (tasks (db w0) ++ created)%list).
Proof.
  intros Hok Hsame. cbv zeta.
  destruct (syncTasks_first env userId w Hok) as [Hc Hcov].
  destruct (syncTasks_second env' userId
              (snd (ClassroomService.syncTasks env userId w))) as [Ht Hnone].
  { intros c response Hin Hresp. rewrite Hc in Hin. rewrite Hsame in Hresp.
    apply (Hcov c response Hin Hresp). }
  split; [exact Ht|]. split; [exact Hnone|].
  intros env'' w0.
  destruct (syncTasks_grows env'' userId w0) as (_ & (cr & Hcr & _) & _).
  exists cr. exact Hcr.
Qed.

Lemma syncTasks_create_only_witness :
  let w1 := snd (ClassroomService.syncTasks SyncExamples.syncEnv "u1"
                   SyncExamples.syncWorld) in
  let r2 := ClassroomService.syncTasks (SyncExamples.syncEnvAt 5900000) "u1" w1 in
  tasks (db (snd r2)) = tasks (db w1)
  /\ (forall created, fst r2 = Ok created -> created = [])
  /\ (forall env'' w0,
        exists created,
          tasks (db (snd (ClassroomService.syncTasks env'' "u1" w0)))
          = (tasks (db w0) ++ created)%list).
Proof.
  exact (syncTasks_create_only SyncExamples.syncEnv (SyncExamples.syncEnvAt 5900000)
           "u1" SyncExamples.syncWorld eq_refl (fun _ => eq_refl)).
Defined.



(** The rows of that sync, as instants: 14:30 on 10 March is 13:30 UTC
    (winter time), 09:15 on 20 April is 07:15 UTC (summer time, though the
    sync runs in winter time), 16:00 sharp becomes 16:59, and the date
    without a time is due at 23:59. *)
Example imported_due_date_example :
  map (fun t => (googleTaskId t, dueDate t))
      (tasks (db (snd (ClassroomService.syncTasks DueExamples.dueEnv "u1"
                         (mkWorld DueExamples.dueDB [])))))
  = [(Some "w-1", Some 1773149400000);
     (Some "w-2", Some 1776669300000);
     (Some "w-3", Some 1776697140000);
     (Some "w-4", Some 1776722340000)].
Proof. vm_compute. reflexivity. Qed.


(** ** ClassroomService: course upsert *)

Lemma find_existsb {A} (p : A -> bool) (l : list A) :
  existsb p l = match find p l with Some _ => true | None => false end.
Proof.
  induction l as [|a l IH]; simpl; [reflexivity|].
  destruct (p a); [reflexivity | exact IH].
Qed.

Lemma fetchTeacherName_run (env : Env) (userId : UserId) (course : UCourse) (w : World) :
  ClassroomService.fetchTeacherName env userId course w
  = (Ok (teacherOf env userId course),
     mkWorld (db w) (trace w ++ [EvApi userId (ApiTeachersList (uc_id course))])%list).
Proof.
  unfold ClassroomService.fetchTeacherName, teacherOf.
  rewrite tryCatch_run, bind_run. unfold emit at 1. cbv beta iota.
  rewrite bind_run. unfold lift.
  destruct (teachersList env userId (uc_id course)); reflexivity.
Qed.

Lemma syncCourse_state (env : Env) (userId : UserId) (course : UCourse) (w : World) :
  is_ok (fst (ClassroomService.syncCourse env userId course w)) = true
  /\ courseState (snd (ClassroomService.syncCourse env userId course w))
     = upsertStep env userId (courseState w) course
  /\ tasks (db (snd (ClassroomService.syncCourse env userId course w))) = tasks (db w).
Proof.
  unfold ClassroomService.syncCourse. rewrite bind_run, fetchTeacherName_run.
  rewrite bind_run. unfold ClassroomService.upsertCourse. rewrite bind_run.
  unfold getDb. cbv beta iota. unfold upsertStep, present, courseState.
  rewrite find_existsb. simpl.
  destruct (find _ (courses (db w))); simpl; repeat split; reflexivity.
Qed.

Lemma coursesLoop_state (env : Env) (userId : UserId) (l : list UCourse) :
  forall w,
    let r := forEachCollect l (ClassroomService.syncCourse env userId) w in
    is_ok (fst r) = true
    /\ courseState (snd r) = fold_left (upsertStep env userId) l (courseState w)
    /\ tasks (db (snd r)) = tasks (db w).
Proof.
  induction l as [|course rest IH]; intros w; cbv zeta; simpl.
  - repeat split; reflexivity.
  - rewrite bind_run.
    destruct (syncCourse_state env userId course w) as (Hok & Hst & Ht).
    destruct (ClassroomService.syncCourse env userId course w) as [[ys|e] w1];
      simpl in *; [|discriminate].
    rewrite bind_run.
    destruct (IH w1) as (Hok2 & Hst2 & Ht2).
    destruct (forEachCollect rest (ClassroomService.syncCourse env userId) w1)
      as [[zs|e] w2]; simpl in *; [|discriminate].
    split; [reflexivity|]. split; [rewrite Hst2, Hst; reflexivity | congruence].
Qed.

(** *** The table as a function of the upstream list *)

Lemma touch_same (env : Env) (userId : UserId) (course : UCourse) (gid : string)
    (c : Course) :
  ClassroomService.sameCourse userId gid (touch env userId course c)
  = ClassroomService.sameCourse userId gid c.
Proof.
  unfold touch. destruct (ClassroomService.sameCourse userId (uc_id course) c);
    reflexivity.
Qed.

Lemma touch_key (env : Env) (userId : UserId) (course : UCourse) (c : Course) :
  courseKey (touch env userId course c) = courseKey c.
Proof.
  unfold touch. destruct (ClassroomService.sameCourse userId (uc_id course) c);
    reflexivity.
Qed.

Lemma present_touch (env : Env) (userId : UserId) (course x : UCourse)
    (rows : list Course) :
  present userId x (map (touch env userId course) rows) = present userId x rows.
Proof.
  unfold present. induction rows as [|r rows IH]; simpl; [reflexivity|].
  rewrite touch_same, IH. reflexivity.
Qed.

Lemma present_step (env : Env) (userId : UserId) (x course : UCourse)
    (st : list Course * RowId) :
  present userId x (fst st) = true ->
  present userId x (fst (upsertStep env userId st course)) = true.
Proof.
  intros Hp. unfold upsertStep.
  destruct (present userId course (fst st)); simpl.
  - rewrite present_touch. exact Hp.
  - unfold present in *. rewrite existsb_app, Hp. reflexivity.
Qed.

Lemma present_fold (env : Env) (userId : UserId) (x : UCourse) (l : list UCourse) :
  forall st, present userId x (fst st) = true ->
             present userId x (fst (fold_left (upsertStep env userId) l st)) = true.
Proof.
  induction l as [|course rest IH]; intros st Hp; simpl; [exact Hp|].
  apply IH. apply present_step. exact Hp.
Qed.

Lemma sameCourse_create (env : Env) (userId : UserId) (id : RowId) (course : UCourse)
    (teacher : string) :
  ClassroomService.sameCourse userId (uc_id course)
    (ClassroomService.createCourse env id userId course teacher) = true.
Proof.
  unfold ClassroomService.sameCourse, ClassroomService.createCourse. simpl.
  rewrite !String.eqb_refl. reflexivity.
Qed.

Lemma step_makes_present (env : Env) (userId : UserId) (course : UCourse)
    (st : list Course * RowId) :
  present userId course (fst (upsertStep env userId st course)) = true.
Proof.
  unfold upsertStep. destruct (present userId course (fst st)) eqn:Hp; simpl.
  - rewrite present_touch. exact Hp.
  - unfold present. rewrite existsb_app. simpl.
    rewrite sameCourse_create. rewrite orb_true_r. reflexivity.
Qed.

Lemma fold_makes_present (env : Env) (userId : UserId) (l : list UCourse) :
  forall st x, In x l ->
               present userId x (fst (fold_left (upsertStep env userId) l st)) = true.
Proof.
  induction l as [|course rest IH]; intros st x Hin; simpl; [destruct Hin|].
  destruct Hin as [->|Hin].
  - apply present_fold. apply step_makes_present.
  - apply IH. exact Hin.
Qed.

Lemma fold_present_is_map (env : Env) (userId : UserId) (l : list UCourse) :
  forall st, (forall x, In x l -> present userId x (fst st) = true) ->
             fold_left (upsertStep env userId) l st
             = (map (applyAll env userId l) (fst st), snd st).
Proof.
  induction l as [|course rest IH]; intros [rows nid] Hp; simpl.
  - rewrite map_id. reflexivity.
  - assert (Hs : upsertStep env userId (rows, nid) course
                 = (map (touch env userId course) rows, nid)).
    { unfold upsertStep. pose proof (Hp course (or_introl eq_refl)) as Hc.
      simpl in *. rewrite Hc. reflexivity. }
    rewrite Hs, IH; simpl.
    + rewrite map_map. reflexivity.
    + intros x Hx. rewrite present_touch. apply (Hp x). right; exact Hx.
Qed.

Lemma applyAll_snoc (env : Env) (userId : UserId) (l : list UCourse) (x : UCourse)
    (c : Course) :
  applyAll env userId (l ++ [x]) c = touch env userId x (applyAll env userId l c).
Proof. unfold applyAll. rewrite fold_left_app. reflexivity. Qed.

Lemma sameCourse_key (userId : UserId) (gid : string) (a b : Course) :
  courseKey a = courseKey b ->
  ClassroomService.sameCourse userId gid a = ClassroomService.sameCourse userId gid b.
Proof.
  unfold courseKey, ClassroomService.sameCourse. intros H.
  injection H as H1 H2. rewrite H1, H2. reflexivity.
Qed.

Lemma sameCourse_iff (userId : UserId) (gid : string) (c : Course) :
  ClassroomService.sameCourse userId gid c = true <-> courseKey c = (userId, gid).
Proof.
  unfold ClassroomService.sameCourse, courseKey.
  rewrite andb_true_iff, !String.eqb_eq. split.
  - intros [-> ->]. reflexivity.
  - intros H. injection H as -> ->. split; reflexivity.
Qed.

Lemma applyAll_key (env : Env) (userId : UserId) (l : list UCourse) :
  forall c, courseKey (applyAll env userId l c) = courseKey c.
Proof.
  induction l as [|x l IH]; intros c; simpl; [reflexivity|].
  unfold applyAll in *. simpl. rewrite IH. apply touch_key.
Qed.

Lemma touch_frame (env : Env) (userId : UserId) (x : UCourse) (c : Course) :
  course_id (touch env userId x c) = course_id c
  /\ course_syncEnabled (touch env userId x c) = course_syncEnabled c.
Proof.
  unfold touch. destruct (ClassroomService.sameCourse userId (uc_id x) c);
    split; reflexivity.
Qed.

Lemma applyAll_frame (env : Env) (userId : UserId) (l : list UCourse) :
  forall c, course_id (applyAll env userId l c) = course_id c
            /\ course_syncEnabled (applyAll env userId l c) = course_syncEnabled c.
Proof.
  induction l as [|x l IH]; intros c; [split; reflexivity|].
  unfold applyAll in *. simpl.
  destruct (IH (touch env userId x c)) as [H1 H2].
  destruct (touch_frame env userId x c) as [H3 H4].
  split; congruence.
Qed.

(** Each optional field evolves on its own: its value after the updates
    depends on the row only through the key and that field. *)
Lemma applyAll_section (env : Env) (userId : UserId) (l : list UCourse) :
  forall a b, courseKey a = courseKey b ->
              course_section a = course_section b ->
              course_section (applyAll env userId l a)
              = course_section (applyAll env userId l b).
Proof.
  induction l as [|x l IH]; intros a b Hk Hs; [exact Hs|].
  unfold applyAll in *. simpl. apply IH.
  - rewrite !touch_key. exact Hk.
  - unfold touch. rewrite (sameCourse_key userId (uc_id x) a b Hk).
    destruct (ClassroomService.sameCourse userId (uc_id x) b); simpl;
      [rewrite Hs; reflexivity | exact Hs].
Qed.

Lemma applyAll_description (env : Env) (userId : UserId) (l : list UCourse) :
  forall a b, courseKey a = courseKey b ->
              course_description a = course_description b ->
              course_description (applyAll env userId l a)
              = course_description (applyAll env userId l b).
Proof.
  induction l as [|x l IH]; intros a b Hk Hs; [exact Hs|].
  unfold applyAll in *. simpl. apply IH.
  - rewrite !touch_key. exact Hk.
  - unfold touch. rewrite (sameCourse_key userId (uc_id x) a b Hk).
    destruct (ClassroomService.sameCourse userId (uc_id x) b); simpl;
      [rewrite Hs; reflexivity | exact Hs].
Qed.

Lemma applyAll_untouched (env : Env) (userId : UserId) (l : list UCourse) (c : Course) :
  (forall y, In y l -> ClassroomService.sameCourse userId (uc_id y) c = false) ->
  applyAll env userId l c = c.
Proof.
  induction l as [|x l IH]; intros Hn; [reflexivity|].
  unfold applyAll in *. simpl. unfold touch at 2.
  rewrite (Hn x (or_introl eq_refl)). apply IH.
  intros y Hy. apply Hn. right; exact Hy.
Qed.

Lemma update_absorb (x : UCourse) (teacher : string) (a b : Course) :
  course_id a = course_id b ->
  courseKey a = courseKey b ->
  course_syncEnabled a = course_syncEnabled b ->
  (uc_section x = None -> course_section a = course_section b) ->
  (uc_description x = None -> course_description a = course_description b) ->
  ClassroomService.updateCourse x teacher a = ClassroomService.updateCourse x teacher b.
Proof.
  intros Hid Hk Hs Hsec Hdesc. unfold courseKey in Hk. injection Hk as Hu Hg.
  unfold ClassroomService.updateCourse. rewrite Hid, Hu, Hg, Hs. f_equal.
  - destruct (uc_section x); [reflexivity | simpl; apply Hsec; reflexivity].
  - destruct (uc_description x); [reflexivity | simpl; apply Hdesc; reflexivity].
Qed.

Lemma update_create (env : Env) (userId : UserId) (id : RowId) (x : UCourse)
    (teacher : string) :
  ClassroomService.updateCourse x teacher
    (ClassroomService.createCourse env id userId x teacher)
  = ClassroomService.createCourse env id userId x teacher.
Proof.
  unfold ClassroomService.updateCourse, ClassroomService.createCourse. simpl.
  destruct (uc_section x), (uc_description x); reflexivity.
Qed.

Lemma absent_row (userId : UserId) (x : UCourse) (rows : list Course) (r : Course) :
  present userId x rows = false -> In r rows ->
  ClassroomService.sameCourse userId (uc_id x) r = false.
Proof.
  intros Hp Hin. unfold present in Hp.
  destruct (ClassroomService.sameCourse userId (uc_id x) r) eqn:E; [|reflexivity].
  assert (existsb (ClassroomService.sameCourse userId (uc_id x)) rows = true)
    by (apply existsb_exists; exists r; split; assumption).
  congruence.
Qed.

(** After a pass over [l], replaying the updates of [l] on any row of the
    table changes nothing. *)
Lemma fold_stable (env : Env) (userId : UserId) (l : list UCourse) :
  forall st r, In r (fst (fold_left (upsertStep env userId) l st)) ->
               applyAll env userId l r = r.
Proof.
  induction l as [|x l IH] using rev_ind; intros st r Hin; [reflexivity|].
  rewrite fold_left_app in Hin. simpl in Hin.
  set (st' := fold_left (upsertStep env userId) l st) in *.
  rewrite applyAll_snoc.
  unfold upsertStep in Hin.
  destruct (present userId x (fst st')) eqn:Hp; simpl in Hin.
  - apply in_map_iff in Hin. destruct Hin as (r0 & <- & Hin0).
    pose proof (IH st r0 Hin0) as Hst.
    unfold touch at 2 3.
    destruct (ClassroomService.sameCourse userId (uc_id x) r0) eqn:E.
    + set (u := ClassroomService.updateCourse x (teacherOf env userId x) r0).
      assert (Hku : courseKey u = courseKey r0) by reflexivity.
      unfold touch.
      rewrite (sameCourse_key userId (uc_id x) (applyAll env userId l u) r0)
        by (rewrite applyAll_key; exact Hku).
      rewrite E. unfold u at 2.
      destruct (applyAll_frame env userId l u) as [Hid Hse].
      apply update_absorb.
      * rewrite Hid. reflexivity.
      * rewrite applyAll_key. exact Hku.
      * rewrite Hse. reflexivity.
      * intros Hnone.
        rewrite (applyAll_section env userId l u r0 Hku)
          by (unfold u; simpl; rewrite Hnone; reflexivity).
        rewrite Hst. reflexivity.
      * intros Hnone.
        rewrite (applyAll_description env userId l u r0 Hku)
          by (unfold u; simpl; rewrite Hnone; reflexivity).
        rewrite Hst. reflexivity.
    + rewrite Hst. unfold touch. rewrite E. reflexivity.
  - apply in_app_or in Hin. destruct Hin as [Hin|[<-|[]]].
    + rewrite (IH st r Hin). unfold touch.
      rewrite (absent_row userId x (fst st') r Hp Hin). reflexivity.
    + rewrite applyAll_untouched.
      * unfold touch. rewrite sameCourse_create. apply update_create.
      * intros y Hy.
        destruct (ClassroomService.sameCourse userId (uc_id y) _) eqn:E;
          [|reflexivity].
        exfalso.
        apply sameCourse_iff in E. unfold courseKey in E. simpl in E.
        injection E as E.
        pose proof (fold_makes_present env userId l st y Hy) as Hy'.
        fold st' in Hy'. unfold present in Hy', Hp. rewrite <- E in Hy'.
        congruence.
Qed.

Lemma NoDup_snoc {A} (l : list A) (a : A) : NoDup l -> ~ In a l -> NoDup (l ++ [a]).
Proof.
  induction l as [|b l IH]; intros Hnd Hn; simpl.
  - constructor; [intros [] | constructor].
  - inversion Hnd as [|? ? Hb Hl]; subst. constructor.
    + intro Hin. apply in_app_or in Hin. destruct Hin as [Hin|[->|[]]].
      * exact (Hb Hin).
      * apply Hn. left; reflexivity.
    + apply IH; [exact Hl|]. intro Hin. apply Hn. right; exact Hin.
Qed.

Lemma step_NoDup (env : Env) (userId : UserId) (x : UCourse) (st : list Course * RowId) :
  NoDup (map courseKey (fst st)) ->
  NoDup (map courseKey (fst (upsertStep env userId st x))).
Proof.
  intros Hnd. unfold upsertStep.
  destruct (present userId x (fst st)) eqn:Hp; simpl.
  - rewrite map_map.
    rewrite (map_ext _ courseKey (touch_key env userId x)). exact Hnd.
  - rewrite map_app. simpl. apply NoDup_snoc; [exact Hnd|].
    intro Hin. apply in_map_iff in Hin. destruct Hin as (r & Hk & Hr).
    pose proof (absent_row userId x (fst st) r Hp Hr) as Hn.
    assert (ClassroomService.sameCourse userId (uc_id x) r = true)
      by (apply sameCourse_iff; exact Hk).
    congruence.
Qed.

Lemma fold_NoDup (env : Env) (userId : UserId) (l : list UCourse) :
  forall st, NoDup (map courseKey (fst st)) ->
             NoDup (map courseKey (fst (fold_left (upsertStep env userId) l st))).
Proof.
  induction l as [|x l IH]; intros st Hnd; simpl; [exact Hnd|].
  apply IH. apply step_NoDup. exact Hnd.
Qed.

Lemma syncCourses_run (env : Env) (userId : UserId) (w : World) :
  ClassroomService.syncCourses env userId w
  = match ClassroomService.getAuthenticatedClient env userId w with
    | (Ok _, w0) =>
        let w0' := mkWorld (db w0) (trace w0 ++ [EvApi userId ApiCoursesList])%list in
        match coursesList env userId with
        | Ok response =>
            forEachCollect (coursesOf response) (ClassroomService.syncCourse env userId) w0'
        | Throw e => (Throw e, w0')
        end
    | (Throw e, w0) => (Throw e, w0)
    end.
Proof.
  unfold ClassroomService.syncCourses. rewrite bind_run.
  destruct (ClassroomService.getAuthenticatedClient env userId w) as [[u|e] w0];
    [|reflexivity].
  rewrite bind_run. unfold emit at 1. cbv beta iota. rewrite bind_run. unfold lift.
  destruct (coursesList env userId); reflexivity.
Qed.

Lemma map_fixed {A} (f : A -> A) (l : list A) :
  (forall a, In a l -> f a = a) -> map f l = l.
Proof.
  induction l as [|a l IH]; intros H; simpl; [reflexivity|].
  rewrite (H a (or_introl eq_refl)), IH; [reflexivity|].
  intros b Hb. apply H. right; exact Hb.
Qed.

Lemma applyAll_ext (env env' : Env) (userId : UserId) (l : list UCourse) :
  (forall courseId, teachersList env' userId courseId = teachersList env userId courseId) ->
  forall c, applyAll env' userId l c = applyAll env userId l c.
Proof.
  intros Hsame. induction l as [|x l IH]; intros c; [reflexivity|].
  unfold applyAll in *. simpl. rewrite IH. f_equal.
  unfold touch, teacherOf. rewrite Hsame. reflexivity.
Qed.

(** C5: after a run of [syncCourses] that returned, a second run against
    the same upstream course and teacher lists leaves the course table
    exactly as it was, every field of every row included; and the table,
    if it had at most one row per (account, upstream course id) before, still
    has after both runs. *)
Theorem syncCourses_idempotent (env env' : Env) (userId : UserId) (w : World) :
  is_ok (fst (ClassroomService.syncCourses env userId w)) = true ->
  coursesList env' userId = coursesList env userId ->
  (forall courseId, teachersList env' userId courseId = teachersList env userId courseId) ->
  let w1 := snd (ClassroomService.syncCourses env userId w) in
  let w2 := snd (ClassroomService.syncCourses env' userId w1) in
  courses (db w2) = courses (db w1)
  /\ (NoDup (map courseKey (courses (db w))) ->
      NoDup (map courseKey (courses (db w2)))).
Proof.
  intros Hok Hlist Hteach. cbv zeta.
  rewrite syncCourses_run in Hok.
  rewrite (syncCourses_run env userId w).
  destruct (getAuthenticatedClient_sameTables env userId w) as [_ Hc0].
  destruct (ClassroomService.getAuthenticatedClient env userId w) as [[u|e] w0];
    simpl in Hok, Hc0; [|discriminate].
  cbv zeta in Hok |- *.
  destruct (coursesList env userId) as [response|e] eqn:Hresp;
    [|discriminate].
  set (l := coursesOf response) in *.
  set (w0' := mkWorld (db w0) (trace w0 ++ [EvApi userId ApiCoursesList])%list) in *.
  destruct (coursesLoop_state env userId l w0') as (_ & Hst1 & _).
  cbv zeta in Hst1.
  set (w1 := snd (forEachCollect l (ClassroomService.syncCourse env userId) w0')) in *.
  assert (Hrows1 : courses (db w1)
                   = fst (fold_left (upsertStep env userId) l (courseState w0')))
    by (rewrite <- Hst1; reflexivity).
  assert (Hsecond : courses (db (snd (ClassroomService.syncCourses env' userId w1)))
                    = courses (db w1)).
  { rewrite syncCourses_run.
    destruct (getAuthenticatedClient_sameTables env' userId w1) as [_ Hc1].
    destruct (ClassroomService.getAuthenticatedClient env' userId w1) as [[u'|e'] w1a];
      simpl in Hc1; [|exact Hc1].
    cbv zeta. rewrite Hlist. fold l.
    match goal with
    | |- context [forEachCollect l ?f ?w0] =>
        destruct (coursesLoop_state env' userId l w0) as (_ & Hst2 & _)
    end.
    cbv zeta in Hst2.
    rewrite fold_present_is_map in Hst2.
    - apply (f_equal fst) in Hst2. simpl in Hst2. rewrite Hst2, Hc1.
      apply map_fixed. intros r Hr.
      rewrite (applyAll_ext env env' userId l Hteach).
      rewrite Hrows1 in Hr. apply (fold_stable env userId l _ r Hr).
    - intros x Hx. simpl. rewrite Hc1, Hrows1.
      apply fold_makes_present. exact Hx. }
  split; [exact Hsecond|].
  intros Hnd. rewrite Hsecond, Hrows1. apply fold_NoDup.
  simpl. rewrite Hc0. exact Hnd.
Qed.

Lemma syncCourses_idempotent_witness :
  let w1 := snd (ClassroomService.syncCourses (CourseExamples.courseEnvAt 5000000) "u1"
                   SyncExamples.syncWorld) in
  let w2 := snd (ClassroomService.syncCourses (CourseExamples.courseEnvAt 5900000) "u1"
                   w1) in
  courses (db w2) = courses (db w1)
  /\ (NoDup (map courseKey (courses (db SyncExamples.syncWorld))) ->
      NoDup (map courseKey (courses (db w2)))).
Proof.
  exact (syncCourses_idempotent (CourseExamples.courseEnvAt 5000000)
           (CourseExamples.courseEnvAt 5900000) "u1" SyncExamples.syncWorld
           eq_refl eq_refl (fun _ => eq_refl)).
Defined.

Example syncCourses_example :
  map (fun c => (course_id c, googleCourseId c, course_name c, course_section c,
                 course_description c, teacherName c))
      (courses (db (snd (ClassroomService.syncCourses (CourseExamples.courseEnvAt 5000000)
                           "u1" SyncExamples.syncWorld))))
  = [(10%nat, "c-math", "Unnamed Course", Some "Group A", Some "Bring a calculator",
      "E. Noether");
     (11%nat, "c-physics", "Physics", None, None, "");
     (12%nat, "c-art", "Art", None, None, "");
     (20%nat, "c-chem", "Chemistry", None, Some "Lab on Fridays", "")].
Proof. vm_compute. reflexivity. Qed.

(** ** SyncJob: connections that are not eligible *)

Ltac pstep :=
  cbv beta;
  match goal with
  | |- preserves _ (bind _ _) => pbind; [|intro]
  | |- preserves _ (ret _) => pret
  | |- preserves _ (throw _) => pthrow
  | |- preserves _ (lift _) => plift
  | |- preserves _ getDb => pget
  | |- preserves _ (tryCatch _ _) => ptry; [|intro]
  | |- preserves _ (forEach _ _) => pforEach; intros ? ?
  | |- preserves _ (forEachCollect _ _) => pcollect; intros ? ?
  | |- preserves _ (if ?c then _ else _) => destruct c
  | |- preserves _ (match ?x with _ => _ end) => destruct x
  end.

#[local] Instance keepsConn_preorder (c : Connection) : PreOrder (keepsConn c).
Proof.
  split.
  - intros w. split; [auto|]. split; [reflexivity|].
    exists []. rewrite app_nil_r. split; [reflexivity | intros call []].
  - intros x y z (Hi1 & Hm1 & (ev1 & Ht1 & Hn1)) (Hi2 & Hm2 & (ev2 & Ht2 & Hn2)).
    split; [auto|]. split; [congruence|].
    exists (ev1 ++ ev2)%list. split.
    + rewrite Ht2, Ht1, app_assoc. reflexivity.
    + intros call Hin. apply in_app_or in Hin. destruct Hin as [Hin|Hin].
      * exact (Hn1 call Hin).
      * exact (Hn2 call Hin).
Qed.

Lemma emit_keeps (c : Connection) (e : Event) :
  (forall call, e <> EvApi (conn_userId c) call) -> preserves (keepsConn c) (emit e).
Proof.
  intros He w. split; [auto|]. split; [reflexivity|].
  exists [e]. split; [reflexivity|].
  intros call [Hin|[]]. exact (He call Hin).
Qed.

Lemma emit_api_keeps (c : Connection) (userId : UserId) (call : ApiCall) :
  userId <> conn_userId c -> preserves (keepsConn c) (emit (EvApi userId call)).
Proof. intros Hne. apply emit_keeps. intros call' H. injection H as H _. auto. Qed.

Lemma modify_keeps (c : Connection) (f : DB -> DB) :
  (forall d, connections (f d) = connections d) ->
  preserves (keepsConn c) (modifyDb f).
Proof.
  intros Hf w. unfold keepsConn. simpl. rewrite Hf.
  split; [auto|]. split; [reflexivity|].
  exists []. rewrite app_nil_r. split; [reflexivity | intros call []].
Qed.

Lemma refresh_keeps (c : Connection) (userId : UserId) (f : Connection -> Connection) :
  userId <> conn_userId c ->
  (forall x, conn_id (f x) = conn_id x) ->
  preserves (keepsConn c)
    (modifyDb (set_connections (ClassroomService.updateConnectionWhereUser userId f))).
Proof.
  intros Hne Hid w. unfold keepsConn. simpl. split; [|split].
  - intros Hin. unfold ClassroomService.updateConnectionWhereUser.
    apply in_map_iff. exists c. split; [|exact Hin].
    destruct (String.eqb (conn_userId c) userId) eqn:E; [|reflexivity].
    apply String.eqb_eq in E. congruence.
  - unfold ClassroomService.updateConnectionWhereUser. rewrite map_map.
    apply map_ext. intros x. destruct (String.eqb (conn_userId x) userId);
      [apply Hid | reflexivity].
  - exists []. rewrite app_nil_r. split; [reflexivity | intros call []].
Qed.

Lemma touchLastSync_keeps (c : Connection) (env : Env) (id : RowId) :
  id <> conn_id c ->
  preserves (keepsConn c) (modifyDb (set_connections (SyncJob.touchLastSync env id))).
Proof.
  intros Hne w. unfold keepsConn. simpl. split; [|split].
  - intros Hin. unfold SyncJob.touchLastSync.
    apply in_map_iff. exists c. split; [|exact Hin].
    destruct (Nat.eqb (conn_id c) id) eqn:E; [|reflexivity].
    apply Nat.eqb_eq in E. congruence.
  - unfold SyncJob.touchLastSync. rewrite map_map.
    apply map_ext. intros x. destruct (Nat.eqb (conn_id x) id); reflexivity.
  - exists []. rewrite app_nil_r. split; [reflexivity | intros call []].
Qed.

Ltac keeps_leaf :=
  first [ apply emit_api_keeps; assumption
        | apply emit_keeps; intros ? ?; discriminate
        | apply modify_keeps; intros ?; reflexivity ].

Lemma handleTickets_keeps (c : Connection) (tokens : list string) (data : list Ticket) :
  forall i, preserves (keepsConn c) (NotificationService.handleTickets tokens i data).
Proof.
  induction data as [|ticket rest IH]; intros i; simpl; [pret|].
  pbind; [|intros _; apply IH].
  repeat pstep; keeps_leaf.
Qed.

Lemma sendToUser_keeps (c : Connection) (env : Env) (userId : UserId)
    (message : PushMessage) :
  preserves (keepsConn c) (NotificationService.sendToUser env userId message).
Proof.
  unfold NotificationService.sendToUser, NotificationService.sendExpoPush.
  repeat pstep; first [keeps_leaf | apply handleTickets_keeps].
Qed.

Lemma sendNewTaskNotification_keeps (c : Connection) (env : Env) (userId : UserId)
    (title : string) (courseName : option string) :
  preserves (keepsConn c)
    (NotificationService.sendNewTaskNotification env userId title courseName).
Proof.
  unfold NotificationService.sendNewTaskNotification.
  pbind; [pget|]. intros d.
  destruct (disabled (findPrefs d userId) newTasksEnabled); [pret|].
  apply sendToUser_keeps.
Qed.

Section OtherAccount.

Variables (c : Connection) (env : Env) (userId : UserId).
Hypothesis other_user : userId <> conn_userId c.

Lemma getAuthenticatedClient_keeps :
  preserves (keepsConn c) (ClassroomService.getAuthenticatedClient env userId).
Proof.
  unfold ClassroomService.getAuthenticatedClient.
  repeat pstep; first [keeps_leaf | apply refresh_keeps; [assumption | reflexivity]].
Qed.

Lemma syncCourses_keeps :
  preserves (keepsConn c) (ClassroomService.syncCourses env userId).
Proof.
  unfold ClassroomService.syncCourses, ClassroomService.syncCourse,
    ClassroomService.fetchTeacherName, ClassroomService.upsertCourse.
  pbind; [apply getAuthenticatedClient_keeps | intros _].
  repeat pstep; keeps_leaf.
Qed.

Lemma syncTasks_keeps :
  preserves (keepsConn c) (ClassroomService.syncTasks env userId).
Proof.
  unfold ClassroomService.syncTasks, ClassroomService.syncCourseTasks,
    ClassroomService.importWork.
  pbind; [apply getAuthenticatedClient_keeps | intros _].
  repeat pstep; keeps_leaf.
Qed.

Lemma syncConnection_keeps (email : string) (connection : Connection) :
  conn_userId connection = userId ->
  conn_id connection <> conn_id c ->
  preserves (keepsConn c) (SyncJob.processConnection env email connection).
Proof.
  intros Hu Hid.
  unfold SyncJob.processConnection, SyncJob.syncConnection,
    ClassroomService.checkForNewTasks.
  rewrite Hu.
  ptry; [|intros e; keeps_leaf].
  pbind; [apply syncCourses_keeps | intros _].
  pbind; [|intros result].
  { pbind; [pget | intros d0]. pbind; [apply syncTasks_keeps | intros _].
    repeat pstep. }
  pbind; [|intros _; apply touchLastSync_keeps; exact Hid].
  destruct (fst result); [|pret].
  pbind; [keeps_leaf | intros _]. pbind; [pget | intros d].
  pforEach. intros task _.
  pbind; [apply sendNewTaskNotification_keeps | intros _; pret].
Qed.

End OtherAccount.

Lemma NoDup_map_neq {A B} (f : A -> B) (l : list A) (a b : A) :
  NoDup (map f l) -> In a l -> In b l -> a <> b -> f a <> f b.
Proof.
  induction l as [|x l IH]; intros Hnd Ha Hb Hne; [destruct Ha|].
  inversion Hnd as [|? ? Hx Hl]; subst.
  destruct Ha as [->|Ha], Hb as [->|Hb].
  - congruence.
  - intro Heq. apply Hx. rewrite Heq. apply in_map; exact Hb.
  - intro Heq. apply Hx. rewrite <- Heq. apply in_map; exact Ha.
  - apply IH; assumption.
Qed.

(** C4: a connection with sync disabled or an empty access credential is
    left out of the pass: after [SyncJob.run] its row is in the table as it
    was ([lastSyncAt] included), the ids of the table are unchanged, and no
    upstream call was made for its account.  Connection ids and user ids
    are unique keys of the table. *)
Theorem ineligible_connection_never_polled (env : Env) (w : World) (c : Connection) :
  NoDup (map conn_id (connections (db w))) ->
  NoDup (map conn_userId (connections (db w))) ->
  In c (connections (db w)) ->
  conn_syncEnabled c = false \/ accessToken c = "" ->
  let w' := snd (SyncJob.run env w) in
  In c (connections (db w'))
  /\ map conn_id (connections (db w')) = map conn_id (connections (db w))
  /\ exists evs, trace w' = (trace w ++ evs)%list
                 /\ forall call, ~ In (EvApi (conn_userId c) call) evs.
Proof.
  intros Hid Huid Hin Hc. cbv zeta.
  assert (Hel : SyncJob.eligible c = false).
  { unfold SyncJob.eligible. destruct Hc as [-> | ->]; [reflexivity|].
    rewrite andb_false_r. reflexivity. }
  assert (Hrun : keepsConn c w (snd (SyncJob.run env w))).
  { unfold SyncJob.run. rewrite bind_run. unfold getDb. cbv beta iota.
    refine (preserves_bind (keepsConn c) _ _ _ _ w).
    - keeps_leaf.
    - intros _. pforEach. intros c' Hc'.
      apply filter_In in Hc'. destruct Hc' as [Hc'in Hc'el].
      assert (Hne : c' <> c) by (intro; subst; congruence).
      apply (syncConnection_keeps c env (conn_userId c')).
      + apply (NoDup_map_neq conn_userId _ c' c Huid Hc'in Hin Hne).
      + reflexivity.
      + apply (NoDup_map_neq conn_id _ c' c Hid Hc'in Hin Hne). }
  destruct Hrun as (Hi & Hm & He).
  split; [apply Hi; exact Hin|]. split; [exact Hm | exact He].
Qed.

Lemma ineligible_connection_never_polled_witness :
  let w' := snd (SyncJob.run SyncExamples.syncEnv (mkWorld JobExamples.twoConnections [])) in
  In JobExamples.emailOnly (connections (db w'))
  /\ map conn_id (connections (db w')) = [1%nat; 2%nat]
  /\ exists evs, trace w' = ([] ++ evs)%list
                 /\ forall call, ~ In (EvApi "u2" call) evs.
Proof.
  apply (ineligible_connection_never_polled SyncExamples.syncEnv
           (mkWorld JobExamples.twoConnections []) JobExamples.emailOnly).
  - simpl. repeat constructor; simpl; intuition discriminate.
  - simpl. repeat constructor; simpl; intuition discriminate.
  - right; left; reflexivity.
  - left; reflexivity.
Defined.

(** ** Failure isolation in the two jobs *)

(** The sync pass never throws: whatever happens while one connection is
    processed ends in its [catch]. *)
Lemma SyncJob_run_returns (env : Env) : returns (SyncJob.run env).
Proof.
  unfold SyncJob.run.
  apply returns_bind; [apply returns_getDb | intros d].
  apply returns_bind; [apply returns_emit | intros _].
  apply returns_forEach. intros connection _.
  unfold SyncJob.processConnection. apply returns_tryCatch.
  intros e. apply returns_emit.
Qed.

(** In the sync pass the failure of account u0 is logged with its e-mail
    and account u1 is still synchronised. *)
Example SyncJob_run_isolates :
  let r := SyncJob.run JobExamples.flakyUpstream (mkWorld JobExamples.twoOAuth []) in
  fst r = Ok tt
  /\ trace (snd r)
     = [EvLog (LogSyncProcessing 2);
        EvApi "u0" ApiCoursesList;
        EvLog (LogSyncUserError "u0@example.org" "500 internal error");
        EvApi "u1" ApiCoursesList;
        EvApi "u1" (ApiCourseWorkList "c-math");
        EvLog (LogSyncFound "u1@example.org" 2);
        EvLog (LogNoTokens "u1");
        EvLog (LogNoTokens "u1")]
  /\ map lastSyncAt (connections (db (snd r))) = [None; Some 5000000].
Proof. vm_compute. repeat split; reflexivity. Qed.

#[local] Instance traceGrows_preorder : PreOrder traceGrows.
Proof.
  split.
  - intros w. exists []. rewrite app_nil_r. reflexivity.
  - intros a b c [e1 H1] [e2 H2]. exists (e1 ++ e2)%list.
    rewrite H2, H1, app_assoc. reflexivity.
Qed.

Lemma emit_traceGrows (e : Event) : preserves traceGrows (emit e).
Proof. intros w. exists [e]. reflexivity. Qed.

Lemma modify_traceGrows (f : DB -> DB) : preserves traceGrows (modifyDb f).
Proof. intros w. exists []. simpl. rewrite app_nil_r. reflexivity. Qed.

Ltac grows_leaf := first [apply emit_traceGrows | apply modify_traceGrows].

Lemma handleTickets_traceGrows (tokens : list string) (data : list Ticket) :
  forall i, preserves traceGrows (NotificationService.handleTickets tokens i data).
Proof.
  induction data as [|ticket rest IH]; intros i; simpl; [pret|].
  pbind; [|intros _; apply IH].
  repeat pstep; grows_leaf.
Qed.

Lemma afterCourses_traceGrows (env : Env) (email : string) (connection : Connection) :
  preserves traceGrows
    (result <- ClassroomService.checkForNewTasks env (conn_userId connection) ;;
     (if fst result then
        emit (EvLog (LogSyncFound email (snd result))) ;;
        d <- getDb ;;
        forEach (SyncJob.recentClassroomTasks env d (conn_userId connection))
          (fun task =>
             NotificationService.sendNewTaskNotification env (conn_userId connection)
               (task_title task) (SyncJob.courseNameOf d task) ;; ret tt)
      else ret tt) ;;
     modifyDb (set_connections (SyncJob.touchLastSync env (conn_id connection)))).
Proof.
  unfold ClassroomService.checkForNewTasks, ClassroomService.syncTasks,
    ClassroomService.getAuthenticatedClient, ClassroomService.syncCourseTasks,
    ClassroomService.importWork, NotificationService.sendNewTaskNotification,
    NotificationService.sendToUser, NotificationService.sendExpoPush.
  repeat pstep; first [grows_leaf | apply handleTickets_traceGrows].
Qed.

Lemma syncCourse_traceGrows (env : Env) (userId : UserId) (course : UCourse) :
  preserves traceGrows (ClassroomService.syncCourse env userId course).
Proof.
  unfold ClassroomService.syncCourse, ClassroomService.fetchTeacherName,
    ClassroomService.upsertCourse.
  repeat pstep; grows_leaf.
Qed.

Lemma syncCourses_visits (env : Env) (userId : UserId) (w : World) :
  let r := ClassroomService.syncCourses env userId w in
  exists evs, trace (snd r) = (trace w ++ evs)%list
              /\ (is_ok (fst r) = true -> In (EvApi userId ApiCoursesList) evs).
Proof.
  cbv zeta. rewrite syncCourses_run.
  destruct (getAuthenticatedClient_grows (fun _ => True) env userId w)
    as (_ & _ & (evs0 & Ht0)).
  destruct (ClassroomService.getAuthenticatedClient env userId w) as [[u|e] w0];
    simpl in Ht0.
  - cbv zeta. destruct (coursesList env userId) as [response|e].
    + match goal with
      | |- context [forEachCollect ?l ?f ?w1] =>
          destruct (preserves_forEachCollect traceGrows l f
                      (fun x _ => syncCourse_traceGrows env userId x) w1)
            as [evs1 Ht1]
      end.
      simpl in Ht1. eexists. split.
      * rewrite Ht1, Ht0, <- !app_assoc. reflexivity.
      * intros _. apply in_or_app; right. left; reflexivity.
    + simpl. exists (evs0 ++ [EvApi userId ApiCoursesList])%list.
      split; [rewrite Ht0, app_assoc; reflexivity | discriminate].
  - simpl. exists evs0. split; [exact Ht0 | discriminate].
Qed.

Lemma processConnection_attempts (env : Env) (d : DB) (c : Connection) (w : World) :
  let r := SyncJob.processConnection env (SyncJob.emailOf d (conn_userId c)) c w in
  exists evs, trace (snd r) = (trace w ++ evs)%list /\ attempted d c evs.
Proof.
  cbv zeta. unfold SyncJob.processConnection, SyncJob.syncConnection.
  rewrite tryCatch_run, bind_run.
  destruct (syncCourses_visits env (conn_userId c) w) as (evs1 & Ht1 & Hv).
  cbv zeta in Ht1, Hv.
  destruct (ClassroomService.syncCourses env (conn_userId c) w) as [[cs|e] w1];
    simpl in Ht1, Hv.
  - pose proof (afterCourses_traceGrows env (SyncJob.emailOf d (conn_userId c)) c w1)
      as [evs2 Ht2].
    match goal with
    | |- context [match ?m w1 with _ => _ end] => destruct (m w1) as [[u|e] w2]
    end; simpl in Ht2 |- *.
    + exists (evs1 ++ evs2)%list. split; [rewrite Ht2, Ht1, app_assoc; reflexivity|].
      left. apply in_or_app; left. apply Hv; reflexivity.
    + exists ((evs1 ++ evs2) ++ [EvLog (LogSyncUserError
                                           (SyncJob.emailOf d (conn_userId c)) e)])%list.
      split; [rewrite Ht2, Ht1, !app_assoc; reflexivity|].
      left. apply in_or_app; left. apply in_or_app; left. apply Hv; reflexivity.
  - simpl. exists (evs1 ++ [EvLog (LogSyncUserError
                                     (SyncJob.emailOf d (conn_userId c)) e)])%list.
    split; [rewrite Ht1, app_assoc; reflexivity|].
    right. exists e. apply in_or_app; right. left; reflexivity.
Qed.

Lemma processConnection_traceGrows (env : Env) (email : string) (c : Connection) :
  preserves traceGrows (SyncJob.processConnection env email c).
Proof.
  unfold SyncJob.processConnection, SyncJob.syncConnection.
  ptry; [|intros e; grows_leaf].
  pbind; [|intros _; apply afterCourses_traceGrows].
  intros w. destruct (syncCourses_visits env (conn_userId c) w) as (evs & Ht & _).
  exists evs. exact Ht.
Qed.

Lemma connectionsLoop_attempts (env : Env) (d : DB) (l : list Connection) :
  forall w c, In c l ->
    let r := forEach l (fun connection =>
                          SyncJob.processConnection env
                            (SyncJob.emailOf d (conn_userId connection)) connection) w in
    exists evs, trace (snd r) = (trace w ++ evs)%list /\ attempted d c evs.
Proof.
  induction l as [|x l IH]; intros w c Hin; [destruct Hin|].
  cbv zeta. simpl. rewrite bind_run.
  destruct (processConnection_attempts env d x w) as (evs1 & Ht1 & Ha1).
  cbv zeta in Ht1.
  assert (Hret : is_ok (fst (SyncJob.processConnection env
                               (SyncJob.emailOf d (conn_userId x)) x w)) = true).
  { unfold SyncJob.processConnection.
    apply returns_tryCatch. intros e. apply returns_emit. }
  destruct (SyncJob.processConnection env (SyncJob.emailOf d (conn_userId x)) x w)
    as [[u|e] w1]; simpl in Ht1, Hret; [|discriminate].
  destruct Hin as [->|Hin].
  - pose proof (preserves_forEach traceGrows l
                  (fun connection =>
                     SyncJob.processConnection env
                       (SyncJob.emailOf d (conn_userId connection)) connection)
                  (fun y _ => processConnection_traceGrows env _ y) w1) as [evs2 Ht2].
    exists (evs1 ++ evs2)%list. split; [rewrite Ht2, Ht1, app_assoc; reflexivity|].
    destruct Ha1 as [Ha1|[e Ha1]]; [left | right; exists e];
      apply in_or_app; left; exact Ha1.
  - destruct (IH w1 c Hin) as (evs2 & Ht2 & Ha2). cbv zeta in Ht2.
    exists (evs1 ++ evs2)%list. split; [rewrite Ht2, Ht1, app_assoc; reflexivity|].
    destruct Ha2 as [Ha2|[e Ha2]]; [left | right; exists e];
      apply in_or_app; right; exact Ha2.
Qed.

(** The sync pass deals with every eligible connection, whatever happens
    to the ones before it. *)
Lemma SyncJob_run_attempts_all (env : Env) (w : World) (c : Connection) :
  In c (connections (db w)) ->
  SyncJob.eligible c = true ->
  exists evs, trace (snd (SyncJob.run env w)) = (trace w ++ evs)%list
              /\ attempted (db w) c evs.
Proof.
  intros Hin Hel. unfold SyncJob.run. rewrite bind_run. unfold getDb.
  cbv beta iota. rewrite bind_run. unfold emit at 1. cbv beta iota.
  match goal with
  | |- context [forEach ?l ?f ?w1] =>
      destruct (connectionsLoop_attempts env (db w) l w1 c) as (evs & Ht & Ha)
  end.
  { apply filter_In. split; assumption. }
  cbv zeta in Ht. simpl in Ht.
  eexists. split; [rewrite Ht, <- app_assoc; reflexivity|].
  destruct Ha as [Ha|[e Ha]]; [left | right; exists e]; right; exact Ha.
Qed.

(** In the reminder pass an error raised while one user is processed ends
    the loop: the users after it are not reached. *)
Lemma forEach_throws {A} (body : A -> M unit) (x : A) (rest : list A) (w w' : World)
    (e : string) :
  body x w = (Throw e, w') -> forEach (x :: rest) body w = (Throw e, w').
Proof. intros H. simpl. rewrite bind_run, H. reflexivity. Qed.

Lemma ReminderJob_run_propagates (env : Env) (w w' : World) (user : User)
    (rest : list User) (e : string) :
  users (db w) = user :: rest ->
  ReminderJob.processUser env user (findPrefs (db w) (user_id user))
    (ReminderJob.activeTokens (db w) (user_id user)) w = (Throw e, w') ->
  ReminderJob.run env w = (Throw e, w').
Proof.
  intros Hu Hp. unfold ReminderJob.run. rewrite bind_run. unfold getDb.
  cbv beta iota. rewrite Hu. apply forEach_throws. exact Hp.
Qed.

(** Both cron callbacks end normally: what leaves a job is logged there. *)
Lemma Cron_handlers_return (env : Env) :
  returns (Cron.syncHandler env) /\ returns (Cron.reminderHandler env).
Proof.
  split; apply returns_tryCatch; intros e; apply returns_emit.
Qed.

(** C6, reminder pass: [ReminderJob.run] has no [try]/[catch] around the
    body of its loop over users.  With the push gateway unreachable, the
    error raised while the first user's due reminder is sent leaves [run]:
    the second user's task is never evaluated, and the only handler that
    sees the error is the job-level one of the cron callback. *)
Theorem reminder_run_aborts_on_first_failure :
  let r := ReminderJob.run JobExamples.gatewayDown (mkWorld JobExamples.twoUsers []) in
  fst r = Throw "fetch failed"
  /\ dueCount 1%nat W1 (trace (snd r)) = 1%nat
  /\ dueCount 2%nat W1 (trace (snd r)) = 0%nat
  /\ map notified1h (tasks (db (snd r))) = [false; false]
  /\ (forall line, In (EvLog line) (trace (snd r)) -> False)
  /\ trace (snd (Cron.reminderHandler JobExamples.gatewayDown
                   (mkWorld JobExamples.twoUsers [])))
     = (trace (snd r) ++ [EvLog (LogCronError "Reminder job error" "fetch failed")])%list.
Proof.
  vm_compute. repeat split; try reflexivity.
  intros line [H|[H|[]]]; discriminate.
Qed.

(** * Further properties *)

(** ** NotificationService: what a delivery does to the device table *)

Lemma skipn_head {A} (l : list A) :
  forall i x rest, skipn i l = x :: rest ->
                   nth_error l i = Some x /\ skipn (S i) l = rest.
Proof.
  induction l as [|a l IH]; intros i x rest H.
  - destruct i; discriminate.
  - destruct i as [|i]; simpl in H.
    + injection H as -> ->. split; reflexivity.
    + destruct (IH i x rest H) as [H1 H2]. split; assumption.
Qed.

Lemma handleTickets_table (tokens : list string) (data : list Ticket) :
  forall i w,
    (List.length data <= List.length (skipn i tokens))%nat ->
    pushTokens (db (snd (NotificationService.handleTickets tokens i data w)))
    = map (fun p => if rejectedIn (skipn i tokens) data (pt_token p)
                    then NotificationService.deactivate p else p)
          (pushTokens (db w)).
Proof.
  induction data as [|ticket rest IH]; intros i w Hlen; simpl.
  - destruct (skipn i tokens); simpl; rewrite map_id; reflexivity.
  - destruct (skipn i tokens) as [|t ts] eqn:Hs; simpl in Hlen; [lia|].
    destruct (skipn_head tokens i t ts Hs) as [Hnth Hrest].
    rewrite bind_run.
    assert (Hhead :
      forall m : M unit,
        m = (if String.eqb (tk_status ticket) "error"
             then match tk_detailsError ticket with
                  | Some err =>
                      if String.eqb err "DeviceNotRegistered"
                      then modifyDb (set_pushTokens
                                       (NotificationService.deactivateWhere
                                          (nth_error tokens i)))
                      else ret tt
                  | None => ret tt
                  end
             else ret tt) ->
        fst (m w) = Ok tt
        /\ pushTokens (db (snd (m w)))
           = map (fun p => if isUnregistered ticket && String.eqb (pt_token p) t
                           then NotificationService.deactivate p else p)
                 (pushTokens (db w))).
    { intros m ->. unfold isUnregistered.
      destruct (String.eqb (tk_status ticket) "error"); simpl;
        [|split; [reflexivity | rewrite map_id; reflexivity]].
      destruct (tk_detailsError ticket) as [err|]; simpl;
        [|split; [reflexivity | rewrite map_id; reflexivity]].
      destruct (String.eqb err "DeviceNotRegistered"); simpl;
        [|split; [reflexivity | rewrite map_id; reflexivity]].
      split; [reflexivity|]. rewrite Hnth. reflexivity. }
    destruct (Hhead _ eq_refl) as [Hok Htab].
    match goal with
    | |- context [match ?m w with _ => _ end] => destruct (m w) as [[u|e] w1]
    end; simpl in Hok, Htab; [|discriminate].
    rewrite IH by (rewrite Hrest; lia).
    rewrite Htab, map_map, Hrest. apply map_ext. intros p. cbn [rejectedIn].
    destruct (isUnregistered ticket && String.eqb (pt_token p) t); simpl;
      [destruct (rejectedIn ts rest (pt_token p)); reflexivity | reflexivity].
Qed.

Lemma activeTokens_after (rej : string -> bool) (userId : UserId) (l : list PushToken) :
  filter (fun t => String.eqb (pt_userId t) userId && pt_isActive t)
         (map (fun p => if rej (pt_token p) then NotificationService.deactivate p else p) l)
  = filter (fun p => negb (rej (pt_token p)))
           (filter (fun t => String.eqb (pt_userId t) userId && pt_isActive t) l).
Proof.
  induction l as [|p l IH]; simpl; [reflexivity|].
  destruct (rej (pt_token p)) eqn:Hr; simpl.
  - rewrite andb_false_r, IH.
    destruct (String.eqb (pt_userId p) userId && pt_isActive p); simpl;
      [rewrite Hr|]; reflexivity.
  - destruct (String.eqb (pt_userId p) userId && pt_isActive p); simpl;
      [rewrite Hr; simpl|]; rewrite IH; reflexivity.
Qed.

Lemma sendExpoPush_run (env : Env) (tokens : list string) (message : PushMessage)
    (w : World) :
  NotificationService.sendExpoPush env tokens message w
  = let w1 := mkWorld (db w) (trace w ++ [EvPush tokens message])%list in
    match expoPush env tokens message with
    | Ok (Some data) =>
        match NotificationService.handleTickets tokens 0 data w1 with
        | (Ok _, w2) => (Ok (Some data), w2)
        | (Throw e, w2) => (Throw e, w2)
        end
    | Ok None => (Ok None, w1)
    | Throw e => (Throw e, w1)
    end.
Proof.
  unfold NotificationService.sendExpoPush.
  rewrite bind_run. unfold emit at 1. cbv beta iota.
  rewrite bind_run. unfold lift.
  destruct (expoPush env tokens message) as [[data|]|e]; reflexivity.
Qed.

(** X1: when the gateway answers a batch with one ticket per message, the
    devices it reports as not registered, and only those, stop being
    active: every user's active tokens afterwards are the ones they had,
    less the rejected ones. *)
Theorem sendExpoPush_deactivates_rejected (env : Env) (tokens : list string)
    (message : PushMessage) (data : list Ticket) (w : World) :
  expoPush env tokens message = Ok (Some data) ->
  (List.length data <= List.length tokens)%nat ->
  let r := NotificationService.sendExpoPush env tokens message w in
  fst r = Ok (Some data)
  /\ forall userId,
       ReminderJob.activeTokens (db (snd r)) userId
       = filter (fun p => negb (rejectedIn tokens data (pt_token p)))
                (ReminderJob.activeTokens (db w) userId).
Proof.
  intros Hpush Hlen. cbv zeta.
  rewrite sendExpoPush_run, Hpush. cbv zeta.
  set (w1 := mkWorld (db w) (trace w ++ [EvPush tokens message])%list).
  pose proof (handleTickets_table tokens data 0 w1 Hlen) as Htab.
  pose proof (handleTickets_returns tokens data 0 w1) as Hret.
  destruct (NotificationService.handleTickets tokens 0 data w1) as [[u|e] w2];
    simpl in Htab, Hret; [|discriminate].
  simpl. split; [reflexivity|]. intros userId.
  unfold ReminderJob.activeTokens. rewrite Htab. apply activeTokens_after.
Qed.

Lemma sendExpoPush_deactivates_rejected_witness :
  let r := NotificationService.sendExpoPush PushExamples.staleDevice
             ["ExponentPushToken[a]"; "ExponentPushToken[b]"] Examples.hello
             (mkWorld PushExamples.twoDevices []) in
  fst r = Ok (Some PushExamples.secondGone)
  /\ forall userId,
       ReminderJob.activeTokens (db (snd r)) userId
       = filter (fun p => negb (rejectedIn ["ExponentPushToken[a]"; "ExponentPushToken[b]"]
                                  PushExamples.secondGone (pt_token p)))
                (ReminderJob.activeTokens (db (mkWorld PushExamples.twoDevices [])) userId).
Proof.
  exact (sendExpoPush_deactivates_rejected PushExamples.staleDevice
           ["ExponentPushToken[a]"; "ExponentPushToken[b]"] Examples.hello
           PushExamples.secondGone (mkWorld PushExamples.twoDevices [])
           eq_refl ltac:(simpl; lia)).
Defined.

(** X2: [sendToUser] hands the gateway at most one batch, and never an
    empty one: it either skips for quiet hours, or finds no active token
    and says so, or sends the message to all active tokens of that user
    and to nothing else. *)
Theorem sendToUser_batch (env : Env) (userId : UserId) (message : PushMessage)
    (w : World) :
  let w' := snd (NotificationService.sendToUser env userId message w) in
  let mine := ReminderJob.activeTokens (db w) userId in
  trace w' = (trace w ++ [EvLog (LogQuietHours userId)])%list
  \/ (mine = [] /\ trace w' = (trace w ++ [EvLog (LogNoTokens userId)])%list)
  \/ (mine <> [] /\ trace w' = (trace w ++ [EvPush (map pt_token mine) message])%list).
Proof.
  cbv zeta. rewrite sendToUser_run.
  destruct (quietFor env (findPrefs (db w) userId)); [left; reflexivity|].
  right. destruct (ReminderJob.activeTokens (db w) userId) as [|tk tks] eqn:Hf.
  - left. split; reflexivity.
  - right. split; [discriminate|].
    pose proof (sendExpoPush_trace env (map pt_token (tk :: tks)) message w) as Ht.
    destruct (NotificationService.sendExpoPush env (map pt_token (tk :: tks)) message w)
      as [[r|e] w1]; simpl in Ht |- *; exact Ht.
Qed.

(** ** NotificationService: preference toggles *)

(** X3: a category helper whose toggle is switched off in the user's
    preference row does nothing at all: it returns [null] and leaves the
    store and the trace as they were (no log line, no gateway call). *)
Theorem disabled_category_is_silent (env : Env) (userId : UserId) (w : World)
    (p : NotificationPreference) :
  findPrefs (db w) userId = Some p ->
  (newTasksEnabled p = false ->
   forall title course,
     NotificationService.sendNewTaskNotification env userId title course w = (Ok None, w))
  /\ (classRemindersEnabled p = false ->
      forall name minutes,
        NotificationService.sendClassReminderNotification env userId name minutes w
        = (Ok None, w))
  /\ (gymRemindersEnabled p = false ->
      NotificationService.sendGymReminderNotification env userId w = (Ok None, w))
  /\ (propedeuticoEnabled p = false ->
      forall name,
        NotificationService.sendPropedeuticoReminderNotification env userId name w
        = (Ok None, w)).
Proof.
  intros Hp. repeat split; intros Hoff; intros;
    unfold NotificationService.sendNewTaskNotification,
      NotificationService.sendClassReminderNotification,
      NotificationService.sendGymReminderNotification,
      NotificationService.sendPropedeuticoReminderNotification;
    rewrite bind_run; unfold getDb; cbv beta iota;
    unfold disabled; rewrite Hp, Hoff; reflexivity.
Qed.

Lemma disabled_category_is_silent_witness :
  NotificationService.sendGymReminderNotification Examples.at2300 "u1"
    (mkWorld (ReminderExamples.reminderDB
                (mkPrefs "u1" true true 15 false true true true false None None)) [])
  = (Ok None,
     mkWorld (ReminderExamples.reminderDB
                (mkPrefs "u1" true true 15 false true true true false None None)) []).
Proof.
  exact (proj1 (proj2 (proj2 (disabled_category_is_silent Examples.at2300 "u1"
                                (mkWorld (ReminderExamples.reminderDB
                                            (mkPrefs "u1" true true 15 false true true true
                                                     false None None)) [])
                                _ eq_refl)))
               eq_refl).
Defined.

(** The message [sendTaskDueNotification] builds. *)
Lemma sendTaskDueNotification_run (env : Env) (userId : UserId) (title : string)
    (hoursLeft : Z) (w : World) :
  NotificationService.sendTaskDueNotification env userId title hoursLeft w
  = let prefs := findPrefs (db w) userId in
    if (hoursLeft <=? 1) && disabled prefs taskDue1hEnabled then (Ok None, w)
    else if (hoursLeft <=? 24) && (1 <? hoursLeft) && disabled prefs taskDue24hEnabled
    then (Ok None, w)
    else NotificationService.sendToUser env userId
           (dueMessage title hoursLeft) w.
Proof.
  unfold NotificationService.sendTaskDueNotification, dueMessage.
  rewrite bind_run. unfold getDb. cbv beta iota zeta.
  destruct ((hoursLeft <=? 1) && disabled (findPrefs (db w) userId) taskDue1hEnabled);
    [reflexivity|].
  destruct ((hoursLeft <=? 24) && (1 <? hoursLeft)
            && disabled (findPrefs (db w) userId) taskDue24hEnabled); reflexivity.
Qed.

(** X4: which toggle gates a task-due notification depends on the hours
    left alone: at most one hour left, the 1h toggle (the 24h toggle is not
    consulted); more than one and at most 24, the 24h toggle; more than 24
    hours left, no toggle at all: the message always goes on to
    [sendToUser]. *)
Theorem task_due_toggle_by_hours (env : Env) (userId : UserId) (title : string)
    (hoursLeft : Z) (w : World) (p : NotificationPreference) :
  findPrefs (db w) userId = Some p ->
  let call := NotificationService.sendTaskDueNotification env userId title hoursLeft w in
  let forwarded :=
    NotificationService.sendToUser env userId (dueMessage title hoursLeft) w in
  (hoursLeft <= 1 ->
   call = if taskDue1hEnabled p then forwarded else (Ok None, w))
  /\ (1 < hoursLeft <= 24 ->
      call = if taskDue24hEnabled p then forwarded else (Ok None, w))
  /\ (24 < hoursLeft -> call = forwarded).
Proof.
  intros Hp. cbv zeta. rewrite sendTaskDueNotification_run. cbv zeta.
  unfold disabled. rewrite Hp.
  repeat split; intros Hh.
  - assert (H1 : (hoursLeft <=? 1) = true) by (apply Z.leb_le; lia).
    rewrite H1. simpl.
    destruct (taskDue1hEnabled p); simpl; [|reflexivity].
    assert (H2 : (1 <? hoursLeft) = false) by (apply Z.ltb_ge; lia).
    rewrite H2, andb_false_r. reflexivity.
  - assert (H1 : (hoursLeft <=? 1) = false) by (apply Z.leb_gt; lia).
    assert (H2 : (hoursLeft <=? 24) = true) by (apply Z.leb_le; lia).
    assert (H3 : (1 <? hoursLeft) = true) by (apply Z.ltb_lt; lia).
    rewrite H1, H2, H3. simpl. destruct (taskDue24hEnabled p); reflexivity.
  - assert (H1 : (hoursLeft <=? 1) = false) by (apply Z.leb_gt; lia).
    assert (H2 : (hoursLeft <=? 24) = false) by (apply Z.leb_gt; lia).
    rewrite H1, H2. reflexivity.
Qed.

Lemma task_due_toggle_by_hours_witness :
  NotificationService.sendTaskDueNotification Examples.at2300 "u1" "Essay" 1
    (mkWorld (ReminderExamples.reminderDB ReminderExamples.prefs24hOff) [])
  = NotificationService.sendToUser Examples.at2300 "u1" (dueMessage "Essay" 1)
      (mkWorld (ReminderExamples.reminderDB ReminderExamples.prefs24hOff) [])
  /\ NotificationService.sendTaskDueNotification Examples.at2300 "u1" "Essay" 24
       (mkWorld (ReminderExamples.reminderDB ReminderExamples.prefs24hOff) [])
     = (Ok None, mkWorld (ReminderExamples.reminderDB ReminderExamples.prefs24hOff) [])
  /\ NotificationService.sendTaskDueNotification Examples.at2300 "u1" "Essay" 48
       (mkWorld (ReminderExamples.reminderDB ReminderExamples.prefs24hOff) [])
     = NotificationService.sendToUser Examples.at2300 "u1" (dueMessage "Essay" 48)
         (mkWorld (ReminderExamples.reminderDB ReminderExamples.prefs24hOff) []).
Proof.
  pose proof (fun h =>
                task_due_toggle_by_hours Examples.at2300 "u1" "Essay" h
                  (mkWorld (ReminderExamples.reminderDB ReminderExamples.prefs24hOff) [])
                  ReminderExamples.prefs24hOff eq_refl) as H.
  split; [|split].
  - exact (proj1 (H 1) ltac:(lia)).
  - exact (proj1 (proj2 (H 24)) ltac:(lia)).
  - exact (proj2 (proj2 (H 48)) ltac:(lia)).
Defined.

(** ** ReminderJob: times of day *)

Lemma in_range (n : nat) (z : Z) :
  0 <= z < Z.of_nat n -> In z (map Z.of_nat (seq 0 n)).
Proof.
  intros Hz. apply in_map_iff. exists (Z.to_nat z). split; [lia|].
  apply in_seq. lia.
Qed.

Lemma currentTime_showing (c : Clock) :
  currentTime c = currentTime (clockShowing (getHours c) (getMinutes c)).
Proof. reflexivity. Qed.

Lemma currentTime_fields (c : Clock) :
  currentTime c = (twoDigits (getHours c) ++ ":" ++ twoDigits (getMinutes c))%string.
Proof. reflexivity. Qed.

Lemma allTimesParse_holds : allTimesParse = true.
Proof. vm_compute. reflexivity. Qed.

Lemma hours_ordered : twoDigitsOrdered dayHours = true.
Proof. vm_compute. reflexivity. Qed.

Lemma minutes_ordered : twoDigitsOrdered hourMinutes = true.
Proof. vm_compute. reflexivity. Qed.

Lemma twoDigits_compare (l : list Z) (a b : Z) :
  twoDigitsOrdered l = true -> In a l -> In b l ->
  String.length (twoDigits a) = 2%nat
  /\ String.compare (twoDigits a) (twoDigits b) = (a ?= b).
Proof.
  intros H Ha Hb. unfold twoDigitsOrdered in H. rewrite forallb_forall in H.
  specialize (H a Ha). apply andb_true_iff in H. destruct H as [Hlen Hcmp].
  split; [apply Nat.eqb_eq; exact Hlen|].
  rewrite forallb_forall in Hcmp. specialize (Hcmp b Hb).
  destruct (String.compare (twoDigits a) (twoDigits b)), (a ?= b);
    try discriminate; reflexivity.
Qed.

Lemma compare_app (a a' b b' : string) :
  String.length a = String.length a' ->
  String.compare (a ++ b) (a' ++ b')
  = match String.compare a a' with
    | Eq => String.compare b b'
    | r => r
    end.
Proof.
  revert a'. induction a as [|x a IH]; intros [|x' a'] Hlen; try discriminate.
  - reflexivity.
  - simpl in Hlen. injection Hlen as Hlen. simpl.
    destruct (Ascii.compare x x'); [apply IH; exact Hlen | reflexivity | reflexivity].
Qed.

Lemma currentTime_compare (c c' : Clock) :
  validClock c -> validClock c' ->
  String.compare (currentTime c) (currentTime c') = (minuteOfDay c ?= minuteOfDay c').
Proof.
  intros [Hh Hm] [Hh' Hm']. rewrite !currentTime_fields.
  destruct (twoDigits_compare dayHours (getHours c) (getHours c') hours_ordered
              ltac:(apply (in_range 24); lia) ltac:(apply (in_range 24); lia))
    as [Hlen Hcmp].
  destruct (twoDigits_compare dayHours (getHours c') (getHours c) hours_ordered
              ltac:(apply (in_range 24); lia) ltac:(apply (in_range 24); lia))
    as [Hlen' _].
  destruct (twoDigits_compare hourMinutes (getMinutes c) (getMinutes c') minutes_ordered
              ltac:(apply (in_range 60); lia) ltac:(apply (in_range 60); lia))
    as [_ Hcmpm].
  rewrite compare_app by congruence. rewrite Hcmp.
  unfold minuteOfDay.
  destruct (getHours c ?= getHours c') eqn:E.
  - apply Z.compare_eq in E. rewrite E.
    change (":" ++ twoDigits (getMinutes c))%string
      with (String ":" (twoDigits (getMinutes c))).
    change (":" ++ twoDigits (getMinutes c'))%string
      with (String ":" (twoDigits (getMinutes c'))).
    simpl String.compare. rewrite Hcmpm.
    destruct (getMinutes c ?= getMinutes c') eqn:E'; symmetry.
    + apply Z.compare_eq in E'. apply Z.compare_eq_iff. lia.
    + rewrite Z.compare_lt_iff in E'. apply Z.compare_lt_iff. lia.
    + rewrite Z.compare_gt_iff in E'. apply Z.compare_gt_iff. lia.
  - rewrite Z.compare_lt_iff in E. symmetry. apply Z.compare_lt_iff. lia.
  - rewrite Z.compare_gt_iff in E. symmetry. apply Z.compare_gt_iff. lia.
Qed.

Lemma currentTime_parses (c : Clock) :
  validClock c -> ReminderJob.getTimeInMinutes (currentTime c) = Some (minuteOfDay c).
Proof.
  intros [Hh Hm].
  pose proof allTimesParse_holds as H. unfold allTimesParse in H.
  rewrite forallb_forall in H.
  specialize (H (getHours c) ltac:(apply (in_range 24); lia)).
  rewrite forallb_forall in H.
  specialize (H (getMinutes c) ltac:(apply (in_range 60); lia)).
  rewrite currentTime_showing.
  destruct (ReminderJob.getTimeInMinutes _) as [v|]; [|discriminate].
  apply Z.eqb_eq in H. rewrite H. reflexivity.
Qed.

(** X5: the "HH:MM" string both services print for the current time reads
    back, through [getTimeInMinutes], as the minute of the day; and on such
    strings the lexicographic order used by the quiet-hours test is the
    order in time. *)
Theorem time_of_day_round_trip (c c' : Clock) :
  validClock c -> validClock c' ->
  ReminderJob.getTimeInMinutes (currentTime c) = Some (minuteOfDay c)
  /\ JS.str_le (currentTime c) (currentTime c') = (minuteOfDay c <=? minuteOfDay c').
Proof.
  intros Hc Hc'. split.
  - apply currentTime_parses; exact Hc.
  - unfold JS.str_le, String.leb, Z.leb.
    rewrite (currentTime_compare c c' Hc Hc'). reflexivity.
Qed.

Lemma time_of_day_round_trip_witness :
  ReminderJob.getTimeInMinutes (currentTime (clockShowing 7 5))
  = Some (minuteOfDay (clockShowing 7 5))
  /\ JS.str_le (currentTime (clockShowing 7 5)) (currentTime (clockShowing 22 0))
     = (minuteOfDay (clockShowing 7 5) <=? minuteOfDay (clockShowing 22 0)).
Proof.
  exact (time_of_day_round_trip (clockShowing 7 5) (clockShowing 22 0)
           ltac:(unfold validClock; simpl; lia) ltac:(unfold validClock; simpl; lia)).
Defined.

Lemma isDigit_value (c : ascii) :
  JS.isDigit c = true ->
  exists d, JS.digit_val c = Some d /\ 0 <= d <= 9 /\ Ascii.eqb c ":" = false.
Proof.
  unfold JS.isDigit. destruct (JS.digit_val c) as [d|] eqn:E; [|discriminate].
  intros _. exists d. split; [reflexivity|].
  unfold JS.digit_val in E.
  destruct ((48 <=? Z.of_nat (nat_of_ascii c)) && (Z.of_nat (nat_of_ascii c) <=? 57))
    eqn:R; [|discriminate].
  injection E as <-. apply andb_true_iff in R. destruct R as [R1 R2].
  apply Z.leb_le in R1. apply Z.leb_le in R2. split; [lia|].
  apply Ascii.eqb_neq. intros ->. simpl in R2. lia.
Qed.

Lemma isHHMM_parses (s : string) :
  JS.isHHMM s = true ->
  exists start, ReminderJob.getTimeInMinutes s = Some start /\ 0 <= start <= 6039.
Proof.
  destruct s as [|a [|b [|c [|d [|e [|? ?]]]]]]; simpl; try discriminate.
  intros H. repeat (apply andb_true_iff in H; destruct H as [H ?]).
  destruct (isDigit_value a H) as (va & Ea & Ra & Na).
  destruct (isDigit_value b H3) as (vb & Eb & Rb & Nb).
  destruct (isDigit_value d H1) as (vd & Ed & Rd & Nd).
  destruct (isDigit_value e H0) as (ve & Ee & Re & Ne).
  unfold ReminderJob.getTimeInMinutes. simpl. rewrite Na, Nb, H2, Nd, Ne. simpl.
  unfold JS.Number. simpl. rewrite Ea, Eb, Ed, Ee. simpl.
  eexists. split; [reflexivity | lia].
Qed.

(** X6: for a start time in the format the schedule routes accept (two
    digits, a colon, two digits), a schedule entry is inside its lead time
    exactly when it starts strictly after now and at most [minutesBefore]
    minutes from now, both read as minutes of the same day: nothing fires
    at or after the start, nor for a start past midnight. *)
Theorem lead_time_window (c : Clock) (targetTime : string) (minutesBefore : Z) :
  validClock c ->
  JS.isHHMM targetTime = true ->
  exists start,
    ReminderJob.getTimeInMinutes targetTime = Some start
    /\ 0 <= start <= 6039
    /\ ReminderJob.isWithinMinutesBefore c targetTime minutesBefore
       = (minuteOfDay c <? start) && (start <=? minuteOfDay c + minutesBefore).
Proof.
  intros Hc Hs. destruct (isHHMM_parses targetTime Hs) as (start & E & R).
  exists start. split; [exact E|]. split; [exact R|].
  unfold ReminderJob.isWithinMinutesBefore.
  rewrite (currentTime_parses c Hc), E.
  destruct (Z.ltb_spec 0 (start - minuteOfDay c)),
    (Z.ltb_spec (minuteOfDay c) start),
    (Z.leb_spec (start - minuteOfDay c) minutesBefore),
    (Z.leb_spec start (minuteOfDay c + minutesBefore));
    simpl; try reflexivity; lia.
Qed.

Lemma lead_time_window_witness :
  exists start,
    ReminderJob.getTimeInMinutes "08:00" = Some start
    /\ 0 <= start <= 6039
    /\ ReminderJob.isWithinMinutesBefore (clockShowing 7 50) "08:00" 15
       = (minuteOfDay (clockShowing 7 50) <? start)
         && (start <=? minuteOfDay (clockShowing 7 50) + 15).
Proof.
  apply (lead_time_window (clockShowing 7 50) "08:00" 15).
  - unfold validClock; simpl; lia.
  - reflexivity.
Defined.

Example lead_time_window_example :
  ReminderJob.isWithinMinutesBefore (clockShowing 7 50) "08:00" 15 = true
  /\ ReminderJob.isWithinMinutesBefore (clockShowing 8 0) "08:00" 15 = false
  /\ ReminderJob.isWithinMinutesBefore (clockShowing 7 44) "08:00" 15 = false
  /\ ReminderJob.isWithinMinutesBefore (clockShowing 23 55) "00:05" 15 = false.
Proof. vm_compute. repeat split. Qed.

(** ** ReminderJob: what a pass does and does not do *)

Lemma forEach_idle {A} (body : A -> M unit) (l : list A) (w : World) :
  (forall x, In x l -> body x w = (Ok tt, w)) -> forEach l body w = (Ok tt, w).
Proof.
  induction l as [|x l IH]; intros H; simpl; [reflexivity|].
  rewrite bind_run, (H x (or_introl eq_refl)). apply IH.
  intros y Hy. apply H. right; exact Hy.
Qed.

(** X7: a pass over users none of whom has an active push token does
    nothing: no schedule is read, no flag is set, nothing is logged. *)
Theorem reminder_run_needs_a_device (env : Env) (w : World) :
  (forall u, In u (users (db w)) -> ReminderJob.activeTokens (db w) (user_id u) = []) ->
  ReminderJob.run env w = (Ok tt, w).
Proof.
  intros H. unfold ReminderJob.run. rewrite bind_run. unfold getDb. cbv beta iota.
  apply forEach_idle. intros u Hu. unfold ReminderJob.processUser.
  rewrite (H u Hu). reflexivity.
Qed.

Lemma reminder_run_needs_a_device_witness :
  ReminderJob.run JobExamples.gatewayDown
    (mkWorld (set_pushTokens (fun _ => []) JobExamples.twoUsers) [])
  = (Ok tt, mkWorld (set_pushTokens (fun _ => []) JobExamples.twoUsers) []).
Proof.
  apply (reminder_run_needs_a_device JobExamples.gatewayDown
           (mkWorld (set_pushTokens (fun _ => []) JobExamples.twoUsers) [])).
  intros u _. reflexivity.
Defined.

#[local] Instance flagsOnlyRise_preorder : PreOrder flagsOnlyRise.
Proof.
  split.
  - intros w. apply Forall2_same. apply risen_refl.
  - intros a b c. apply Forall2_compose. apply risen_trans.
Qed.

Lemma keepTasks_rise (m : M unit) :
  (forall w, tasks (db (snd (m w))) = tasks (db w)) -> preserves flagsOnlyRise m.
Proof.
  intros H w. unfold flagsOnlyRise. rewrite H. apply Forall2_same, risen_refl.
Qed.

Ltac rise_leaf :=
  first [ apply keepTasks_rise; intros ?; reflexivity
        | intros ?; apply (setter_risen W24)
        | intros ?; apply (setter_risen W1) ].

Lemma handleTickets_rise (tokens : list string) (data : list Ticket) :
  forall i, preserves flagsOnlyRise (NotificationService.handleTickets tokens i data).
Proof.
  induction data as [|ticket rest IH]; intros i; simpl; [pret|].
  pbind; [|intros _; apply IH].
  repeat pstep; rise_leaf.
Qed.

Lemma sendToUser_rise (env : Env) (userId : UserId) (message : PushMessage) :
  preserves flagsOnlyRise (NotificationService.sendToUser env userId message).
Proof.
  unfold NotificationService.sendToUser, NotificationService.sendExpoPush.
  repeat pstep; first [rise_leaf | apply handleTickets_rise].
Qed.

Lemma checkTaskDueReminders_rise (env : Env) (userId : UserId)
    (prefs : option NotificationPreference) :
  preserves flagsOnlyRise (ReminderJob.checkTaskDueReminders env userId prefs).
Proof.
  unfold ReminderJob.checkTaskDueReminders, ReminderJob.checkTask,
    NotificationService.sendTaskDueNotification.
  repeat pstep; first [rise_leaf | apply sendToUser_rise].
Qed.

Lemma processUser_rise (env : Env) (user : User) (prefs : option NotificationPreference)
    (tokens : list PushToken) :
  preserves flagsOnlyRise (ReminderJob.processUser env user prefs tokens).
Proof.
  unfold ReminderJob.processUser,
    NotificationService.sendClassReminderNotification,
    NotificationService.sendGymReminderNotification,
    NotificationService.sendPropedeuticoReminderNotification.
  repeat pstep;
    first [rise_leaf | apply sendToUser_rise | apply checkTaskDueReminders_rise].
Qed.

(** X8: whatever happens during a reminder pass, errors included, the task
    table afterwards has the same rows in the same order, each differing
    from what it was at most by a notified flag that went from false to
    true: the pass creates, deletes and edits nothing else, and never
    resets a flag. *)
Theorem reminder_run_only_raises_flags (env : Env) (w : World) :
  Forall2 risen (tasks (db w)) (tasks (db (snd (ReminderJob.run env w)))).
Proof.
  assert (H : preserves flagsOnlyRise (ReminderJob.run env)).
  { unfold ReminderJob.run. pbind; [pget|]. intros d. pforEach.
    intros user _. apply processUser_rise. }
  apply H.
Qed.

#[local] Instance sameDueFor_preorder (i : RowId) (k : Window) :
  PreOrder (sameDueFor i k).
Proof.
  split.
  - intros w. reflexivity.
  - intros a b c H1 H2. unfold sameDueFor in *. congruence.
Qed.

Lemma same_sameDueFor {A} (i : RowId) (k : Window) (m : M A) :
  preserves sameTasksAndDue m -> preserves (sameDueFor i k) m.
Proof. intros Hm w. destruct (Hm w) as [_ Hc]. apply Hc. Qed.

Lemma emit_sameDueFor (i : RowId) (k : Window) (e : Event) :
  isDue i k e = false -> preserves (sameDueFor i k) (emit e).
Proof.
  intros He w. unfold sameDueFor. simpl.
  rewrite dueCount_app. unfold dueCount at 2. simpl. rewrite He. simpl. lia.
Qed.

Lemma modify_sameDueFor (i : RowId) (k : Window) (f : DB -> DB) :
  preserves (sameDueFor i k) (modifyDb f).
Proof. intros w. reflexivity. Qed.

Lemma checkTask_sameDueFor (env : Env) (userId : UserId)
    (prefs : option NotificationPreference) (i : RowId) (k : Window) (x : Task) :
  (task_id x = i -> fires env prefs k x = false) ->
  preserves (sameDueFor i k) (ReminderJob.checkTask env userId prefs x).
Proof.
  intros Hx. unfold ReminderJob.checkTask, fires in *.
  destruct (dueDate x) as [due|]; [|pret].
  pbind; [|intros _].
  - destruct (not_disabled prefs taskDue24hEnabled && negb (notified24h x)) eqn:Hc;
      [|pret].
    destruct (ReminderJob.in24hWindow (due - nowMs (clock env))) eqn:Hw; [|pret].
    pbind; [|intros _; pbind; [|intros _]].
    + apply emit_sameDueFor. change 24 with (hoursOf W24). rewrite isDue_emitted.
      destruct (Nat.eqb (task_id x) i) eqn:E; [|reflexivity].
      apply Nat.eqb_eq in E. specialize (Hx E).
      destruct k; simpl in *; [|reflexivity].
      rewrite Hc, Hw in Hx. discriminate.
    + apply same_sameDueFor, sendTaskDueNotification_same.
    + apply modify_sameDueFor.
  - destruct (not_disabled prefs taskDue1hEnabled && negb (notified1h x)) eqn:Hc;
      [|pret].
    destruct (ReminderJob.in1hWindow (due - nowMs (clock env))) eqn:Hw; [|pret].
    pbind; [|intros _; pbind; [|intros _]].
    + apply emit_sameDueFor. change 1 with (hoursOf W1). rewrite isDue_emitted.
      destruct (Nat.eqb (task_id x) i) eqn:E; [|reflexivity].
      apply Nat.eqb_eq in E. specialize (Hx E).
      destruct k; simpl in *; [reflexivity|].
      rewrite Hc, Hw in Hx. discriminate.
    + apply same_sameDueFor, sendTaskDueNotification_same.
    + apply modify_sameDueFor.
Qed.

(** X9: a tick of the task-due check raises a reminder of window [k] for a
    task only if a row of that task belongs to the user, is PENDING or
    IN_PROGRESS, and passes the guard of [k] (due date set and inside the
    window, toggle not disabled, flag unset).  Tasks of other users,
    finished or late tasks, tasks without a due date and tasks outside the
    window get none, whether or not the sends of the tick fail. *)
Theorem no_reminder_unless_due (env : Env) (userId : UserId)
    (prefs : option NotificationPreference) (i : RowId) (k : Window) (w : World) :
  (forall row, In row (tasks (db w)) -> task_id row = i ->
               task_userId row <> userId
               \/ ReminderJob.isPending (task_status row) = false
               \/ fires env prefs k row = false) ->
  dueCount i k (trace (snd (ReminderJob.checkTaskDueReminders env userId prefs w)))
  = dueCount i k (trace w).
Proof.
  intros H. unfold ReminderJob.checkTaskDueReminders. rewrite bind_run.
  unfold getDb. cbv beta iota.
  refine (preserves_forEach (sameDueFor i k) _ _ _ w).
  intros x Hx. apply checkTask_sameDueFor. intros Hid.
  apply filter_In in Hx. destruct Hx as [Hin Hcand].
  apply andb_true_iff in Hcand. destruct Hcand as [Hcand _].
  apply andb_true_iff in Hcand. destruct Hcand as [Hu Hp].
  apply String.eqb_eq in Hu.
  destruct (H x Hin Hid) as [Hn|[Hn|Hn]]; [contradiction | congruence | exact Hn].
Qed.

Lemma no_reminder_unless_due_witness :
  dueCount 1%nat W1
    (trace (snd (ReminderJob.checkTaskDueReminders JobExamples.gatewayDown "u2" None
                   (mkWorld JobExamples.twoUsers []))))
  = dueCount 1%nat W1 (trace (mkWorld JobExamples.twoUsers [])).
Proof.
  apply (no_reminder_unless_due JobExamples.gatewayDown "u2" None 1%nat W1
           (mkWorld JobExamples.twoUsers [])).
  intros row [<-|[<-|[]]] Hid.
  - left. discriminate.
  - discriminate.
Defined.

#[local] Instance noGymPush_preorder (env : Env) : PreOrder (noGymPush env).
Proof.
  split.
  - intros w H. split; [exact H | reflexivity].
  - intros a b c H1 H2 Ha. destruct (H1 Ha) as [Hb E1].
    destruct (H2 Hb) as [Hc E2]. split; [exact Hc | congruence].
Qed.

Lemma emit_noGymPush (env : Env) (e : Event) :
  isGymPush e = false -> preserves (noGymPush env) (emit e).
Proof.
  intros He w H. split; [exact H|]. simpl. unfold gymPushCount.
  rewrite filter_app, length_app. simpl. rewrite He. simpl. lia.
Qed.

Lemma keepGym_noGymPush (env : Env) (m : M unit) :
  (forall w, gymSchedules (db (snd (m w))) = gymSchedules (db w)
             /\ trace (snd (m w)) = trace w) ->
  preserves (noGymPush env) m.
Proof.
  intros H w Hw. destruct (H w) as [Hg Ht]. rewrite Hg, Ht. split; [exact Hw | reflexivity].
Qed.

Ltac gym_leaf :=
  first [ apply emit_noGymPush; first [reflexivity | assumption]
        | apply keepGym_noGymPush; intros ?; split; reflexivity ].

Lemma handleTickets_noGymPush (env : Env) (tokens : list string) (data : list Ticket) :
  forall i, preserves (noGymPush env) (NotificationService.handleTickets tokens i data).
Proof.
  induction data as [|ticket rest IH]; intros i; simpl; [pret|].
  pbind; [|intros _; apply IH].
  repeat pstep; gym_leaf.
Qed.

Lemma sendToUser_noGymPush (env : Env) (userId : UserId) (message : PushMessage) :
  String.eqb (pm_type message) "gym_reminder" = false ->
  preserves (noGymPush env) (NotificationService.sendToUser env userId message).
Proof.
  intros Hm.
  unfold NotificationService.sendToUser, NotificationService.sendExpoPush.
  repeat pstep; first [gym_leaf | apply handleTickets_noGymPush].
Qed.

Lemma checkTaskDueReminders_noGymPush (env : Env) (userId : UserId)
    (prefs : option NotificationPreference) :
  preserves (noGymPush env) (ReminderJob.checkTaskDueReminders env userId prefs).
Proof.
  unfold ReminderJob.checkTaskDueReminders, ReminderJob.checkTask,
    NotificationService.sendTaskDueNotification.
  repeat pstep; first [gym_leaf | apply sendToUser_noGymPush; reflexivity].
Qed.

Lemma gymBlock_noGymPush (env : Env) (userId : UserId) :
  preserves (noGymPush env)
    (d <- getDb ;;
     forEach (ReminderJob.todaysGym userId (getDay (clock env)) (gymSchedules d))
       (fun gym =>
          if ReminderJob.includes (skippedDates gym) (todayStr (clock env)) then ret tt
          else if ReminderJob.isWithinMinutesBefore (clock env) (gym_startTime gym) 15
          then NotificationService.sendGymReminderNotification env userId ;; ret tt
          else ret tt)).
Proof.
  intros w Hw. rewrite bind_run. unfold getDb. cbv beta iota.
  rewrite forEach_idle; [split; [exact Hw | reflexivity]|].
  intros g Hg. apply filter_In in Hg. destruct Hg as [Hin Hc].
  apply andb_true_iff in Hc. destruct Hc as [Hc Hact].
  apply andb_true_iff in Hc. destruct Hc as [_ Hday].
  apply Z.eqb_eq in Hday. rewrite (Hw g Hin Hday Hact). reflexivity.
Qed.

Lemma processUser_noGymPush (env : Env) (user : User)
    (prefs : option NotificationPreference) (tokens : list PushToken) :
  preserves (noGymPush env) (ReminderJob.processUser env user prefs tokens).
Proof.
  unfold ReminderJob.processUser. destruct tokens as [|t ts]; [pret|]. cbv zeta.
  pbind; [|intros _; pbind; [|intros _; pbind; [|intros _]]].
  - unfold NotificationService.sendClassReminderNotification.
    repeat pstep; first [gym_leaf | apply sendToUser_noGymPush; reflexivity].
  - destruct (not_disabled prefs gymRemindersEnabled); [|pret].
    apply gymBlock_noGymPush.
  - unfold NotificationService.sendPropedeuticoReminderNotification.
    repeat pstep; first [gym_leaf | apply sendToUser_noGymPush; reflexivity].
  - apply checkTaskDueReminders_noGymPush.
Qed.

(** X10: when every active gym entry of today's weekday lists today among
    its skipped dates, a reminder pass hands no gym reminder to the push
    gateway, for any user and whatever else the pass sends; the gym table
    is left as it was. *)
Theorem skipped_gym_day_is_silent (env : Env) (w : World) :
  gymSkippedToday env (gymSchedules (db w)) ->
  gymPushCount (trace (snd (ReminderJob.run env w))) = gymPushCount (trace w)
  /\ gymSchedules (db (snd (ReminderJob.run env w))) = gymSchedules (db w).
Proof.
  intros Hw.
  assert (H : preserves (noGymPush env) (ReminderJob.run env)).
  { unfold ReminderJob.run. pbind; [pget|]. intros d. pforEach.
    intros user _. apply processUser_noGymPush. }
  split; [apply (H w Hw)|].
  assert (G : preserves (fun a b => gymSchedules (db b) = gymSchedules (db a))
                (ReminderJob.run env)).
  { assert (P : PreOrder (fun a b : World => gymSchedules (db b) = gymSchedules (db a))).
    { split; [intros a; reflexivity | intros a b c; congruence]. }
    assert (HT : forall tokens data i,
               preserves (fun a b : World => gymSchedules (db b) = gymSchedules (db a))
                 (NotificationService.handleTickets tokens i data)).
    { intros tokens data. induction data as [|ticket rest IH]; intros i; simpl; [pret|].
      pbind; [|intros _; apply IH].
      repeat pstep; intros ?; reflexivity. }
    unfold ReminderJob.run, ReminderJob.processUser,
      ReminderJob.checkTaskDueReminders, ReminderJob.checkTask,
      NotificationService.sendClassReminderNotification,
      NotificationService.sendGymReminderNotification,
      NotificationService.sendPropedeuticoReminderNotification,
      NotificationService.sendTaskDueNotification,
      NotificationService.sendToUser, NotificationService.sendExpoPush.
    repeat pstep; first [apply HT | intros ?; reflexivity]. }
  apply G.
Qed.

Lemma skipped_gym_day_is_silent_witness :
  gymPushCount (trace (snd (ReminderJob.run GymExamples.mondayEvening
                              (mkWorld (GymExamples.gymDB ["2026-01-05"]) []))))
  = gymPushCount (trace (mkWorld (GymExamples.gymDB ["2026-01-05"]) []))
  /\ gymSchedules (db (snd (ReminderJob.run GymExamples.mondayEvening
                              (mkWorld (GymExamples.gymDB ["2026-01-05"]) []))))
     = gymSchedules (db (mkWorld (GymExamples.gymDB ["2026-01-05"]) [])).
Proof.
  apply (skipped_gym_day_is_silent GymExamples.mondayEvening
           (mkWorld (GymExamples.gymDB ["2026-01-05"]) [])).
  intros g [<-|[]] _ _. reflexivity.
Defined.

(** The same Monday without the skip: the session starting in ten minutes
    gets its reminder. *)
Example gym_reminder_example :
  gymPushCount (trace (snd (ReminderJob.run GymExamples.mondayEvening
                              (mkWorld (GymExamples.gymDB ["2026-01-12"]) [])))) = 1%nat.
Proof. vm_compute. reflexivity. Qed.

(** ** ClassroomService: refusals, imported rows, counts *)

Lemma getAuthenticatedClient_refused (env : Env) (userId : UserId) (w : World)
    (e : string) :
  refusal (db w) userId = Some e ->
  ClassroomService.getAuthenticatedClient env userId w = (Throw e, w).
Proof.
  unfold refusal, ClassroomService.getAuthenticatedClient. rewrite bind_run.
  unfold getDb. cbv beta iota.
  destruct (ClassroomService.findConnection (db w) userId) as [connection|].
  - destruct (String.eqb (accessToken connection) ""); [|discriminate].
    intros [= <-]. reflexivity.
  - intros [= <-]. reflexivity.
Qed.

(** X11: for an account without a connection row the service throws
    "Google not connected", and for one linked by e-mail only (empty access
    token) it throws "OAuth not configured"; [syncCourses], [syncTasks] and
    [checkForNewTasks] pass the error on before any upstream call, and the
    database and the log are left exactly as they were. *)
Theorem sync_refused_without_oauth (env : Env) (userId : UserId) (w : World)
    (e : string) :
  refusal (db w) userId = Some e ->
  (e = "Google not connected" \/ e = "OAuth not configured")
  /\ ClassroomService.getAuthenticatedClient env userId w = (Throw e, w)
  /\ ClassroomService.syncCourses env userId w = (Throw e, w)
  /\ ClassroomService.syncTasks env userId w = (Throw e, w)
  /\ ClassroomService.checkForNewTasks env userId w = (Throw e, w).
Proof.
  intros H. pose proof (getAuthenticatedClient_refused env userId w e H) as Hc.
  split.
  - unfold refusal in H.
    destruct (ClassroomService.findConnection (db w) userId) as [connection|].
    + destruct (String.eqb (accessToken connection) ""); [|discriminate].
      right. congruence.
    + left. congruence.
  - split; [exact Hc|]. split; [|split].
    + rewrite syncCourses_run, Hc. reflexivity.
    + rewrite syncTasks_run, Hc. reflexivity.
    + unfold ClassroomService.checkForNewTasks. rewrite bind_run.
      unfold getDb. cbv beta iota zeta. rewrite bind_run, syncTasks_run, Hc.
      reflexivity.
Qed.

Lemma sync_refused_without_oauth_witness :
  ("OAuth not configured" = "Google not connected"
   \/ "OAuth not configured" = "OAuth not configured")
  /\ ClassroomService.getAuthenticatedClient SyncExamples.syncEnv "u2"
       (mkWorld JobExamples.twoConnections [])
     = (Throw "OAuth not configured", mkWorld JobExamples.twoConnections [])
  /\ ClassroomService.syncCourses SyncExamples.syncEnv "u2"
       (mkWorld JobExamples.twoConnections [])
     = (Throw "OAuth not configured", mkWorld JobExamples.twoConnections [])
  /\ ClassroomService.syncTasks SyncExamples.syncEnv "u2"
       (mkWorld JobExamples.twoConnections [])
     = (Throw "OAuth not configured", mkWorld JobExamples.twoConnections [])
  /\ ClassroomService.checkForNewTasks SyncExamples.syncEnv "u2"
       (mkWorld JobExamples.twoConnections [])
     = (Throw "OAuth not configured", mkWorld JobExamples.twoConnections []).
Proof.
  apply (sync_refused_without_oauth SyncExamples.syncEnv "u2"
           (mkWorld JobExamples.twoConnections []) "OAuth not configured").
  reflexivity.
Defined.

Lemma str_or_default_nonempty (o : option string) (d : string) :
  d <> "" -> JS.str_or o d <> "".
Proof.
  intros Hd. destruct o as [[|c s]|]; simpl; try exact Hd. discriminate.
Qed.

Lemma importedRow_fresh (env : Env) (userId : UserId) (t : Task) :
  importedRow env userId t -> freshImport env userId t.
Proof.
  intros (id & course & work & ->). unfold freshImport. simpl.
  repeat split; try discriminate.
  apply str_or_default_nonempty. discriminate.
Qed.

Lemma importWork_appends (env : Env) (userId : UserId) (course : Course) :
  appends (importedRow env userId) (ClassroomService.importWork env userId course).
Proof.
  intros work w. unfold ClassroomService.importWork. rewrite bind_run.
  unfold getDb. cbv beta iota.
  destruct (find _ (tasks (db w))).
  - exists [], w. rewrite app_nil_r. repeat split. constructor.
  - eexists _, _. cbv zeta. rewrite bind_run. unfold modifyDb. cbv beta iota.
    split; [reflexivity|]. split; [reflexivity|].
    constructor; [|constructor]. eexists _, _, _. reflexivity.
Qed.

Lemma forEachCollect_appends {A} (P : Task -> Prop) (body : A -> M (list Task))
    (l : list A) :
  appends P body ->
  forall w, exists L w',
    forEachCollect l body w = (Ok L, w')
    /\ tasks (db w') = (tasks (db w) ++ L)%list
    /\ Forall P L.
Proof.
  intros Hb. induction l as [|x rest IH]; intros w; simpl.
  - exists [], w. rewrite app_nil_r. repeat split. constructor.
  - destruct (Hb x w) as (L1 & w1 & E1 & T1 & P1).
    destruct (IH w1) as (L2 & w2 & E2 & T2 & P2).
    exists (L1 ++ L2)%list, w2. rewrite bind_run, E1, bind_run, E2.
    split; [reflexivity|]. split.
    + rewrite T2, T1, app_assoc. reflexivity.
    + apply Forall_app. split; assumption.
Qed.

Lemma syncCourseTasks_appends (env : Env) (userId : UserId) :
  appends (importedRow env userId) (ClassroomService.syncCourseTasks env userId).
Proof.
  intros c w. rewrite syncCourseTasks_run. cbv zeta.
  destruct (courseWorkList env userId (googleCourseId c)) as [response|e].
  - match goal with
    | |- context [forEachCollect ?ws ?f ?w0] =>
        destruct (forEachCollect_appends (importedRow env userId) f ws
                    (importWork_appends env userId c) w0) as (L & w' & E & T & HP)
    end.
    exists L, w'. rewrite E. repeat split; assumption.
  - eexists [], _. split; [reflexivity|]. simpl. rewrite app_nil_r.
    split; [reflexivity | constructor].
Qed.

Lemma syncTasks_appends (env : Env) (userId : UserId) (w : World) :
  match ClassroomService.syncTasks env userId w with
  | (Ok created, w') =>
      tasks (db w') = (tasks (db w) ++ created)%list
      /\ Forall (importedRow env userId) created
  | (Throw _, w') => tasks (db w') = tasks (db w)
  end.
Proof.
  rewrite syncTasks_run.
  destruct (getAuthenticatedClient_sameTables env userId w) as [Ht _].
  destruct (ClassroomService.getAuthenticatedClient env userId w) as [[u|e] w0];
    simpl in Ht; [|exact Ht].
  match goal with
  | |- context [forEachCollect ?cs ?f ?w1] =>
      destruct (forEachCollect_appends (importedRow env userId) f cs
                  (syncCourseTasks_appends env userId) w1) as (L & w' & E & T & HP)
  end.
  rewrite E. split; [congruence | exact HP].
Qed.

(** X12: when [syncTasks] returns, the list it returns is exactly what it
    appended to the task table, and every such task belongs to the user,
    is marked as coming from Classroom, has a non-empty title, a Classroom
    id and a course, carries the schema's default status and unset
    notification flags, is stamped with the current instant, and has
    priority HIGH when its due date is less than 24 hours ahead and MEDIUM
    otherwise (never LOW).  When it throws, the task table is untouched. *)
Theorem syncTasks_imports_fresh_rows (env : Env) (userId : UserId) (w : World) :
  match ClassroomService.syncTasks env userId w with
  | (Ok created, w') =>
      tasks (db w') = (tasks (db w) ++ created)%list
      /\ Forall (freshImport env userId) created
      /\ Forall (fun t => task_priority t <> LOW) created
  | (Throw _, w') => tasks (db w') = tasks (db w)
  end.
Proof.
  pose proof (syncTasks_appends env userId w) as H.
  destruct (ClassroomService.syncTasks env userId w) as [[created|e] w'];
    [|exact H].
  destruct H as [Ht HP]. split; [exact Ht|]. split.
  - eapply Forall_impl; [|exact HP]. apply importedRow_fresh.
  - eapply Forall_impl; [|exact HP]. intros t Hi.
    destruct (importedRow_fresh env userId t Hi)
      as (_ & _ & _ & _ & _ & Hp & _). rewrite Hp.
    destruct (dueDate t) as [due|]; [|discriminate].
    destruct (due <? _); discriminate.
Qed.

Lemma count_imported (env : Env) (userId : UserId) (d d' : DB) (created : list Task) :
  Forall (importedRow env userId) created ->
  tasks d' = (tasks d ++ created)%list ->
  ClassroomService.countClassroomTasks d' userId
  = ClassroomService.countClassroomTasks d userId + Z.of_nat (List.length created).
Proof.
  intros H Ht. unfold ClassroomService.countClassroomTasks. rewrite Ht. clear Ht.
  rewrite filter_app, length_app, Nat2Z.inj_add. f_equal. f_equal.
  induction H as [|t l (id & course & work & ->) _ IH]; [reflexivity|].
  simpl. rewrite String.eqb_refl. simpl. rewrite IH. reflexivity.
Qed.

Lemma checkForNewTasks_result (env : Env) (userId : UserId) (w : World) :
  match ClassroomService.syncTasks env userId w with
  | (Ok created, w') =>
      ClassroomService.checkForNewTasks env userId w
      = (Ok (negb (Nat.eqb (List.length created) 0),
             Z.of_nat (List.length created)), w')
  | (Throw e, w') => ClassroomService.checkForNewTasks env userId w = (Throw e, w')
  end.
Proof.
  pose proof (syncTasks_appends env userId w) as H.
  unfold ClassroomService.checkForNewTasks. rewrite bind_run.
  unfold getDb. cbv beta iota zeta. rewrite bind_run.
  destruct (ClassroomService.syncTasks env userId w) as [[created|e] w'];
    [|reflexivity].
  destruct H as [Ht HP]. rewrite bind_run. unfold ret. cbv beta iota.
  rewrite (count_imported env userId (db w) (db w') created HP Ht).
  match goal with
  | |- context [?b + Z.of_nat ?n - ?b] =>
      replace (b + Z.of_nat n - b) with (Z.of_nat n) by lia;
      replace (b <? b + Z.of_nat n) with (negb (Nat.eqb n 0)); [reflexivity|]
  end.
  destruct created; simpl List.length.
  - simpl. rewrite Z.add_0_r, Z.ltb_irrefl. reflexivity.
  - simpl Nat.eqb. simpl negb. symmetry. apply Z.ltb_lt. lia.
Qed.

(** X13: [checkForNewTasks] reports exactly the tasks [syncTasks] imported:
    when the sync returns a list, the count is the length of that list,
    [hasNew] says whether it is non-empty, and the number of Classroom
    tasks of the user has gone up by that count; when the sync throws, the
    error is passed on.  The state afterwards is the one the sync left. *)
Theorem checkForNewTasks_counts_imports (env : Env) (userId : UserId) (w : World) :
  match ClassroomService.syncTasks env userId w with
  | (Ok created, w') =>
      ClassroomService.checkForNewTasks env userId w
      = (Ok (negb (Nat.eqb (List.length created) 0),
             Z.of_nat (List.length created)), w')
      /\ ClassroomService.countClassroomTasks (db w') userId
         = ClassroomService.countClassroomTasks (db w) userId
           + Z.of_nat (List.length created)
  | (Throw e, w') => ClassroomService.checkForNewTasks env userId w = (Throw e, w')
  end.
Proof.
  pose proof (checkForNewTasks_result env userId w) as H.
  pose proof (syncTasks_appends env userId w) as Ha.
  destruct (ClassroomService.syncTasks env userId w) as [[created|e] w'];
    [|exact H].
  destruct Ha as [Ht HP]. split; [exact H|].
  apply (count_imported env userId (db w) (db w') created HP Ht).
Qed.

(** ** ClassroomService: the course table *)

Lemma syncCourse_result (env : Env) (userId : UserId) (course : UCourse) (w : World) :
  exists row w',
    ClassroomService.syncCourse env userId course w = (Ok [row], w')
    /\ courseHeader row = upstreamHeader env userId course.
Proof.
  unfold ClassroomService.syncCourse. rewrite bind_run, fetchTeacherName_run.
  rewrite bind_run. unfold ClassroomService.upsertCourse. rewrite bind_run.
  unfold getDb. cbv beta iota.
  destruct (find _ _) as [existing|] eqn:Hf.
  - apply find_some in Hf. destruct Hf as [_ Hs].
    apply sameCourse_iff in Hs. unfold courseKey in Hs. injection Hs as Hu Hg.
    eexists _, _. rewrite bind_run. unfold modifyDb. cbv beta iota.
    split; [reflexivity|]. unfold courseHeader, upstreamHeader. simpl.
    rewrite Hu, Hg. reflexivity.
  - eexists _, _. cbv zeta. rewrite bind_run. unfold modifyDb. cbv beta iota.
    split; reflexivity.
Qed.

Lemma coursesLoop_result (env : Env) (userId : UserId) (l : list UCourse) :
  forall w, exists rows w',
    forEachCollect l (ClassroomService.syncCourse env userId) w = (Ok rows, w')
    /\ map courseHeader rows = map (upstreamHeader env userId) l.
Proof.
  induction l as [|course rest IH]; intros w; simpl.
  - exists [], w. split; reflexivity.
  - destruct (syncCourse_result env userId course w) as (row & w1 & E1 & H1).
    destruct (IH w1) as (rows & w2 & E2 & H2).
    exists (row :: rows), w2. rewrite bind_run, E1, bind_run, E2.
    split; [reflexivity|]. simpl. rewrite H1, H2. reflexivity.
Qed.

(** X14: once the client is obtained and the upstream course list answers,
    [syncCourses] returns one row per listed course, in the listed order
    and with repetitions; each row belongs to the user, carries the
    upstream id, a name that falls back to "Unnamed Course", and the
    owner's name or the empty string when the teacher list fails or lacks
    the owner.  Every listed course has a row in the table afterwards. *)
Theorem syncCourses_returns_a_row_per_course (env : Env) (userId : UserId) (w : World)
    (response : option (list UCourse)) :
  is_ok (fst (ClassroomService.getAuthenticatedClient env userId w)) = true ->
  coursesList env userId = Ok response ->
  exists rows w',
    ClassroomService.syncCourses env userId w = (Ok rows, w')
    /\ map courseHeader rows = map (upstreamHeader env userId) (coursesOf response)
    /\ Forall (fun c => course_name c <> "") rows
    /\ (forall course, In course (coursesOf response) ->
                       present userId course (courses (db w')) = true).
Proof.
  intros Hok Hresp. rewrite syncCourses_run.
  destruct (ClassroomService.getAuthenticatedClient env userId w) as [[u|e] w0];
    simpl in Hok; [|discriminate].
  cbv zeta. rewrite Hresp.
  match goal with
  | |- context [forEachCollect ?l ?f ?w1] =>
      destruct (coursesLoop_result env userId l w1) as (rows & w' & E & H);
      pose proof (coursesLoop_state env userId l w1) as S
  end.
  cbv zeta in S. rewrite E in *. simpl in S. destruct S as (_ & Hst & _).
  exists rows, w'. split; [reflexivity|]. split; [exact H|]. split.
  - apply Forall_forall. intros c Hc.
    apply (in_map courseHeader) in Hc. rewrite H in Hc.
    apply in_map_iff in Hc. destruct Hc as (x & Hx & _).
    unfold courseHeader, upstreamHeader in Hx. injection Hx as _ _ Hn _.
    rewrite <- Hn. apply str_or_default_nonempty. discriminate.
  - intros course Hin.
    change (courses (db w')) with (fst (courseState w')). rewrite Hst.
    apply fold_makes_present. exact Hin.
Qed.

Lemma syncCourses_returns_a_row_per_course_witness :
  exists rows w',
    ClassroomService.syncCourses (CourseExamples.courseEnvAt 5000000) "u1"
      SyncExamples.syncWorld = (Ok rows, w')
    /\ map courseHeader rows
       = map (upstreamHeader (CourseExamples.courseEnvAt 5000000) "u1")
           (coursesOf (Some CourseExamples.upstreamCourses))
    /\ Forall (fun c => course_name c <> "") rows
    /\ (forall course, In course (coursesOf (Some CourseExamples.upstreamCourses)) ->
                       present "u1" course (courses (db w')) = true).
Proof.
  exact (syncCourses_returns_a_row_per_course (CourseExamples.courseEnvAt 5000000) "u1"
           SyncExamples.syncWorld (Some CourseExamples.upstreamCourses)
           eq_refl eq_refl).
Defined.

Lemma absent_untouched (env : Env) (userId : UserId) (x : UCourse) (rows : list Course) :
  present userId x rows = false -> map (touch env userId x) rows = rows.
Proof.
  unfold present. induction rows as [|r rows IH]; simpl; [reflexivity|].
  intros H. apply orb_false_iff in H. destruct H as [Hr Hrest].
  unfold touch at 1. rewrite Hr, (IH Hrest). reflexivity.
Qed.

Lemma fold_front (env : Env) (userId : UserId) (l : list UCourse) :
  forall st, exists added,
    fst (fold_left (upsertStep env userId) l st)
    = (map (applyAll env userId l) (fst st) ++ added)%list
    /\ Forall (fun c => course_userId c = userId) added.
Proof.
  induction l as [|x rest IH]; intros [rows nid]; simpl.
  - exists []. rewrite app_nil_r, map_id. split; [reflexivity | constructor].
  - unfold upsertStep at 2. simpl.
    destruct (present userId x rows) eqn:Hp.
    + destruct (IH (map (touch env userId x) rows, nid)) as (added & E & HA).
      exists added. rewrite E. simpl. rewrite map_map. split; [reflexivity | exact HA].
    + match goal with
      | |- context [(rows ++ [?new])%list] =>
          destruct (IH ((rows ++ [new])%list, S nid)) as (added & E & HA);
          exists (applyAll env userId rest new :: added)
      end.
      rewrite E. simpl. rewrite map_app, <- app_assoc. simpl. split.
      * f_equal. rewrite <- (absent_untouched env userId x rows Hp) at 1.
        rewrite map_map. reflexivity.
      * constructor; [|exact HA].
        match goal with
        | |- course_userId (applyAll _ _ _ ?new) = _ =>
            pose proof (applyAll_key env userId rest new) as Hk
        end.
        unfold courseKey in Hk. injection Hk as Hu _. rewrite Hu. reflexivity.
Qed.

Lemma applyAll_mirrored (env : Env) (userId : UserId) (l : list UCourse) (c : Course) :
  mirrored userId c (applyAll env userId l c).
Proof.
  destruct (applyAll_frame env userId l c) as [Hid Hs].
  split; [exact Hid|]. split; [apply applyAll_key|]. split; [exact Hs|].
  intros Hne. apply applyAll_untouched. intros y _.
  unfold ClassroomService.sameCourse.
  destruct (String.eqb (course_userId c) userId) eqn:E; [|reflexivity].
  apply String.eqb_eq in E. contradiction.
Qed.

Lemma mirrored_refl (userId : UserId) (c : Course) : mirrored userId c c.
Proof. repeat split; reflexivity. Qed.

Lemma Forall2_map_right {A} (R : A -> A -> Prop) (f : A -> A) (l : list A) :
  (forall a, R a (f a)) -> Forall2 R l (map f l).
Proof. intros H. induction l; simpl; constructor; auto. Qed.

(** X15: whatever its outcome, [syncCourses] deletes and reorders no course
    row: the rows that existed come first afterwards, each with its id, its
    owner, its upstream id and its syncEnabled setting as before, and the
    rows of other users are left exactly as they were; the rows added
    after them belong to the user.  The task table is untouched. *)
Theorem syncCourses_keeps_existing_rows (env : Env) (userId : UserId) (w : World) :
  exists front added,
    courses (db (snd (ClassroomService.syncCourses env userId w)))
    = (front ++ added)%list
    /\ Forall2 (mirrored userId) (courses (db w)) front
    /\ Forall (fun c => course_userId c = userId) added
    /\ tasks (db (snd (ClassroomService.syncCourses env userId w))) = tasks (db w).
Proof.
  rewrite syncCourses_run.
  destruct (getAuthenticatedClient_sameTables env userId w) as [Ht Hc].
  destruct (ClassroomService.getAuthenticatedClient env userId w) as [[u|e] w0];
    simpl in Ht, Hc.
  - cbv zeta. destruct (coursesList env userId) as [response|e].
    + match goal with
      | |- context [forEachCollect ?l ?f ?w1] =>
          pose proof (coursesLoop_state env userId l w1) as S;
          destruct (fold_front env userId l (courseState w1)) as (added & E & HA)
      end.
      cbv zeta in S. destruct S as (_ & Hst & Htk).
      rewrite <- Hst in E. simpl in E, Htk.
      eexists _, added. split; [exact E|]. split.
      * rewrite Hc. apply Forall2_map_right. apply applyAll_mirrored.
      * split; [exact HA | congruence].
    + exists (courses (db w)), []. simpl. rewrite app_nil_r, Hc.
      split; [reflexivity|]. split; [apply Forall2_same, mirrored_refl|].
      split; [constructor | exact Ht].
  - exists (courses (db w)), []. simpl. rewrite app_nil_r, Hc.
    split; [reflexivity|]. split; [apply Forall2_same, mirrored_refl|].
    split; [constructor | exact Ht].
Qed.

(** ** SyncJob: the last-sync stamp and the new-task pushes *)

Lemma syncConnection_run (env : Env) (email : string) (c : Connection) (w : World) :
  SyncJob.syncConnection env email c w
  = match ClassroomService.syncCourses env (conn_userId c) w with
    | (Ok _, w1) =>
        match ClassroomService.checkForNewTasks env (conn_userId c) w1 with
        | (Ok result, w2) =>
            match (if fst result then
                     emit (EvLog (LogSyncFound email (snd result))) ;;
                     d <- getDb ;;
                     forEach (SyncJob.recentClassroomTasks env d (conn_userId c))
                       (fun task =>
                          NotificationService.sendNewTaskNotification env (conn_userId c)
                            (task_title task) (SyncJob.courseNameOf d task) ;; ret tt)
                   else ret tt) w2 with
            | (Ok _, w3) =>
                (Ok tt, mkWorld (set_connections
                                   (SyncJob.touchLastSync env (conn_id c)) (db w3))
                          (trace w3))
            | (Throw e, w3) => (Throw e, w3)
            end
        | (Throw e, w2) => (Throw e, w2)
        end
    | (Throw e, w1) => (Throw e, w1)
    end.
Proof. reflexivity. Qed.

#[local] Instance sameStamps_preorder : PreOrder sameStamps.
Proof.
  split; [intros w; reflexivity | intros a b c H1 H2; unfold sameStamps in *; congruence].
Qed.

Lemma refresh_sameStamps (userId : UserId) (f : Connection -> Connection) :
  (forall c, conn_id (f c) = conn_id c /\ conn_userId (f c) = conn_userId c
             /\ lastSyncAt (f c) = lastSyncAt c) ->
  preserves sameStamps
    (modifyDb (set_connections (ClassroomService.updateConnectionWhereUser userId f))).
Proof.
  intros Hf w. unfold sameStamps, stamps. simpl.
  unfold ClassroomService.updateConnectionWhereUser. rewrite map_map.
  apply map_ext. intros c. destruct (String.eqb (conn_userId c) userId); [|reflexivity].
  destruct (Hf c) as (-> & -> & ->). reflexivity.
Qed.

Ltac stamps_leaf :=
  first [ intros ?; reflexivity
        | apply refresh_sameStamps; intros ?; repeat split; reflexivity ].



Lemma syncCourses_sameStamps (env : Env) (userId : UserId) :
  preserves sameStamps (ClassroomService.syncCourses env userId).
Proof.
  unfold ClassroomService.syncCourses, ClassroomService.getAuthenticatedClient,
    ClassroomService.syncCourse, ClassroomService.fetchTeacherName,
    ClassroomService.upsertCourse.
  repeat pstep; stamps_leaf.
Qed.




#[local] Instance sameTasksAndPushes_preorder : PreOrder sameTasksAndPushes.
Proof.
  split.
  - intros w. split; reflexivity.
  - intros a b c [H1 H2] [H3 H4]. split; congruence.
Qed.

Lemma emit_samePushes (e : Event) :
  isPush e = false -> preserves sameTasksAndPushes (emit e).
Proof.
  intros He w. split; [reflexivity|]. simpl.
  rewrite pushCount_app. unfold pushCount at 2. simpl. rewrite He. simpl. lia.
Qed.

Ltac pushes_leaf :=
  first [ apply emit_samePushes; reflexivity
        | intros ?; split; reflexivity ].

Lemma syncCourses_samePushes (env : Env) (userId : UserId) :
  preserves sameTasksAndPushes (ClassroomService.syncCourses env userId).
Proof.
  unfold ClassroomService.syncCourses, ClassroomService.getAuthenticatedClient,
    ClassroomService.syncCourse, ClassroomService.fetchTeacherName,
    ClassroomService.upsertCourse.
  repeat pstep; pushes_leaf.
Qed.

#[local] Instance pushesOnlyNews_preorder : PreOrder pushesOnlyNews.
Proof.
  split.
  - intros w. exists []. rewrite app_nil_r. split; reflexivity.
  - intros a b c (c1 & T1 & P1) (c2 & T2 & P2). exists (c1 ++ c2)%list. split.
    + rewrite T2, T1, app_assoc. reflexivity.
    + intros E. apply app_eq_nil in E. destruct E as [E1 E2].
      rewrite (P2 E2), (P1 E1). reflexivity.
Qed.

Lemma samePushes_onlyNews (w w' : World) :
  sameTasksAndPushes w w' -> pushesOnlyNews w w'.
Proof.
  intros [Ht Hp]. exists []. rewrite app_nil_r. split; [exact Ht | intros _; exact Hp].
Qed.

Lemma syncTasks_pushless (env : Env) (userId : UserId) (w : World) :
  pushCount (trace (snd (ClassroomService.syncTasks env userId w)))
  = pushCount (trace w).
Proof.
  assert (P : PreOrder (fun a b : World => pushCount (trace b) = pushCount (trace a))).
  { split; [intros a; reflexivity | intros a b c; congruence]. }
  assert (E : forall e, isPush e = false ->
                preserves (fun a b : World => pushCount (trace b) = pushCount (trace a))
                  (emit e)).
  { intros e He a. simpl. rewrite pushCount_app. unfold pushCount at 2. simpl.
    rewrite He. simpl. lia. }
  assert (H : preserves (fun a b : World => pushCount (trace b) = pushCount (trace a))
                (ClassroomService.syncTasks env userId)).
  { unfold ClassroomService.syncTasks, ClassroomService.getAuthenticatedClient,
      ClassroomService.syncCourseTasks, ClassroomService.importWork.
    repeat pstep; first [apply E; reflexivity | intros ?; reflexivity]. }
  apply H.
Qed.

Lemma notifyBlock_tasks (env : Env) (userId : UserId) (title : string)
    (courseName : option string) :
  preserves sameTasksAndDue
    (NotificationService.sendNewTaskNotification env userId title courseName).
Proof.
  unfold NotificationService.sendNewTaskNotification.
  pbind; [pget|]. intros d.
  destruct (disabled (findPrefs d userId) newTasksEnabled); [pret|].
  apply sendToUser_same.
Qed.

Lemma syncConnection_onlyNews (env : Env) (email : string) (c : Connection) :
  preserves pushesOnlyNews (SyncJob.syncConnection env email c).
Proof.
  intros w. rewrite syncConnection_run.
  pose proof (syncCourses_samePushes env (conn_userId c) w) as H1.
  destruct (ClassroomService.syncCourses env (conn_userId c) w) as [[rows|e] w1];
    simpl in H1; [|apply samePushes_onlyNews; exact H1].
  etransitivity; [apply samePushes_onlyNews; exact H1|]. clear H1.
  pose proof (checkForNewTasks_result env (conn_userId c) w1) as H2.
  pose proof (syncTasks_appends env (conn_userId c) w1) as H3.
  pose proof (syncTasks_pushless env (conn_userId c) w1) as H4.
  destruct (ClassroomService.syncTasks env (conn_userId c) w1) as [[created|e] w2];
    rewrite H2; simpl in H4.
  - destruct H3 as [Ht _]. destruct created as [|t created].
    + simpl. exists []. split; [exact Ht | intros _; exact H4].
    + simpl fst. cbv iota.
      match goal with
      | |- context [match ?blk w2 with _ => _ end] =>
          assert (H5 : preserves sameTasksAndDue blk);
          [|specialize (H5 w2); destruct (blk w2) as [[u|e] w3];
            destruct H5 as [H5 _]; simpl in H5]
      end.
      * pbind; [apply emit_same; intros ? ?; reflexivity|]. intros _.
        pbind; [pget|]. intros d. pforEach.
        intros task _. pbind; [apply notifyBlock_tasks|]. intros _. pret.
      * exists (t :: created). simpl. split; [congruence | discriminate].
      * exists (t :: created). simpl. split; [congruence | discriminate].
  - simpl. exists []. rewrite app_nil_r. split; [exact H3 | intros _; exact H4].
Qed.

(** X17: a sync pass hands a batch to the push gateway only if it imported
    a task: when the task table after the pass is the one before it, the
    number of pushes is unchanged, whatever the upstream answered. *)
Theorem sync_pass_pushes_only_news (env : Env) (w : World) :
  tasks (db (snd (SyncJob.run env w))) = tasks (db w) ->
  pushCount (trace (snd (SyncJob.run env w))) = pushCount (trace w).
Proof.
  assert (H : preserves pushesOnlyNews (SyncJob.run env)).
  { unfold SyncJob.run. pbind; [pget|]. intros d. cbv zeta.
    pbind; [intros a; apply samePushes_onlyNews; apply emit_samePushes; reflexivity|].
    intros _. pforEach. intros c _. unfold SyncJob.processConnection.
    ptry; [apply syncConnection_onlyNews|]. intros e.
    intros a. apply samePushes_onlyNews. apply emit_samePushes. reflexivity. }
  destruct (H w) as (created & Ht & Hp). intros E. apply Hp.
  rewrite E in Ht. rewrite <- (app_nil_r (tasks (db w))) in Ht at 1.
  apply app_inv_head in Ht. symmetry. exact Ht.
Qed.

Lemma sync_pass_pushes_only_news_witness :
  pushCount (trace (snd (SyncJob.run (Examples.quietUpstream (Examples.clockAt 5000000 12 0))
                           SyncExamples.syncWorld)))
  = pushCount (trace SyncExamples.syncWorld).
Proof.
  apply (sync_pass_pushes_only_news
           (Examples.quietUpstream (Examples.clockAt 5000000 12 0))
           SyncExamples.syncWorld).
  reflexivity.
Defined.

(** ** Routes: tasks *)

Lemma ownedTask_found (userId : UserId) (id : RowId) (l : list Task) (t : Task) :
  find (Routes.ownedTask id userId) l = Some t ->
  In t l /\ task_id t = id /\ task_userId t = userId.
Proof.
  intros H. apply find_some in H. destruct H as [Hin Ho].
  unfold Routes.ownedTask in Ho. apply andb_true_iff in Ho. destruct Ho as [H1 H2].
  apply Nat.eqb_eq in H1. apply String.eqb_eq in H2. auto.
Qed.

(** X18: with unique task ids, the delete route removes at most the one
    task it was asked for, and only if it belongs to the caller and does
    not come from Classroom: Classroom tasks and other users' tasks are
    all still there afterwards, nothing is added, and when the route
    answers success no row with that id is left. *)
Theorem deleteTask_spares_classroom_and_foreign (userId : UserId) (id : RowId)
    (w : World) :
  NoDup (map task_id (tasks (db w))) ->
  let r := Routes.deleteTask userId id w in
  (forall t, In t (tasks (db w)) ->
             isFromClassroom t = true \/ task_userId t <> userId \/ task_id t <> id ->
             In t (tasks (db (snd r))))
  /\ (forall t, In t (tasks (db (snd r))) -> In t (tasks (db w)))
  /\ (forall body, fst r = Routes.Sent 200 body ->
                   forall t, In t (tasks (db (snd r))) -> task_id t <> id).
Proof.
  intros Hnd. cbv zeta. unfold Routes.deleteTask.
  destruct (find (Routes.ownedTask id userId) (tasks (db w))) as [existing|] eqn:Hf.
  - apply ownedTask_found in Hf. destruct Hf as (Hin & Hid & Hu).
    destruct (isFromClassroom existing) eqn:Hc; simpl.
    + split; [auto|]. split; [auto|]. intros body Hb. discriminate.
    + split; [|split].
      * intros t Ht Hcase. apply filter_In. split; [exact Ht|].
        apply negb_true_iff, Nat.eqb_neq.
        destruct Hcase as [Hcl|[Hother|Hne]]; [| |exact Hne].
        -- rewrite <- Hid. apply (NoDup_map_neq task_id _ t existing Hnd Ht Hin).
           intros ->. congruence.
        -- rewrite <- Hid. apply (NoDup_map_neq task_id _ t existing Hnd Ht Hin).
           intros ->. contradiction.
      * intros t Ht. apply filter_In in Ht. apply Ht.
      * intros body _ t Ht. apply filter_In in Ht. destruct Ht as [_ Hn].
        apply negb_true_iff, Nat.eqb_neq in Hn. exact Hn.
  - simpl. split; [auto|]. split; [auto|]. intros body Hb. discriminate.
Qed.

Lemma deleteTask_spares_classroom_and_foreign_witness :
  let r := Routes.deleteTask "u1" 1%nat RouteExamples.taskWorld in
  (forall t, In t (tasks (db RouteExamples.taskWorld)) ->
             isFromClassroom t = true \/ task_userId t <> "u1" \/ task_id t <> 1%nat ->
             In t (tasks (db (snd r))))
  /\ (forall t, In t (tasks (db (snd r))) -> In t (tasks (db RouteExamples.taskWorld)))
  /\ (forall body, fst r = Routes.Sent 200 body ->
                   forall t, In t (tasks (db (snd r))) -> task_id t <> 1%nat).
Proof.
  apply (deleteTask_spares_classroom_and_foreign "u1" 1%nat RouteExamples.taskWorld).
  simpl. repeat constructor; simpl; intuition discriminate.
Defined.

Example deleteTask_example :
  fst (Routes.deleteTask "u1" 1%nat RouteExamples.taskWorld) = Routes.Sent 200 tt
  /\ map task_id (tasks (db (snd (Routes.deleteTask "u1" 1%nat RouteExamples.taskWorld))))
     = [2%nat; 3%nat]
  /\ Routes.deleteTask "u1" 2%nat RouteExamples.taskWorld
     = (Routes.Refused 400 "Cannot delete Classroom tasks. Mark as completed instead.",
        RouteExamples.taskWorld)
  /\ Routes.deleteTask "u1" 3%nat RouteExamples.taskWorld
     = (Routes.Refused 404 "Task not found", RouteExamples.taskWorld).
Proof. repeat split. Qed.

Lemma risen_settled (id : RowId) (l l' : list Task) :
  Forall2 risen l l' -> settled id l -> settled id l'.
Proof.
  intros H. induction H as [|t t' l l' Hr _ IH]; intros Hs row Hin Hid;
    [destruct Hin|].
  destruct Hin as [<-|Hin].
  - destruct Hr as [Ht' _]. rewrite Ht' in Hid |- *. simpl in *.
    apply (Hs t); [left; reflexivity | exact Hid].
  - apply IH; [|exact Hin | exact Hid].
    intros r Hr' Hi. apply (Hs r); [right; exact Hr' | exact Hi].
Qed.

Lemma tick_settled (env : Env) (userId : UserId) (prefs : option NotificationPreference)
    (id : RowId) (k : Window) (w : World) :
  settled id (tasks (db w)) ->
  settled id (tasks (db (snd (ReminderJob.checkTaskDueReminders env userId prefs w))))
  /\ dueCount id k (trace (snd (ReminderJob.checkTaskDueReminders env userId prefs w)))
     = dueCount id k (trace w).
Proof.
  intros Hs. split.
  - apply (risen_settled id (tasks (db w))); [|exact Hs].
    apply (checkTaskDueReminders_rise env userId prefs w).
  - unfold ReminderJob.checkTaskDueReminders. rewrite bind_run.
    unfold getDb. cbv beta iota.
    refine (preserves_forEach (sameDueFor id k) _ _ _ w).
    intros x Hx. apply checkTask_sameDueFor. intros Hid.
    apply filter_In in Hx. destruct Hx as [Hin Hcand].
    apply andb_true_iff in Hcand. destruct Hcand as [Hcand _].
    apply andb_true_iff in Hcand. destruct Hcand as [_ Hp].
    rewrite (Hs x Hin Hid) in Hp. discriminate.
Qed.

Lemma runTicks_settled (id : RowId) (k : Window) (userId : UserId)
    (prefs : option NotificationPreference) (envs : list Env) :
  forall w, settled id (tasks (db w)) ->
            dueCount id k (trace (runTicks envs userId prefs w)) = dueCount id k (trace w).
Proof.
  induction envs as [|env rest IH]; intros w Hs; simpl; [reflexivity|].
  destruct (tick_settled env userId prefs id k w Hs) as [Hs' Hc].
  rewrite (IH _ Hs'). exact Hc.
Qed.

(** X19: the complete route sets a Classroom task of the caller to
    SUBMITTED and any other task of the caller to COMPLETED, touching no
    other column and no other task; from then on no tick of the task-due
    check, for any user and at any time, raises a due reminder for it. *)
Theorem completed_task_is_not_reminded (userId : UserId) (id : RowId) (w w' : World)
    (body : Task) (envs : list Env) (reader : UserId)
    (prefs : option NotificationPreference) (k : Window) :
  Routes.completeTask userId id w = (Routes.Sent 200 body, w') ->
  (task_status body = SUBMITTED \/ task_status body = COMPLETED)
  /\ (task_status body = SUBMITTED <-> isFromClassroom body = true)
  /\ Forall2 (fun t t' => t' = if Nat.eqb (task_id t) id
                               then Routes.withStatus (task_status body) t else t)
       (tasks (db w)) (tasks (db w'))
  /\ dueCount id k (trace (runTicks envs reader prefs w')) = dueCount id k (trace w').
Proof.
  unfold Routes.completeTask.
  destruct (find (Routes.ownedTask id userId) (tasks (db w))) as [existing|];
    [|discriminate].
  cbv zeta. intros H. injection H as <- <-. simpl.
  split; [destruct (isFromClassroom existing); auto|].
  split; [destruct (isFromClassroom existing); split; congruence|].
  split.
  - induction (tasks (db w)) as [|t l IH]; simpl; constructor; [reflexivity | exact IH].
  - match goal with
    | |- context [runTicks _ _ _ ?w0] =>
        apply (runTicks_settled id k reader prefs envs w0)
    end.
    simpl. intros row Hin Hid.
    apply in_map_iff in Hin. destruct Hin as (t & <- & _).
    destruct (Nat.eqb (task_id t) id) eqn:E.
    + destruct (isFromClassroom existing); reflexivity.
    + apply Nat.eqb_neq in E. contradiction.
Qed.

Lemma completed_task_is_not_reminded_witness :
  (task_status (Routes.withStatus SUBMITTED (RouteExamples.classroomTask 2%nat "u1"))
   = SUBMITTED
   \/ task_status (Routes.withStatus SUBMITTED (RouteExamples.classroomTask 2%nat "u1"))
      = COMPLETED)
  /\ (task_status (Routes.withStatus SUBMITTED (RouteExamples.classroomTask 2%nat "u1"))
      = SUBMITTED
      <-> isFromClassroom
            (Routes.withStatus SUBMITTED (RouteExamples.classroomTask 2%nat "u1")) = true)
  /\ Forall2 (fun t t' => t' = if Nat.eqb (task_id t) 2%nat
                               then Routes.withStatus
                                      (task_status
                                         (Routes.withStatus SUBMITTED
                                            (RouteExamples.classroomTask 2%nat "u1"))) t
                               else t)
       (tasks (db RouteExamples.taskWorld))
       (tasks (db (snd (Routes.completeTask "u1" 2%nat RouteExamples.taskWorld))))
  /\ dueCount 2%nat W1
       (trace (runTicks ReminderExamples.ticks "u1" None
                 (snd (Routes.completeTask "u1" 2%nat RouteExamples.taskWorld))))
     = dueCount 2%nat W1
         (trace (snd (Routes.completeTask "u1" 2%nat RouteExamples.taskWorld))).
Proof.
  apply (completed_task_is_not_reminded "u1" 2%nat RouteExamples.taskWorld
           (snd (Routes.completeTask "u1" 2%nat RouteExamples.taskWorld))
           (Routes.withStatus SUBMITTED (RouteExamples.classroomTask 2%nat "u1"))
           ReminderExamples.ticks "u1" None W1).
  reflexivity.
Defined.

(** ** Routes: gym skip and unskip *)

Lemma ownedGym_found (userId : UserId) (id : RowId) (table : list Routes.GymRow)
    (row : Routes.GymRow) :
  find (Routes.ownedGym id userId) table = Some row ->
  In row table /\ Routes.gym_id row = id.
Proof.
  intros H. apply find_some in H. destruct H as [Hin Ho].
  unfold Routes.ownedGym in Ho. apply andb_true_iff in Ho. destruct Ho as [H1 _].
  apply Nat.eqb_eq in H1. auto.
Qed.

Lemma find_updateSkipped (userId : UserId) (id : RowId) (dates : list string)
    (table : list Routes.GymRow) (row : Routes.GymRow) :
  find (Routes.ownedGym id userId) table = Some row ->
  find (Routes.ownedGym id userId) (Routes.updateSkipped id dates table)
  = Some (Routes.withSkipped dates row).
Proof.
  induction table as [|r table IH]; simpl; [discriminate|].
  unfold Routes.ownedGym at 1 3.
  destruct (Nat.eqb (Routes.gym_id r) id) eqn:E; simpl.
  - rewrite E. simpl.
    destruct (String.eqb (gym_userId (Routes.gym_schedule r)) userId).
    + intros [= <-]. reflexivity.
    + exact IH.
  - rewrite E. simpl. exact IH.
Qed.

Lemma updateSkipped_twice (id : RowId) (a b : list string) (table : list Routes.GymRow) :
  Routes.updateSkipped id b (Routes.updateSkipped id a table)
  = Routes.updateSkipped id b table.
Proof.
  unfold Routes.updateSkipped. rewrite map_map. apply map_ext. intros r.
  destruct (Nat.eqb (Routes.gym_id r) id) eqn:E; simpl; rewrite E; reflexivity.
Qed.

Lemma gym_id_unique (table : list Routes.GymRow) (a b : Routes.GymRow) :
  NoDup (map Routes.gym_id table) -> In a table -> In b table ->
  Routes.gym_id a = Routes.gym_id b -> a = b.
Proof.
  induction table as [|x table IH]; intros Hnd Ha Hb E; [destruct Ha|].
  inversion Hnd as [|? ? Hx Hl]; subst.
  destruct Ha as [->|Ha], Hb as [->|Hb]; [reflexivity | | |auto].
  - exfalso. apply Hx. rewrite E. apply in_map. exact Hb.
  - exfalso. apply Hx. rewrite <- E. apply in_map. exact Ha.
Qed.

Lemma updateSkipped_restore (id : RowId) (table : list Routes.GymRow)
    (row : Routes.GymRow) :
  NoDup (map Routes.gym_id table) -> In row table -> Routes.gym_id row = id ->
  Routes.updateSkipped id (skippedDates (Routes.gym_schedule row)) table = table.
Proof.
  intros Hnd Hin Hid. unfold Routes.updateSkipped.
  rewrite <- (map_id table) at 2. apply map_ext_in. intros r Hr.
  destruct (Nat.eqb (Routes.gym_id r) id) eqn:E; [|reflexivity].
  apply Nat.eqb_eq in E.
  assert (r = row) as -> by (apply (gym_id_unique table); congruence).
  destruct row as [i [u d s a sk]]. reflexivity.
Qed.

Lemma unskip_after_skip (date : string) (l : list string) :
  ReminderJob.includes l date = false ->
  filter (fun d => negb (String.eqb d date)) (l ++ [date]) = l.
Proof.
  intros H. rewrite filter_app. simpl. rewrite String.eqb_refl. simpl.
  rewrite app_nil_r. unfold ReminderJob.includes in H.
  induction l as [|x l IH]; simpl in *; [reflexivity|].
  apply orb_false_iff in H. destruct H as [Hx Hl].
  rewrite String.eqb_sym, Hx. simpl. rewrite (IH Hl). reflexivity.
Qed.

Lemma includes_snoc (l : list string) (date : string) :
  ReminderJob.includes (l ++ [date]) date = true.
Proof.
  unfold ReminderJob.includes. rewrite existsb_app. simpl.
  rewrite String.eqb_refl. simpl. apply orb_true_r.
Qed.

(** X20: skipping a date on one of the caller's gym entries makes the reminder
    job's skip test succeed for it; skipping the same date again changes
    nothing (the date is not stored twice); and, with unique row ids,
    unskipping it gives back exactly the table from before the skip. *)
Theorem gym_skip_round_trip (userId : UserId) (id : RowId) (date : string)
    (table : list Routes.GymRow) (row : Routes.GymRow) :
  NoDup (map Routes.gym_id table) ->
  find (Routes.ownedGym id userId) table = Some row ->
  ReminderJob.includes (skippedDates (Routes.gym_schedule row)) date = false ->
  let skipped := snd (Routes.skipGym userId id date table) in
  (forall r, In r skipped -> Routes.gym_id r = id ->
             ReminderJob.includes (skippedDates (Routes.gym_schedule r)) date = true)
  /\ Routes.skipGym userId id date skipped = (Routes.Sent 200 tt, skipped)
  /\ Routes.unskipGym userId id date skipped = (Routes.Sent 200 tt, table).
Proof.
  intros Hnd Hf Hnot. cbv zeta.
  assert (Hs : snd (Routes.skipGym userId id date table)
               = Routes.updateSkipped id
                   (skippedDates (Routes.gym_schedule row) ++ [date])%list table).
  { unfold Routes.skipGym. rewrite Hf. cbv zeta. rewrite Hnot. reflexivity. }
  rewrite Hs. clear Hs.
  pose proof (find_updateSkipped userId id
                (skippedDates (Routes.gym_schedule row) ++ [date])%list table row Hf)
    as Hf'.
  destruct (ownedGym_found userId id table row Hf) as [Hin Hid].
  split; [|split].
  - intros r Hr Hrid. unfold Routes.updateSkipped in Hr.
    apply in_map_iff in Hr. destruct Hr as (r0 & <- & _).
    destruct (Nat.eqb (Routes.gym_id r0) id) eqn:E.
    + simpl. apply includes_snoc.
    + apply Nat.eqb_neq in E. contradiction.
  - unfold Routes.skipGym. rewrite Hf'. cbv zeta. simpl skippedDates.
    rewrite includes_snoc, updateSkipped_twice. reflexivity.
  - unfold Routes.unskipGym. rewrite Hf'. simpl skippedDates.
    rewrite (unskip_after_skip date _ Hnot), updateSkipped_twice.
    rewrite (updateSkipped_restore id table row Hnd Hin Hid). reflexivity.
Qed.

Lemma gym_skip_round_trip_witness :
  let skipped := snd (Routes.skipGym "u1" 1%nat "2026-01-05" RouteExamples.gymTable) in
  (forall r, In r skipped -> Routes.gym_id r = 1%nat ->
             ReminderJob.includes (skippedDates (Routes.gym_schedule r)) "2026-01-05"
             = true)
  /\ Routes.skipGym "u1" 1%nat "2026-01-05" skipped = (Routes.Sent 200 tt, skipped)
  /\ Routes.unskipGym "u1" 1%nat "2026-01-05" skipped
     = (Routes.Sent 200 tt, RouteExamples.gymTable).
Proof.
  apply (gym_skip_round_trip "u1" 1%nat "2026-01-05" RouteExamples.gymTable
           (Routes.mkGymRow 1%nat (mkGym "u1" 1 "18:00" true ["2026-01-12"]))).
  - simpl. repeat constructor; simpl; intuition discriminate.
  - reflexivity.
  - reflexivity.
Defined.

(** ** Routes: push tokens *)

Lemma activeTokens_map (userId : UserId) (f : PushToken -> PushToken)
    (keepIf : PushToken -> bool) (l : list PushToken) :
  (forall p, keepIf p = true -> f p = p) ->
  (forall p, keepIf p = false ->
             String.eqb (pt_userId (f p)) userId && pt_isActive (f p) = false) ->
  filter (fun t => String.eqb (pt_userId t) userId && pt_isActive t) (map f l)
  = filter keepIf (filter (fun t => String.eqb (pt_userId t) userId && pt_isActive t) l).
Proof.
  intros Hk Hd. induction l as [|p l IH]; simpl; [reflexivity|].
  destruct (keepIf p) eqn:E.
  - rewrite (Hk p E).
    destruct (String.eqb (pt_userId p) userId && pt_isActive p); simpl;
      [rewrite E, IH | rewrite IH]; reflexivity.
  - rewrite (Hd p E).
    destruct (String.eqb (pt_userId p) userId && pt_isActive p); simpl;
      [rewrite E, IH | rewrite IH]; reflexivity.
Qed.

Lemma upsertToken_hands_over (defaultActive : bool) (userId : UserId)
    (token : string) (table : list PushToken) :
  let table' := Routes.upsertToken defaultActive userId token table in
  (forall p, In p table' -> pt_token p = token -> pt_userId p = userId)
  /\ (forall other, other <> userId ->
                    filter (fun t => String.eqb (pt_userId t) other && pt_isActive t) table'
                    = withoutToken token
                        (filter (fun t => String.eqb (pt_userId t) other && pt_isActive t)
                                table))
  /\ (existsb (fun p => String.eqb (pt_token p) token) table = true
      \/ defaultActive = true ->
      In token
         (map pt_token
              (filter (fun t => String.eqb (pt_userId t) userId && pt_isActive t)
                      table'))).
Proof.
  cbv zeta.
  unfold Routes.upsertToken.
  destruct (existsb (fun p => String.eqb (pt_token p) token) table)
    eqn:Hex.
  - split; [|split].
    + intros p Hp Ht. apply in_map_iff in Hp. destruct Hp as (q & <- & _).
      destruct (String.eqb (pt_token q) token) eqn:E; [reflexivity|].
      apply String.eqb_neq in E. contradiction.
    + intros other Hne. unfold ReminderJob.activeTokens, withoutToken. simpl.
      apply activeTokens_map.
      * intros p Hp. apply negb_true_iff in Hp. rewrite Hp. reflexivity.
      * intros p Hp. apply negb_false_iff in Hp. rewrite Hp. simpl.
        apply String.eqb_neq in Hne. rewrite String.eqb_sym, Hne. reflexivity.
    + intros _. apply existsb_exists in Hex. destruct Hex as (q & Hq & Ht).
      apply in_map_iff.
      exists (mkPushToken userId (pt_token q) true). split.
      * simpl. apply String.eqb_eq. exact Ht.
      * unfold ReminderJob.activeTokens. apply filter_In. split.
        -- apply in_map_iff. exists q. rewrite Ht. split; [reflexivity | exact Hq].
        -- simpl. rewrite String.eqb_refl. reflexivity.
  - assert (Hnone : forall p, In p table -> pt_token p <> token).
    { intros p Hp Ht.
      assert (existsb (fun p => String.eqb (pt_token p) token) table = true)
        as Hc by (apply existsb_exists; exists p; split;
                  [exact Hp | apply String.eqb_eq; exact Ht]).
      congruence. }
    split; [|split].
    + intros p Hp Ht. apply in_app_or in Hp. destruct Hp as [Hp|[<-|[]]];
        [exfalso; exact (Hnone p Hp Ht) | reflexivity].
    + intros other Hne. unfold ReminderJob.activeTokens, withoutToken. simpl.
      rewrite filter_app. simpl.
      apply String.eqb_neq in Hne. rewrite String.eqb_sym, Hne. simpl.
      rewrite app_nil_r. symmetry. apply forallb_filter_id.
      apply forallb_forall. intros p Hp. apply filter_In in Hp. destruct Hp as [Hp _].
      apply negb_true_iff, String.eqb_neq. exact (Hnone p Hp).
    + intros [Hc| ->]; [discriminate|].
      apply in_map_iff. exists (mkPushToken userId token true).
      split; [reflexivity|]. unfold ReminderJob.activeTokens. apply filter_In. split.
      * apply in_or_app. right. left. reflexivity.
      * simpl. rewrite String.eqb_refl. reflexivity.
Qed.

(** X21: a register-token request whose token is not empty and whose
    platform is "ios" or "android" is answered with success and hands the
    device over to the caller: no row with that token belongs to anyone
    else afterwards, every other user's active tokens are what they were
    minus that token, and the caller's active tokens contain it whenever a
    row for it existed (whoever owned it, active or not) or new rows are
    active by default. *)
Theorem registerToken_hands_over (defaultActive : bool) (userId : UserId)
    (token platform : string) (w : World) :
  token <> "" ->
  platform = "ios" \/ platform = "android" ->
  let r := Routes.registerToken defaultActive userId (Some token) (Some platform) w in
  fst r = Routes.Sent 200 tt
  /\ (forall p, In p (pushTokens (db (snd r))) -> pt_token p = token ->
                pt_userId p = userId)
  /\ (forall other, other <> userId ->
                    ReminderJob.activeTokens (db (snd r)) other
                    = withoutToken token (ReminderJob.activeTokens (db w) other))
  /\ (existsb (fun p => String.eqb (pt_token p) token) (pushTokens (db w)) = true
      \/ defaultActive = true ->
      In token (map pt_token (ReminderJob.activeTokens (db (snd r)) userId))).
Proof.
  intros Htok Hplat. cbv zeta. unfold Routes.registerToken.
  apply String.eqb_neq in Htok. rewrite Htok.
  assert (Hp : Routes.isPlatform platform = true)
    by (destruct Hplat as [-> | ->]; reflexivity).
  rewrite Hp. simpl. split; [reflexivity|].
  apply (upsertToken_hands_over defaultActive userId token (pushTokens (db w))).
Qed.

Lemma registerToken_hands_over_witness :
  let r := Routes.registerToken true "u2" (Some "ExponentPushToken[a]") (Some "ios")
             (mkWorld (ReminderExamples.reminderDB (Examples.prefsAllOn "u1")) []) in
  fst r = Routes.Sent 200 tt
  /\ (forall p, In p (pushTokens (db (snd r))) -> pt_token p = "ExponentPushToken[a]" ->
                pt_userId p = "u2")
  /\ (forall other, other <> "u2" ->
                    ReminderJob.activeTokens (db (snd r)) other
                    = withoutToken "ExponentPushToken[a]"
                        (ReminderJob.activeTokens
                           (db (mkWorld (ReminderExamples.reminderDB
                                           (Examples.prefsAllOn "u1")) [])) other))
  /\ (existsb (fun p => String.eqb (pt_token p) "ExponentPushToken[a]")
              (pushTokens (db (mkWorld (ReminderExamples.reminderDB
                                          (Examples.prefsAllOn "u1")) []))) = true
      \/ true = true ->
      In "ExponentPushToken[a]"
         (map pt_token (ReminderJob.activeTokens (db (snd r)) "u2"))).
Proof.
  apply (registerToken_hands_over true "u2" "ExponentPushToken[a]" "ios"
           (mkWorld (ReminderExamples.reminderDB (Examples.prefsAllOn "u1")) [])).
  - discriminate.
  - left. reflexivity.
Defined.

(** A body the schema rejects is answered with 400 and changes nothing. *)
Lemma registerToken_validates (defaultActive : bool) (userId : UserId)
    (token platform : option string) (w : World) :
  token = None \/ token = Some ""
  \/ (forall plat, platform = Some plat -> Routes.isPlatform plat = false) ->
  Routes.registerToken defaultActive userId token platform w
  = (Routes.Refused 400 "Validation error", w).
Proof.
  unfold Routes.registerToken. intros [-> | [-> | H]]; try reflexivity.
  - destruct platform; reflexivity.
  - destruct token as [tok|]; [|reflexivity].
    destruct platform as [plat|]; [|reflexivity].
    rewrite (H plat eq_refl), andb_false_r. reflexivity.
Qed.

(** X22: unregistering with a token switches that token off for every
    user, whoever asks: each user's active tokens are what they were minus
    that token.  Unregistering without a token (absent or empty) switches
    off all tokens of the caller and leaves every other user's as they
    were.  No row is deleted either way. *)
Theorem unregisterToken_switches_off (userId : UserId) (token : option string)
    (w : World) :
  let w' := snd (Routes.unregisterToken userId token w) in
  map (fun p => (pt_userId p, pt_token p)) (pushTokens (db w'))
  = map (fun p => (pt_userId p, pt_token p)) (pushTokens (db w))
  /\ match token with
     | Some (String c s) =>
         forall user, ReminderJob.activeTokens (db w') user
                      = withoutToken (String c s) (ReminderJob.activeTokens (db w) user)
     | _ =>
         ReminderJob.activeTokens (db w') userId = []
         /\ forall other, other <> userId ->
                          ReminderJob.activeTokens (db w') other
                          = ReminderJob.activeTokens (db w) other
     end.
Proof.
  cbv zeta. unfold Routes.unregisterToken. cbv zeta.
  assert (Hall : forall l : list PushToken,
             filter (fun t => String.eqb (pt_userId t) userId && pt_isActive t)
               (map (fun p => if String.eqb (pt_userId p) userId
                              then NotificationService.deactivate p else p) l) = []).
  { induction l as [|p l IH]; simpl; [reflexivity|].
    destruct (String.eqb (pt_userId p) userId) eqn:E; simpl; rewrite ?E; simpl;
      rewrite ?andb_false_r; exact IH. }
  assert (Hother : forall other (l : list PushToken), other <> userId ->
             filter (fun t => String.eqb (pt_userId t) other && pt_isActive t)
               (map (fun p => if String.eqb (pt_userId p) userId
                              then NotificationService.deactivate p else p) l)
             = filter (fun t => String.eqb (pt_userId t) other && pt_isActive t) l).
  { intros other l Hne. induction l as [|p l IH]; simpl; [reflexivity|].
    destruct (String.eqb (pt_userId p) userId) eqn:E; simpl; [|rewrite IH; reflexivity].
    apply String.eqb_eq in E. rewrite E.
    apply not_eq_sym in Hne. apply String.eqb_neq in Hne. rewrite Hne. simpl.
    exact IH. }
  destruct token as [[|c s]|]; simpl.
  - split; [|split; [apply Hall | intros other Hne; apply Hother; exact Hne]].
    rewrite map_map. apply map_ext. intros p.
    destruct (String.eqb (pt_userId p) userId); reflexivity.
  - split.
    + unfold NotificationService.deactivateWhere. rewrite map_map. apply map_ext.
      intros p. destruct (String.eqb (pt_token p) (String c s)); reflexivity.
    + intros user. unfold ReminderJob.activeTokens, withoutToken,
        NotificationService.deactivateWhere.
      apply activeTokens_map.
      * intros p Hp. apply negb_true_iff in Hp. rewrite Hp. reflexivity.
      * intros p Hp. apply negb_false_iff in Hp. rewrite Hp. simpl.
        apply andb_false_r.
  - split; [|split; [apply Hall | intros other Hne; apply Hother; exact Hne]].
    rewrite map_map. apply map_ext. intros p.
    destruct (String.eqb (pt_userId p) userId); reflexivity.
Qed.

(** ** Routes: test notification and manual sync *)

(** X23: the test route answers 400 and does nothing when the caller has
    no active token.  Otherwise it answers 200 with the number of active
    tokens whenever [sendToUser] returns, also when quiet hours made it
    skip the push, in which case nothing reaches the gateway; outside
    quiet hours exactly one batch goes to all active tokens of the caller,
    and a gateway failure turns into a 500. *)
Theorem testNotification_reply (env : Env) (development : bool) (userId : UserId)
    (w : World) :
  let r := Routes.testNotification env development userId w in
  let mine := ReminderJob.activeTokens (db w) userId in
  (mine = [] -> r = (Routes.Refused 400 "No active push tokens found", w))
  /\ (mine <> [] -> quietFor env (findPrefs (db w) userId) = true ->
      r = (Routes.Sent 200 (List.length mine),
           mkWorld (db w) (trace w ++ [EvLog (LogQuietHours userId)])%list))
  /\ (mine <> [] -> quietFor env (findPrefs (db w) userId) = false ->
      trace (snd r) = (trace w ++ [EvPush (map pt_token mine) Routes.testMessage])%list
      /\ fst r = match expoPush env (map pt_token mine) Routes.testMessage with
                 | Ok _ => Routes.Sent 200 (List.length mine)
                 | Throw e => Routes.Refused 500 (Routes.internalError development e)
                 end).
Proof.
  cbv zeta. unfold Routes.testNotification. rewrite sendToUser_run.
  destruct (ReminderJob.activeTokens (db w) userId) as [|tk tks] eqn:Hm.
  - split; [reflexivity|]. split; intros Hne; contradiction.
  - split; [discriminate|]. split; intros _ Hq; rewrite Hq; [reflexivity|].
    pose proof (sendExpoPush_trace env (map pt_token (tk :: tks)) Routes.testMessage w)
      as Ht.
    rewrite sendExpoPush_run in Ht |- *. cbv zeta in Ht |- *.
    destruct (expoPush env (map pt_token (tk :: tks)) Routes.testMessage)
      as [[data|]|e].
    + pose proof (handleTickets_returns (map pt_token (tk :: tks)) data 0%nat
                    (mkWorld (db w)
                       (trace w ++ [EvPush (map pt_token (tk :: tks))
                                      Routes.testMessage])%list)) as Hr.
      destruct (NotificationService.handleTickets _ 0 data _) as [[u|e] w2];
        simpl in *; [|discriminate].
      split; [exact Ht | reflexivity].
    + split; reflexivity.
    + split; reflexivity.
Qed.

Lemma syncTasks_sameStamps (env : Env) (userId : UserId) :
  preserves sameStamps (ClassroomService.syncTasks env userId).
Proof.
  unfold ClassroomService.syncTasks, ClassroomService.getAuthenticatedClient,
    ClassroomService.syncCourseTasks, ClassroomService.importWork.
  repeat pstep; stamps_leaf.
Qed.

Lemma syncCourses_count (env : Env) (userId : UserId) (w w1 : World)
    (rows : list Course) :
  ClassroomService.syncCourses env userId w = (Ok rows, w1) ->
  exists response,
    coursesList env userId = Ok response
    /\ List.length rows = List.length (coursesOf response).
Proof.
  rewrite syncCourses_run.
  destruct (ClassroomService.getAuthenticatedClient env userId w) as [[u|e] w0];
    [|discriminate].
  cbv zeta. destruct (coursesList env userId) as [response|e]; [|discriminate].
  intros H. exists response. split; [reflexivity|].
  match type of H with
  | forEachCollect ?l ?f ?w' = _ =>
      destruct (coursesLoop_result env userId l w') as (rows' & w'' & E & Hh)
  end.
  rewrite E in H. injection H as <- _.
  rewrite <- (length_map courseHeader rows'), Hh, length_map. reflexivity.
Qed.

Lemma stampConnection_stamps (userId : UserId) (now : Z) (l : list Connection) :
  map (fun c => (conn_id c, conn_userId c, lastSyncAt c))
      (ClassroomService.updateConnectionWhereUser userId (Routes.stampConnection now) l)
  = markSyncedFor userId now (map (fun c => (conn_id c, conn_userId c, lastSyncAt c)) l).
Proof.
  unfold ClassroomService.updateConnectionWhereUser, markSyncedFor. rewrite !map_map.
  apply map_ext. intros c. simpl.
  destruct (String.eqb (conn_userId c) userId); reflexivity.
Qed.

(** X24: the manual sync route answers 400 and changes nothing when the
    caller has no connection or an e-mail-only one.  Otherwise, when it
    answers 200, the reported [coursesUpdated] is the number of courses the
    upstream listed, [newTasks] is the number of task rows appended, and
    the connection table has the rows and owners it had, with lastSyncAt
    set to the current instant on the caller's connection, which exists,
    and on no other; when a step of the sync throws, it answers 500 and no
    lastSyncAt is changed. *)
Theorem manualSync_report (env : Env) (development : bool) (userId : UserId)
    (w : World) :
  let r := Routes.manualSync env development userId w in
  match refusal (db w) userId with
  | Some _ => snd r = w /\ exists message, fst r = Routes.Refused 400 message
  | None =>
      match fst r with
      | Routes.Sent status report =>
          status = 200
          /\ (exists response,
                 coursesList env userId = Ok response
                 /\ Routes.coursesUpdated report = List.length (coursesOf response))
          /\ (exists created,
                 tasks (db (snd r)) = (tasks (db w) ++ created)%list
                 /\ Routes.newTasks report = List.length created)
          /\ stamps (snd r) = markSyncedFor userId (nowMs (clock env)) (stamps w)
          /\ (exists c, In c (connections (db (snd r)))
                        /\ conn_userId c = userId
                        /\ lastSyncAt c = Some (nowMs (clock env)))
      | Routes.Refused status _ => status = 500 /\ stamps (snd r) = stamps w
      end
  end.
Proof.
  cbv zeta. unfold refusal, Routes.manualSync.
  destruct (ClassroomService.findConnection (db w) userId) as [connection|] eqn:Hf;
    [|split; [reflexivity | eexists; reflexivity]].
  destruct (String.eqb (accessToken connection) "");
    [split; [reflexivity | eexists; reflexivity]|].
  pose proof (syncCourses_sameStamps env userId w) as S1.
  pose proof (syncCourses_samePushes env userId w) as T1.
  destruct (ClassroomService.syncCourses env userId w) as [[rows|e] w1] eqn:E1;
    unfold sameStamps in S1; simpl in S1, T1; [|simpl; split; [reflexivity | exact S1]].
  destruct T1 as [T1 _].
  pose proof (syncTasks_sameStamps env userId w1) as S2.
  pose proof (syncTasks_appends env userId w1) as A2.
  destruct (ClassroomService.syncTasks env userId w1) as [[created|e] w2];
    unfold sameStamps in S2; simpl in S2;
    [|simpl; split; [reflexivity | congruence]].
  destruct A2 as [A2 _].
  assert (HS : stamps (mkWorld (set_connections
                                  (ClassroomService.updateConnectionWhereUser userId
                                     (Routes.stampConnection (nowMs (clock env))))
                                  (db w2)) (trace w2))
               = markSyncedFor userId (nowMs (clock env)) (stamps w)).
  { unfold stamps at 1. simpl. rewrite stampConnection_stamps.
    unfold stamps in *. congruence. }
  simpl.
  split; [reflexivity|]. split; [exact (syncCourses_count env userId w w1 rows E1)|].
  split; [exists created; split; [congruence | reflexivity]|].
  split; [exact HS|].
  apply find_some in Hf. destruct Hf as [Hin Hu]. apply String.eqb_eq in Hu.
  assert (Hst : In (conn_id connection, conn_userId connection,
                    Some (nowMs (clock env)))
                  (markSyncedFor userId (nowMs (clock env)) (stamps w))).
  { unfold markSyncedFor, stamps. apply in_map_iff.
    exists (conn_id connection, conn_userId connection, lastSyncAt connection).
    split.
    - simpl. apply String.eqb_eq in Hu. rewrite Hu. reflexivity.
    - apply in_map_iff. exists connection. split; [reflexivity | exact Hin]. }
  rewrite <- HS in Hst. unfold stamps in Hst. simpl in Hst.
  apply in_map_iff in Hst. destruct Hst as (c' & Ec & Hc').
  injection Ec as _ Eu El. exists c'. split; [exact Hc'|]. split; congruence.
Qed.

(** ** ClassroomService: courses with sync switched off *)

#[local] Instance avoids_preorder (e : Event) : PreOrder (avoids e).
Proof.
  split.
  - intros w. exists []. rewrite app_nil_r. split; [reflexivity | intros []].
  - intros a b c (e1 & T1 & N1) (e2 & T2 & N2). exists (e1 ++ e2)%list. split.
    + rewrite T2, T1, app_assoc. reflexivity.
    + intros Hin. apply in_app_or in Hin. destruct Hin; auto.
Qed.

Lemma emit_avoids (e e' : Event) : e' <> e -> preserves (avoids e) (emit e').
Proof.
  intros Hne w. exists [e']. split; [reflexivity|]. intros [H|[]]. contradiction.
Qed.

Lemma modify_avoids (e : Event) (f : DB -> DB) : preserves (avoids e) (modifyDb f).
Proof. intros w. exists []. simpl. rewrite app_nil_r. split; [reflexivity | intros []]. Qed.

Lemma syncCourseTasks_avoids (env : Env) (userId : UserId) (gid : string) (c : Course) :
  googleCourseId c <> gid ->
  preserves (avoids (EvApi userId (ApiCourseWorkList gid)))
    (ClassroomService.syncCourseTasks env userId c).
Proof.
  intros Hne. unfold ClassroomService.syncCourseTasks, ClassroomService.importWork.
  repeat pstep;
    first [ apply modify_avoids
          | apply emit_avoids; first [discriminate | intros [= H]; contradiction] ].
Qed.

(** X25: [syncTasks] leaves alone every course of the user whose
    syncEnabled is false: when all the user's courses with upstream id
    [gid] are switched off, the pass never asks the upstream for the
    coursework of [gid], and every task it creates hangs under a course of
    the user that has sync enabled and another upstream id. *)
Theorem disabled_course_is_skipped (env : Env) (userId : UserId) (gid : string)
    (w : World) :
  (forall c, In c (courses (db w)) -> course_userId c = userId ->
             googleCourseId c = gid -> course_syncEnabled c = false) ->
  (exists evs,
      trace (snd (ClassroomService.syncTasks env userId w)) = (trace w ++ evs)%list
      /\ ~ In (EvApi userId (ApiCourseWorkList gid)) evs)
  /\ (exists created,
         tasks (db (snd (ClassroomService.syncTasks env userId w)))
         = (tasks (db w) ++ created)%list
         /\ Forall (underEnabledCourse userId gid (courses (db w))) created).
Proof.
  intros Hoff.
  assert (Hsel : forall c,
             In c (ClassroomService.syncedCourses userId (courses (db w))) ->
             In c (courses (db w)) /\ course_userId c = userId
             /\ course_syncEnabled c = true /\ googleCourseId c <> gid).
  { intros c Hc. apply filter_In in Hc. destruct Hc as [Hin Hb].
    apply andb_true_iff in Hb. destruct Hb as [Hu Hs]. apply String.eqb_eq in Hu.
    repeat split; try assumption.
    intros Hg. rewrite (Hoff c Hin Hu Hg) in Hs. discriminate. }
  split.
  - change (avoids (EvApi userId (ApiCourseWorkList gid)) w
              (snd (ClassroomService.syncTasks env userId w))).
    rewrite syncTasks_run.
    assert (Hc : preserves (avoids (EvApi userId (ApiCourseWorkList gid)))
                   (ClassroomService.getAuthenticatedClient env userId)).
    { unfold ClassroomService.getAuthenticatedClient.
      repeat pstep; first [apply modify_avoids | apply emit_avoids; discriminate]. }
    specialize (Hc w).
    destruct (getAuthenticatedClient_sameTables env userId w) as [_ Hcs].
    destruct (ClassroomService.getAuthenticatedClient env userId w) as [[u|e] w0];
      simpl in Hc, Hcs; [|exact Hc].
    etransitivity; [exact Hc|]. rewrite Hcs.
    apply preserves_forEachCollect; [typeclasses eauto|].
    intros c Hin. apply syncCourseTasks_avoids. apply (Hsel c Hin).
  - destruct (syncTasks_grows env userId w) as (_ & (created & Ht & HP) & _).
    exists created. split; [exact Ht|].
    eapply Forall_impl; [|exact HP].
    intros t (c & response & work & Hin & _ & _ & _ & _ & Hcid & _).
    exists c. destruct (Hsel c Hin) as (H1 & H2 & H3 & H4). auto.
Qed.

Lemma disabled_course_is_skipped_witness :
  (exists evs,
      trace (snd (ClassroomService.syncTasks SyncExamples.syncEnv "u1"
                    CourseOffExamples.artOff))
      = (trace CourseOffExamples.artOff ++ evs)%list
      /\ ~ In (EvApi "u1" (ApiCourseWorkList "c-art")) evs)
  /\ (exists created,
         tasks (db (snd (ClassroomService.syncTasks SyncExamples.syncEnv "u1"
                           CourseOffExamples.artOff)))
         = (tasks (db CourseOffExamples.artOff) ++ created)%list
         /\ Forall (underEnabledCourse "u1" "c-art"
                      (courses (db CourseOffExamples.artOff))) created).
Proof.
  apply (disabled_course_is_skipped SyncExamples.syncEnv "u1" "c-art"
           CourseOffExamples.artOff).
  intros c [<-|[<-|[]]] _ Hg; [discriminate | reflexivity].
Defined.

Example disabled_course_example :
  map (fun t => (task_title t, task_courseId t))
      (tasks (db (snd (ClassroomService.syncTasks SyncExamples.syncEnv "u1"
                         CourseOffExamples.artOff))))
  = [("Problem set", Some 10%nat); ("Reading", Some 10%nat)].
Proof. vm_compute. reflexivity. Qed.

(** ** ReminderJob: class reminders and the lead time *)

#[local] Instance noClassPush_preorder (env : Env) (d0 : DB) :
  PreOrder (noClassPush env d0).
Proof.
  split.
  - intros w H. split; [exact H | reflexivity].
  - intros a b c H1 H2 Ha. destruct (H1 Ha) as [Hb E1].
    destruct (H2 Hb) as [Hc E2]. split; [exact Hc | congruence].
Qed.

Lemma emit_noClassPush (env : Env) (d0 : DB) (e : Event) :
  isClassPush e = false -> preserves (noClassPush env d0) (emit e).
Proof.
  intros He w H. split; [exact H|]. simpl. unfold classPushCount.
  rewrite filter_app, length_app. simpl. rewrite He. simpl. lia.
Qed.

Lemma keepClasses_noClassPush (env : Env) (d0 : DB) (m : M unit) :
  (forall w, classSchedules (db (snd (m w))) = classSchedules (db w)
             /\ trace (snd (m w)) = trace w) ->
  preserves (noClassPush env d0) m.
Proof.
  intros H w Hw. destruct (H w) as [Hg Ht]. rewrite Hg, Ht.
  split; [exact Hw | reflexivity].
Qed.

Ltac class_leaf :=
  first [ apply emit_noClassPush; first [reflexivity | assumption]
        | apply keepClasses_noClassPush; intros ?; split; reflexivity ].

Lemma handleTickets_noClassPush (env : Env) (d0 : DB) (tokens : list string)
    (data : list Ticket) :
  forall i, preserves (noClassPush env d0)
              (NotificationService.handleTickets tokens i data).
Proof.
  induction data as [|ticket rest IH]; intros i; simpl; [pret|].
  pbind; [|intros _; apply IH].
  repeat pstep; class_leaf.
Qed.

Lemma sendToUser_noClassPush (env : Env) (d0 : DB) (userId : UserId)
    (message : PushMessage) :
  String.eqb (pm_type message) "class_reminder" = false ->
  preserves (noClassPush env d0) (NotificationService.sendToUser env userId message).
Proof.
  intros Hm.
  unfold NotificationService.sendToUser, NotificationService.sendExpoPush.
  repeat pstep; first [class_leaf | apply handleTickets_noClassPush].
Qed.

Lemma classBlock_noClassPush (env : Env) (d0 : DB) (user : User) :
  In user (users d0) ->
  preserves (noClassPush env d0)
    (d <- getDb ;;
     forEach (ReminderJob.todaysSchedules (user_id user) (getDay (clock env))
                (classSchedules d))
       (fun cls =>
          if ReminderJob.isWithinMinutesBefore (clock env) (sch_startTime cls)
               (JS.num_or (option_map classReminderMinutes (findPrefs d0 (user_id user)))
                  15)
          then NotificationService.sendClassReminderNotification env (user_id user)
                 (sch_name cls)
                 (JS.num_or (option_map classReminderMinutes
                               (findPrefs d0 (user_id user))) 15) ;; ret tt
          else ret tt)).
Proof.
  intros Hu w Hw. rewrite bind_run. unfold getDb. cbv beta iota.
  rewrite forEach_idle; [split; [exact Hw | reflexivity]|].
  intros s Hs. apply filter_In in Hs. destruct Hs as [Hin Hc].
  apply andb_true_iff in Hc. destruct Hc as [Hc Hact].
  apply andb_true_iff in Hc. destruct Hc as [Hown Hday].
  apply String.eqb_eq in Hown. apply Z.eqb_eq in Hday.
  pose proof (Hw user s Hu Hin Hown Hday Hact) as Hno. unfold leadMinutes in Hno.
  rewrite Hno. reflexivity.
Qed.

Lemma processUser_noClassPush (env : Env) (d0 : DB) (user : User)
    (tokens : list PushToken) :
  In user (users d0) ->
  preserves (noClassPush env d0)
    (ReminderJob.processUser env user (findPrefs d0 (user_id user)) tokens).
Proof.
  intros Hu. unfold ReminderJob.processUser. destruct tokens as [|t ts]; [pret|].
  cbv zeta.
  pbind; [|intros _; pbind; [|intros _; pbind; [|intros _]]].
  - destruct (not_disabled (findPrefs d0 (user_id user)) classRemindersEnabled); [|pret].
    apply classBlock_noClassPush. exact Hu.
  - unfold NotificationService.sendGymReminderNotification.
    repeat pstep; first [class_leaf | apply sendToUser_noClassPush; reflexivity].
  - unfold NotificationService.sendPropedeuticoReminderNotification.
    repeat pstep; first [class_leaf | apply sendToUser_noClassPush; reflexivity].
  - unfold ReminderJob.checkTaskDueReminders, ReminderJob.checkTask,
      NotificationService.sendTaskDueNotification.
    repeat pstep; first [class_leaf | apply sendToUser_noClassPush; reflexivity].
Qed.

(** X26: over class rows whose start times are in the format the schedule
    routes accept, a reminder pass hands a class reminder to the push
    gateway only if some active class of today's weekday starts within its
    owner's lead time, which is the owner's classReminderMinutes, or 15
    minutes when the preference row is missing or the value is 0: when no
    class is that close, the number of class reminders is unchanged by the
    pass. *)
Theorem class_reminder_needs_lead_window (env : Env) (w : World) :
  (forall s, In s (classSchedules (db w)) -> JS.isHHMM (sch_startTime s) = true) ->
  validClock (clock env) ->
  noClassSoon env (db w) (classSchedules (db w)) ->
  classPushCount (trace (snd (ReminderJob.run env w))) = classPushCount (trace w).
Proof.
  intros _ _ Hw. unfold ReminderJob.run. rewrite bind_run. unfold getDb. cbv beta iota.
  refine (proj2 (preserves_forEach (noClassPush env (db w)) _ _ _ w Hw)).
  intros user Hu. apply processUser_noClassPush. exact Hu.
Qed.

Lemma class_reminder_needs_lead_window_witness :
  classPushCount
    (trace (snd (ReminderJob.run GymExamples.mondayEvening
                   (mkWorld ClassExamples.classDB []))))
  = classPushCount (trace (mkWorld ClassExamples.classDB [])).
Proof.
  apply (class_reminder_needs_lead_window GymExamples.mondayEvening
           (mkWorld ClassExamples.classDB [])).
  - intros s [<-|[]]. reflexivity.
  - unfold validClock. simpl. lia.
  - intros u s [<-|[]] [<-|[]] _ _ _. vm_compute. reflexivity.
Defined.

(** Five minutes later the class is fifteen minutes away and the reminder
    goes out. *)
Example class_reminder_example :
  classPushCount
    (trace (snd (ReminderJob.run
                   (Examples.quietUpstream
                      (mkClock 5300000 17 55 1 "2026-01-05" (fun _ => 0)))
                   (mkWorld ClassExamples.classDB [])))) = 1%nat.
Proof. vm_compute. reflexivity. Qed.
